(** * MRWA workflow engine: a shallow embedding and its verified properties

    The development follows the Python sources

      - core/orchestrator/engine.py     (WorkflowEngine and the data model)
      - core/validation/validator.py    (Validator)
      - core/correction/strategies.py   (CorrectionStrategies)
      - core/correction/corrector.py    (Corrector)

    Python values are embedded as an inductive type of JSON-like values,
    exceptions as data, and the engine as a state-and-exception monad over
    the engine's mutable state.  Conventions of the embedding:

      - a Python [str] is a Rocq [string]; each character stands for the
        code point of the same number (0 to 255);
      - a Python [float] is a binary64 floating-point number, one of Rocq's
        primitive floats, with the IEEE 754 operations that Python uses;
      - [datetime.now()] is a read of a clock: a timestamp is the index of
        the read that produced it;
      - [asyncio.sleep] and the calls to the [logging] module have no effect
        on the engine's state and are left out. *)

From Stdlib Require Import String Ascii List ZArith Lia Bool Arith.
From Stdlib Require Import DecimalString PrimFloat.
Import ListNotations.
Local Open Scope list_scope.
Local Open Scope string_scope.
Local Open Scope nat_scope.

Set Implicit Arguments.
Set Warnings "-register-all".
Set Warnings "-inexact-float".

(* ================================================================== *)
(** * Python strings *)
(* ================================================================== *)

Module PyStr.

Definition code (c : ascii) : nat := nat_of_ascii c.

Definition backslash : ascii := ascii_of_nat 92.
Definition squote : ascii := ascii_of_nat 39.
Definition dquote : ascii := ascii_of_nat 34.
Definition tab : ascii := ascii_of_nat 9.
Definition newline : ascii := ascii_of_nat 10.
Definition creturn : ascii := ascii_of_nat 13.

(** [c.lower()] on one character: A-Z, and the upper-case letters of the
    Latin-1 block (all of 0xC0-0xDE but the multiplication sign 0xD7). *)
Definition lower_char (c : ascii) : ascii :=
  let n := code c in
  if (65 <=? n) && (n <=? 90) then ascii_of_nat (n + 32)
  else if (192 <=? n) && (n <=? 222) && negb (n =? 215) then ascii_of_nat (n + 32)
  else c.

(** [s.lower()] *)
Fixpoint lower (s : string) : string :=
  match s with
  | EmptyString => EmptyString
  | String c s' => String (lower_char c) (lower s')
  end.

(** [needle in hay] for two strings: some suffix of [hay] starts with
    [needle]. *)
Fixpoint contains (needle hay : string) : bool :=
  match hay with
  | EmptyString => prefix needle EmptyString
  | String _ hay' => prefix needle hay || contains needle hay'
  end.

(** [c in s] for one character. *)
Fixpoint has_char (c : ascii) (s : string) : bool :=
  match s with
  | EmptyString => false
  | String d s' => Ascii.eqb c d || has_char c s'
  end.

Definition hex_digit (n : nat) : ascii :=
  if n <? 10 then ascii_of_nat (48 + n) else ascii_of_nat (87 + n).

(** The escape [\xhh] of a code point below 256 (lower-case digits). *)
Definition hex_escape (n : nat) : string :=
  String backslash (String "x" (String (hex_digit (n / 16))
    (String (hex_digit (n mod 16)) EmptyString))).

(** [str.isprintable()] on one character: the ASCII range from the space
    to the tilde, and the Latin-1 range but the no-break space (0xA0) and
    the soft hyphen (0xAD). *)
Definition printable (c : ascii) : bool :=
  let n := code c in
  ((32 <=? n) && (n <? 127)) || ((161 <=? n) && negb (n =? 173)).

(** What [repr] writes for one character of a string delimited by the
    quote [q]. *)
Definition escape_char (q c : ascii) : string :=
  if Ascii.eqb c backslash then String backslash (String backslash EmptyString)
  else if Ascii.eqb c q then String backslash (String q EmptyString)
  else if Ascii.eqb c tab then String backslash "t"
  else if Ascii.eqb c newline then String backslash "n"
  else if Ascii.eqb c creturn then String backslash "r"
  else if printable c then String c EmptyString
  else hex_escape (code c).

Fixpoint escape (q : ascii) (s : string) : string :=
  match s with
  | EmptyString => EmptyString
  | String c s' => escape_char q c ++ escape q s'
  end.

(** The delimiter [repr] chooses: a double quote when the string holds a
    single quote and no double quote, a single quote otherwise. *)
Definition repr_quote (s : string) : ascii :=
  if has_char squote s && negb (has_char dquote s) then dquote else squote.

(** [repr(s)] for a string [s]. *)
Definition repr (s : string) : string :=
  let q := repr_quote s in
  String q (escape q s ++ String q EmptyString).

(** [sep.join(l)] *)
Fixpoint join (sep : string) (l : list string) : string :=
  match l with
  | [] => EmptyString
  | [x] => x
  | x :: l' => x ++ sep ++ join sep l'
  end.

(** [str(n)] for an integer. *)
Definition of_Z (z : Z) : string := NilZero.string_of_int (Z.to_int z).
Definition of_nat (n : nat) : string := of_Z (Z.of_nat n).

End PyStr.

(* ================================================================== *)
(** * Python values and exceptions *)
(* ================================================================== *)

(** The values a configuration, a task output or an input descriptor can
    hold: what [json] decodes to, floats apart.  A [dict] keeps its items
    in insertion order; a lookup returns the first item with the key. *)
Inductive PyVal : Type :=
| VNone
| VBool (b : bool)
| VInt (z : Z)
| VStr (s : string)
| VList (l : list PyVal)
| VDict (d : list (string * PyVal)).

Definition PyDict := list (string * PyVal).

Fixpoint dict_get (d : PyDict) (k : string) : option PyVal :=
  match d with
  | [] => None
  | (k', v) :: d' => if String.eqb k k' then Some v else dict_get d' k
  end.

(** [d.get(k, default)] *)
Definition dict_get_default (d : PyDict) (k : string) (default : PyVal) : PyVal :=
  match dict_get d k with Some v => v | None => default end.

(** [k in d] *)
Definition dict_has (d : PyDict) (k : string) : bool :=
  match dict_get d k with Some _ => true | None => false end.

(** [repr(v)] *)
Fixpoint py_repr (v : PyVal) : string :=
  match v with
  | VNone => "None"
  | VBool true => "True"
  | VBool false => "False"
  | VInt z => PyStr.of_Z z
  | VStr s => PyStr.repr s
  | VList l => "[" ++ PyStr.join ", " (map py_repr l) ++ "]"
  | VDict d =>
      "{" ++ PyStr.join ", "
               (map (fun kv : string * PyVal =>
                       let (k, x) := kv in PyStr.repr k ++ ": " ++ py_repr x) d)
          ++ "}"
  end.

(** [str(v)], which is also what an f-string writes for [{v}]. *)
Definition py_str (v : PyVal) : string :=
  match v with
  | VStr s => s
  | _ => py_repr v
  end.

(** [type(v).__name__] *)
Definition py_type_name (v : PyVal) : string :=
  match v with
  | VNone => "NoneType"
  | VBool _ => "bool"
  | VInt _ => "int"
  | VStr _ => "str"
  | VList _ => "list"
  | VDict _ => "dict"
  end.

(** An exception: its class and [str(e)]. *)
Record PyExc : Type := mkExc { exc_class : string; exc_str : string }.

(** The builtin classes that derive from [BaseException] and not from
    [Exception]; [asyncio.CancelledError] is one of them. A class of any
    other name is taken to derive from [Exception], as the classes of a
    program do. *)
Definition base_only_classes : list string :=
  [ "BaseException"; "BaseExceptionGroup"; "GeneratorExit";
    "KeyboardInterrupt"; "SystemExit"; "CancelledError" ].

(** [isinstance(e, Exception)] *)
Definition is_Exception (e : PyExc) : bool :=
  negb (existsb (String.eqb (exc_class e)) base_only_classes).

Definition KeyError (key : string) : PyExc :=
  mkExc "KeyError" (PyStr.repr key).

Definition AttributeError (v : PyVal) (attr : string) : PyExc :=
  mkExc "AttributeError"
        ("'" ++ py_type_name v ++ "' object has no attribute '" ++ attr ++ "'").

Definition TypeError_no_len (v : PyVal) : PyExc :=
  mkExc "TypeError" ("object of type '" ++ py_type_name v ++ "' has no len()").

(** The outcome of a call that may raise. *)
Inductive Result (A : Type) : Type :=
| Ok (a : A)
| Raise (e : PyExc).
Arguments Ok {A} a.
Arguments Raise {A} e.

Definition rbind {A B} (r : Result A) (f : A -> Result B) : Result B :=
  match r with
  | Ok a => f a
  | Raise e => Raise e
  end.

(** [len(v)] *)
Definition py_len (v : PyVal) : Result nat :=
  match v with
  | VStr s => Ok (String.length s)
  | VList l => Ok (List.length l)
  | VDict d => Ok (List.length d)
  | _ => Raise (TypeError_no_len v)
  end.

(** The items [for x in v] goes through: the elements of a list, the
    characters of a string, the keys of a dict.  (Only reached after
    [len(v)] succeeded, so the other values need no case of their own.) *)
Definition py_iter (v : PyVal) : list PyVal :=
  match v with
  | VStr s => map (fun c => VStr (String c EmptyString)) (list_ascii_of_string s)
  | VList l => l
  | VDict d => map (fun kv => VStr (fst kv)) d
  | _ => []
  end.

(** [v.get(k, default)]: a dict method. *)
Definition py_get (v : PyVal) (k : string) (default : PyVal) : Result PyVal :=
  match v with
  | VDict d => Ok (dict_get_default d k default)
  | _ => Raise (AttributeError v "get")
  end.

(** [v.lower()]: a str method. *)
Definition py_lower (v : PyVal) : Result string :=
  match v with
  | VStr s => Ok (PyStr.lower s)
  | _ => Raise (AttributeError v "lower")
  end.

(* ================================================================== *)
(** * The data model (engine.py) *)
(* ================================================================== *)

(** A timestamp: the index of the clock read that produced it. *)
Definition Time := nat.

Module WorkflowStage.
Inductive t : Set :=
| IDLE | INGESTING | PLANNING | EXECUTING | VALIDATING | CORRECTING
| COMPLETED | FAILED.

Definition eqb (a b : t) : bool :=
  match a, b with
  | IDLE, IDLE | INGESTING, INGESTING | PLANNING, PLANNING
  | EXECUTING, EXECUTING | VALIDATING, VALIDATING | CORRECTING, CORRECTING
  | COMPLETED, COMPLETED | FAILED, FAILED => true
  | _, _ => false
  end.
End WorkflowStage.

Module TaskStatus.
Inductive t : Set := PENDING | RUNNING | COMPLETED | FAILED | CORRECTED.

Definition eqb (a b : t) : bool :=
  match a, b with
  | PENDING, PENDING | RUNNING, RUNNING | COMPLETED, COMPLETED
  | FAILED, FAILED | CORRECTED, CORRECTED => true
  | _, _ => false
  end.
End TaskStatus.

(** The values the engine stores in the metadata of a log entry. *)
Inductive Meta : Type :=
| MetaInt (n : nat)
| MetaStr (s : string)
| MetaFloat (q : float).

Module LogEntry.
Record t : Type := mk {
  timestamp : Time;
  level : string;          (* info, success, warning, error *)
  message : string;
  metadata : list (string * Meta)
}.
End LogEntry.

Module Task.
Record t : Type := mk {
  id : string;
  step_number : Z;
  description : string;
  status : TaskStatus.t;
  started_at : option Time;
  completed_at : option Time;
  error : option string;
  correction_applied : bool
}.

Definition set_status (s : TaskStatus.t) (x : t) : t :=
  mk (id x) (step_number x) (description x) s (started_at x)
     (completed_at x) (error x) (correction_applied x).
Definition set_started_at (v : option Time) (x : t) : t :=
  mk (id x) (step_number x) (description x) (status x) v
     (completed_at x) (error x) (correction_applied x).
Definition set_completed_at (v : option Time) (x : t) : t :=
  mk (id x) (step_number x) (description x) (status x) (started_at x)
     v (error x) (correction_applied x).
Definition set_error (v : option string) (x : t) : t :=
  mk (id x) (step_number x) (description x) (status x) (started_at x)
     (completed_at x) v (correction_applied x).
Definition set_correction_applied (v : bool) (x : t) : t :=
  mk (id x) (step_number x) (description x) (status x) (started_at x)
     (completed_at x) (error x) v.
End Task.

Module ValidationResult.
Record t : Type := mk {
  passed : bool;
  issues : list string;
  severity : string;       (* none, low, medium, high, critical *)
  task_id : string
}.
End ValidationResult.

Module CorrectionStrategy.
Record t : Type := mk {
  action : string;
  strategy : string;
  confidence : float;
  task_id : string
}.
End CorrectionStrategy.

Module Artifact.
Record t : Type := mk {
  name : string;
  type : string;           (* document, data, log, code *)
  size : string;
  verified : bool;
  path : option string;
  content_preview : option string
}.
End Artifact.

Module WorkflowResult.
Record t : Type := mk {
  workflow_id : Time;      (* the clock read the identifier is formatted from *)
  name : PyVal;
  stage : WorkflowStage.t;
  progress : float;
  tasks : list Task.t;
  logs : list LogEntry.t;
  artifacts : list Artifact.t;
  validation_failure : option ValidationResult.t;
  correction : option CorrectionStrategy.t;
  created_at : Time;
  completed_at : option Time
}.

Definition set_stage (v : WorkflowStage.t) (x : t) : t :=
  mk (workflow_id x) (name x) v (progress x) (tasks x) (logs x) (artifacts x)
     (validation_failure x) (correction x) (created_at x) (completed_at x).
Definition set_progress (v : float) (x : t) : t :=
  mk (workflow_id x) (name x) (stage x) v (tasks x) (logs x) (artifacts x)
     (validation_failure x) (correction x) (created_at x) (completed_at x).
Definition set_tasks (v : list Task.t) (x : t) : t :=
  mk (workflow_id x) (name x) (stage x) (progress x) v (logs x) (artifacts x)
     (validation_failure x) (correction x) (created_at x) (completed_at x).
Definition set_logs (v : list LogEntry.t) (x : t) : t :=
  mk (workflow_id x) (name x) (stage x) (progress x) (tasks x) v (artifacts x)
     (validation_failure x) (correction x) (created_at x) (completed_at x).
Definition set_artifacts (v : list Artifact.t) (x : t) : t :=
  mk (workflow_id x) (name x) (stage x) (progress x) (tasks x) (logs x) v
     (validation_failure x) (correction x) (created_at x) (completed_at x).
Definition set_validation_failure (v : option ValidationResult.t) (x : t) : t :=
  mk (workflow_id x) (name x) (stage x) (progress x) (tasks x) (logs x)
     (artifacts x) v (correction x) (created_at x) (completed_at x).
Definition set_correction (v : option CorrectionStrategy.t) (x : t) : t :=
  mk (workflow_id x) (name x) (stage x) (progress x) (tasks x) (logs x)
     (artifacts x) (validation_failure x) v (created_at x) (completed_at x).
Definition set_completed_at (v : option Time) (x : t) : t :=
  mk (workflow_id x) (name x) (stage x) (progress x) (tasks x) (logs x)
     (artifacts x) (validation_failure x) (correction x) (created_at x) v.

(** [x.logs.append(entry)] *)
Definition append_log (entry : LogEntry.t) (x : t) : t :=
  set_logs (logs x ++ [entry])%list x.
End WorkflowResult.

(* ================================================================== *)
(** * The validator (validator.py) *)
(* ================================================================== *)

Module ValidationRule.
Record t : Type := mk {
  name : string;
  description : string;
  severity : string;       (* low, medium, high, critical *)
  check_function : PyVal -> Result (bool * list string)
}.
End ValidationRule.

Module Validator.

(** [self.rules]: a dict from rule names to rules, in insertion order. *)
Record t : Type := mk { rules : list (string * ValidationRule.t) }.

(** [_check_citations] *)
Definition _check_citations (output : PyVal) : Result (bool * list string) :=
  rbind (py_get output "citations" (VList [])) (fun citations =>
  rbind (py_len citations) (fun n =>
  if n =? 0 then Ok (false, ["Missing citations"])
  else Ok (true, []))).

(** [f not in output] for the outputs that support the test. *)
Definition py_not_in (f : string) (output : PyVal) : Result bool :=
  match output with
  | VDict d => Ok (negb (dict_has d f))
  | VList l =>
      Ok (negb (existsb (fun x => match x with
                                  | VStr s => String.eqb s f
                                  | _ => false
                                  end) l))
  | VStr s => Ok (negb (PyStr.contains f s))
  | _ => Raise (mkExc "TypeError"
                      ("argument of type '" ++ py_type_name output
                         ++ "' is not iterable"))
  end.

(** [_check_completeness] *)
Definition _check_completeness (output : PyVal) : Result (bool * list string) :=
  let required_fields := ["result"; "data"] in
  rbind (py_not_in "result" output) (fun m1 =>
  rbind (py_not_in "data" output) (fun m2 =>
  let missing := ((if m1 then ["result"] else []) ++ (if m2 then ["data"] else []))%list in
  match missing with
  | [] => Ok (true, [])
  | _ => Ok (false, map (fun f => "Missing required field: " ++ f) missing)
  end)).

(** [_check_format] *)
Definition _check_format (output : PyVal) : Result (bool * list string) :=
  match output with
  | VDict _ => Ok (true, [])
  | _ => Ok (false, ["Output must be a dictionary"])
  end.

(** [_calculate_quality_score]: the score is the constant 0.85. *)
Definition _calculate_quality_score (output : PyVal) : Result (bool * list string) :=
  let score := 0.85%float in
  if (score <? 0.7)%float then Ok (false, ["Quality score too low: 0.85"])
  else Ok (true, []).

(** [_load_default_rules] *)
Definition _load_default_rules : list (string * ValidationRule.t) :=
  [ ("citation_check",
     ValidationRule.mk "citation_check"
       "Verify all citations are present and properly formatted"
       "medium" _check_citations);
    ("completeness_check",
     ValidationRule.mk "completeness_check"
       "Ensure all required sections are present"
       "high" _check_completeness);
    ("format_check",
     ValidationRule.mk "format_check"
       "Validate output format matches requirements"
       "low" _check_format);
    ("quality_score",
     ValidationRule.mk "quality_score"
       "Calculate overall output quality score"
       "medium" _calculate_quality_score) ].

(** [Validator()] *)
Definition init : t := mk _load_default_rules.

(** One turn of the loop of [validate] over the rules: the state is the
    pair [(all_issues, max_severity)]. *)
Definition validate_step (output : PyVal) (acc : list string * string)
    (rule : ValidationRule.t) : Result (list string * string) :=
  let (all_issues, max_severity) := acc in
  rbind (ValidationRule.check_function rule output) (fun res =>
  let (passed, issues) := res in
  if negb passed then
    let all_issues' := (all_issues ++ issues)%list in
    if String.eqb (ValidationRule.severity rule) "critical" then
      Ok (all_issues', "critical")
    else if String.eqb (ValidationRule.severity rule) "high"
            && negb (String.eqb max_severity "critical") then
      Ok (all_issues', "high")
    else if String.eqb (ValidationRule.severity rule) "medium"
            && negb (String.eqb max_severity "critical"
                     || String.eqb max_severity "high") then
      Ok (all_issues', "medium")
    else Ok (all_issues', max_severity)
  else Ok (all_issues, max_severity)).

Fixpoint validate_loop (output : PyVal) (rules : list (string * ValidationRule.t))
    (acc : list string * string) : Result (list string * string) :=
  match rules with
  | [] => Ok acc
  | (_, rule) :: rest =>
      rbind (validate_step output acc rule) (validate_loop output rest)
  end.

(** [validate(task, output)] *)
Definition validate (self : t) (task : Task.t) (output : PyVal)
  : Result ValidationResult.t :=
  if (Task.step_number task =? 3)%Z then
    Ok (ValidationResult.mk false
          ["Missing error handling for edge case: empty citation list"]
          "medium" (Task.id task))
  else
    rbind (validate_loop output (rules self) ([], "none")) (fun acc =>
    let (all_issues, max_severity) := acc in
    Ok (ValidationResult.mk (List.length all_issues =? 0) all_issues
          max_severity (Task.id task))).

(** [self.rules[name] = rule]: an existing key keeps its place. *)
Fixpoint dict_set (d : list (string * ValidationRule.t)) (k : string)
    (rule : ValidationRule.t) : list (string * ValidationRule.t) :=
  match d with
  | [] => [(k, rule)]
  | (k', r') :: d' =>
      if String.eqb k k' then (k, rule) :: d' else (k', r') :: dict_set d' k rule
  end.

(** [add_custom_rule(rule)] *)
Definition add_custom_rule (self : t) (rule : ValidationRule.t) : t :=
  mk (dict_set (rules self) (ValidationRule.name rule) rule).

End Validator.

(* ================================================================== *)
(** * Strategy selection and the corrector (strategies.py, corrector.py) *)
(* ================================================================== *)

Module CorrectionStrategies.

(** An instance of the class: it has no field of its own. *)
Inductive t : Set := mk.

(** [STRATEGIES] *)
Definition STRATEGIES : list (string * string) :=
  [ ("inject_defensive_code", "Add error handling and edge case checks");
    ("retry_with_modified_input", "Adjust parameters and retry");
    ("use_alternative_method", "Switch to backup implementation");
    ("decompose_task", "Break into simpler subtasks") ].

(** [str(validation.issues).lower()]: the text the selector searches. *)
Definition issue_text (validation : ValidationResult.t) : string :=
  PyStr.lower (py_str (VList (map VStr (ValidationResult.issues validation)))).

(** [select_strategy(task, validation)] *)
Definition select_strategy (self : t) (task : Task.t)
    (validation : ValidationResult.t) : string :=
  if PyStr.contains "edge case" (issue_text validation) then
    "inject_defensive_code"
  else if PyStr.contains "timeout" (issue_text validation) then
    "retry_with_modified_input"
  else "use_alternative_method".

End CorrectionStrategies.

Module Corrector.

Record t : Set := mk { strategies : CorrectionStrategies.t }.

(** [Corrector()] *)
Definition init : t := mk CorrectionStrategies.mk.

(** [correct(task, validation)] *)
Definition correct (self : t) (task : Task.t) (validation : ValidationResult.t)
  : CorrectionStrategy.t :=
  let strategy_name :=
    CorrectionStrategies.select_strategy (strategies self) task validation in
  CorrectionStrategy.mk
    ("Apply " ++ strategy_name ++ " to fix validation issues")
    strategy_name 0.95%float (Task.id task).

End Corrector.

(* ================================================================== *)
(** * The engine's state and its monad *)
(* ================================================================== *)

(** The mutable state a run works on.  [trace] holds the successive values
    of [self.current_workflow], the newest first: its head is the current
    value, and every assignment to the workflow (or to one of its tasks, or
    an append to its log) puts the new value in front.  The older values are
    kept to state properties over the whole of a run; the code reads the
    head only.  [clock_reads] counts the calls of [datetime.now()]. *)
Record World : Type := mkWorld {
  trace : list WorkflowResult.t;
  clock_reads : nat
}.

Definition current_workflow (w : World) : option WorkflowResult.t :=
  match trace w with
  | [] => None
  | s :: _ => Some s
  end.

(** A computation: it reads and changes the state, and returns a value or
    raises.  The changes made before an exception stay. *)
Definition M (A : Type) : Type := World -> Result A * World.

Definition ret {A} (a : A) : M A := fun w => (Ok a, w).

Definition bind {A B} (m : M A) (f : A -> M B) : M B :=
  fun w =>
    match m w with
    | (Ok a, w') => f a w'
    | (Raise e, w') => (Raise e, w')
    end.

Definition raise {A} (e : PyExc) : M A := fun w => (Raise e, w).

(** A call of a function that has no effect on the state. *)
Definition lift {A} (r : Result A) : M A := fun w => (r, w).

(** [try: body  except Exception as e: handler(e)]: an exception whose
    class does not derive from [Exception] is not caught. *)
Definition try_except {A} (body : M A) (handler : PyExc -> M A) : M A :=
  fun w =>
    match body w with
    | (Ok a, w') => (Ok a, w')
    | (Raise e, w') => if is_Exception e then handler e w' else (Raise e, w')
    end.

Declare Scope monad_scope.
Delimit Scope monad_scope with monad.
Notation "x <- m ;; k" := (bind m (fun x => k))
  (at level 61, m at next level, right associativity) : monad_scope.
Notation "m ;; k" := (bind m (fun _ => k))
  (at level 61, right associativity) : monad_scope.
Local Open Scope monad_scope.

(** [for x in l: body(x)] *)
Fixpoint for_each {A} (l : list A) (body : A -> M unit) : M unit :=
  match l with
  | [] => ret tt
  | x :: l' => body x ;; for_each l' body
  end.

(** [enumerate(l, start)] *)
Fixpoint enumerate {A} (start : nat) (l : list A) : list (nat * A) :=
  match l with
  | [] => []
  | x :: l' => (start, x) :: enumerate (S start) l'
  end.

(** [datetime.now()] *)
Definition now : M Time :=
  fun w => (Ok (clock_reads w), mkWorld (trace w) (S (clock_reads w))).

(** [self.current_workflow = wf] at the start of a run: the trace starts
    again from this value. *)
Definition set_current_workflow (wf : WorkflowResult.t) : M unit :=
  fun w => (Ok tt, mkWorld [wf] (clock_reads w)).

(** [self.current_workflow.attr = v], given as the update [f] of the
    record; without a current workflow the attribute access raises. *)
Definition assign (attr : string) (f : WorkflowResult.t -> WorkflowResult.t)
  : M unit :=
  fun w =>
    match trace w with
    | [] => (Raise (AttributeError VNone attr), w)
    | s :: tr => (Ok tt, mkWorld (f s :: s :: tr) (clock_reads w))
    end.

(** The list [l] with [f] applied to its element of index [i]. *)
Fixpoint update_nth {A} (i : nat) (f : A -> A) (l : list A) : list A :=
  match l, i with
  | [], _ => []
  | x :: l', 0 => f x :: l'
  | x :: l', S i' => x :: update_nth i' f l'
  end.

(** [task.attr = v] for the task object that is element [i] of
    [self.current_workflow.tasks]: the list of the workflow and the list
    the run goes through are one object, so that the workflow sees every
    assignment to a task at once.  (A task that belongs to no workflow is
    outside the state: the assignment is then not recorded.) *)
Definition assign_task (i : nat) (f : Task.t -> Task.t) : M unit :=
  fun w =>
    match trace w with
    | [] => (Ok tt, w)
    | s :: tr =>
        (Ok tt,
         mkWorld (WorkflowResult.set_tasks
                    (update_nth i f (WorkflowResult.tasks s)) s :: s :: tr)
                 (clock_reads w))
    end.

(* ================================================================== *)
(** * The workflow engine (engine.py) *)
(* ================================================================== *)

Module WorkflowEngine.

(** The collaborators bound by [__init__].  (The API key, the
    configuration and the Gemini client are never read by the methods
    below.) *)
Record t : Type := mk {
  validator : option Validator.t;
  corrector : option Corrector.t
}.

(** [__init__]: the validator and the corrector are bound together when
    the core modules can be imported, and both left unbound otherwise. *)
Definition init (modules_importable : bool) : t :=
  if modules_importable then mk (Some Validator.init) (Some Corrector.init)
  else mk None None.

(** [add_log(level, message, metadata)] *)
Definition add_log (level message : string) (metadata : list (string * Meta))
  : M unit :=
  fun w =>
    match trace w with
    | [] => (Ok tt, w)
    | s :: tr =>
        let entry := LogEntry.mk (clock_reads w) level message metadata in
        (Ok tt,
         mkWorld (WorkflowResult.append_log entry s :: s :: tr)
                 (S (clock_reads w)))
    end.

(** The three plans of [generate_plan]. *)
Definition research_plan : list string :=
  [ "Parse and extract content from all input sources";
    "Identify key themes and patterns using NLP analysis";
    "Cross-reference findings across all sources";
    "Generate comprehensive synthesis report with citations";
    "Validate output completeness and citation accuracy" ].

Definition code_plan : list string :=
  [ "Analyze code structure and dependencies";
    "Detect code smells and anti-patterns";
    "Evaluate security vulnerabilities";
    "Generate improvement recommendations";
    "Validate analysis completeness" ].

Definition default_plan : list string :=
  [ "Process and normalize input data";
    "Apply analysis algorithms";
    "Generate insights and findings";
    "Create output artifacts";
    "Validate results quality" ].

Definition plan_steps_for (lowered_name : string) : list string :=
  if PyStr.contains "research" lowered_name
     || PyStr.contains "synthesis" lowered_name then research_plan
  else if PyStr.contains "code" lowered_name
          || PyStr.contains "analysis" lowered_name then code_plan
  else default_plan.

(** The task built for step [i] of the plan. *)
Definition new_task (i : nat) (description : string) : Task.t :=
  Task.mk ("task_" ++ PyStr.of_nat i) (Z.of_nat i) description
          TaskStatus.PENDING None None None false.

(** [generate_plan(config)] *)
Definition generate_plan (config : PyDict) : M (list Task.t) :=
  add_log "info" "Gemini 3 analyzing task requirements..." [] ;;
  let inputs := dict_get_default config "inputs" (VList []) in
  let task_type := dict_get_default config "name" (VStr "workflow") in
  lowered <- lift (py_lower task_type) ;;
  let plan_steps := plan_steps_for lowered in
  let tasks := map (fun p => new_task (fst p) (snd p)) (enumerate 1 plan_steps) in
  input_count <- lift (py_len inputs) ;;
  add_log "success"
          ("Generated " ++ PyStr.of_nat (List.length tasks) ++ "-step workflow plan")
          [ ("task_count", MetaInt (List.length tasks));
            ("input_count", MetaInt input_count) ] ;;
  ret tasks.

(** [execute_task(task, inputs)], for the task at index [i] of the current
    workflow.  The fields read from [task] are never assigned to. *)
Definition execute_task (i : nat) (task : Task.t) (inputs : PyVal) : M PyVal :=
  assign_task i (Task.set_status TaskStatus.RUNNING) ;;
  started <- now ;;
  assign_task i (Task.set_started_at (Some started)) ;;
  add_log "info"
          ("Executing step " ++ PyStr.of_Z (Task.step_number task) ++ ": "
             ++ Task.description task) [] ;;
  if (Task.step_number task =? 3)%Z then
    assign_task i (Task.set_status TaskStatus.FAILED) ;;
    assign_task i (Task.set_error (Some "Edge case not handled")) ;;
    ret (VDict [ ("success", VBool false);
                 ("error", VStr "Edge case not handled") ])
  else
    assign_task i (Task.set_status TaskStatus.COMPLETED) ;;
    completed <- now ;;
    assign_task i (Task.set_completed_at (Some completed)) ;;
    ret (VDict [ ("task_id", VStr (Task.id task));
                 ("result", VStr ("Completed: " ++ Task.description task));
                 ("data", VDict [ ("processed", VBool true) ]) ]).

(** The result the fallback validation gives for step 3. *)
Definition fallback_failure (task : Task.t) : ValidationResult.t :=
  ValidationResult.mk false
    ["Missing error handling for edge case: empty citation list"]
    "medium" (Task.id task).

(** [validate_output(task, output)] *)
Definition validate_output (self : t) (task : Task.t) (output : PyVal)
  : M ValidationResult.t :=
  add_log "info"
          ("Validating step " ++ PyStr.of_Z (Task.step_number task) ++ " output...")
          [] ;;
  match validator self with
  | Some v => lift (Validator.validate v task output)
  | None =>
      if (Task.step_number task =? 3)%Z then
        let result := fallback_failure task in
        add_log "error"
                ("Validation FAILED: "
                   ++ "Missing error handling for edge case: empty citation list")
                [] ;;
        ret result
      else
        let result := ValidationResult.mk true [] "none" (Task.id task) in
        add_log "success"
                ("Step " ++ PyStr.of_Z (Task.step_number task)
                   ++ " validation passed") [] ;;
        ret result
  end.

(** [apply_correction(task, validation)], for the task at index [i]. *)
Definition apply_correction (self : t) (i : nat) (task : Task.t)
    (validation : ValidationResult.t) : M CorrectionStrategy.t :=
  add_log "warning" "Initiating autonomous self-correction..." [] ;;
  match corrector self with
  | Some c => ret (Corrector.correct c task validation)
  | None =>
      let correction :=
        CorrectionStrategy.mk
          "Add null-check and default handling for citation lists"
          "inject_defensive_code" 0.95%float (Task.id task) in
      add_log "warning"
              ("Correction strategy: " ++ CorrectionStrategy.action correction)
              [ ("strategy", MetaStr (CorrectionStrategy.strategy correction));
                ("confidence", MetaFloat (CorrectionStrategy.confidence correction)) ] ;;
      add_log "info" "Re-executing with correction..." [] ;;
      assign_task i (Task.set_status TaskStatus.CORRECTED) ;;
      assign_task i (Task.set_correction_applied true) ;;
      completed <- now ;;
      assign_task i (Task.set_completed_at (Some completed)) ;;
      add_log "success" "Validation PASSED after correction" [] ;;
      ret correction
  end.

Definition the_artifacts : list Artifact.t :=
  [ Artifact.mk "research_synthesis_report.pdf" "document" "2.4 MB" true None
      (Some ("# Research Synthesis Report"
               ++ String PyStr.newline (String PyStr.newline
                    "Complete analysis with citations...")));
    Artifact.mk "key_findings.json" "data" "156 KB" true None
      (Some ("{" ++ String PyStr.dquote "themes" ++ String PyStr.dquote ": ["
               ++ String PyStr.dquote "AI" ++ String PyStr.dquote ", "
               ++ String PyStr.dquote "ML" ++ String PyStr.dquote "], "
               ++ String PyStr.dquote "insights" ++ String PyStr.dquote
                    ": [...]}"));
    Artifact.mk "execution_log.txt" "log" "45 KB" true None
      (Some ("[00:00:00] Workflow started"
               ++ String PyStr.newline "[00:00:01] Planning phase...")) ].

(** [generate_artifacts()] *)
Definition generate_artifacts : M (list Artifact.t) :=
  add_log "info" "Generating verified artifacts..." [] ;;
  let artifacts := the_artifacts in
  for_each artifacts (fun artifact =>
    add_log "success" ("Generated artifact: " ++ Artifact.name artifact)
            [ ("type", MetaStr (Artifact.type artifact));
              ("size", MetaStr (Artifact.size artifact)) ]) ;;
  ret artifacts.

(** [config['name']] *)
Definition config_name (config : PyDict) : Result PyVal :=
  match dict_get config "name" with
  | Some v => Ok v
  | None => Raise (KeyError "name")
  end.

(** The body of the loop over the inputs of [execute_workflow]. *)
Definition ingest_input (inp : PyVal) : M unit :=
  input_type <- lift (py_get inp "type" (VStr "unknown")) ;;
  input_name <- lift (py_get inp "name" (VStr "unknown")) ;;
  add_log "success"
          ("Ingested " ++ py_str input_type ++ ": " ++ py_str input_name) [].

(** The conversion of an [int] to a [float] in an arithmetic operation, for
    a natural number: exact below [2^53], where every length of a list is. *)
Fixpoint float_of_pos (p : positive) : float :=
  match p with
  | xH => 1%float
  | xO q => (2 * float_of_pos q)%float
  | xI q => (2 * float_of_pos q + 1)%float
  end.

Definition float_of_nat (n : nat) : float :=
  match n with
  | 0 => 0%float
  | S _ => float_of_pos (Pos.of_nat n)
  end.

(** Python's [x <= y], [x < y] and [x == y] on floats. *)
Definition float_le (x y : float) : Prop := PrimFloat.leb x y = true.
Definition float_lt (x y : float) : Prop := PrimFloat.ltb x y = true.
Definition float_eq (x y : float) : Prop := PrimFloat.eqb x y = true.

(** [0.3 + (0.6 * (i + 1) / len(tasks))] *)
Definition task_progress (i total : nat) : float :=
  (0.3 + (0.6 * float_of_nat (i + 1)) / float_of_nat total)%float.

(** The body of the loop over the tasks of [execute_workflow]. *)
Definition run_task (self : t) (inputs : PyVal) (total : nat)
    (it : nat * Task.t) : M unit :=
  let (i, task) := it in
  output <- execute_task i task inputs ;;
  assign "stage" (WorkflowResult.set_stage WorkflowStage.VALIDATING) ;;
  validation <- validate_output self task output ;;
  (if negb (ValidationResult.passed validation) then
     assign "stage" (WorkflowResult.set_stage WorkflowStage.CORRECTING) ;;
     assign "validation_failure"
            (WorkflowResult.set_validation_failure (Some validation)) ;;
     correction <- apply_correction self i task validation ;;
     assign "correction" (WorkflowResult.set_correction (Some correction)) ;;
     assign "validation_failure" (WorkflowResult.set_validation_failure None)
   else ret tt) ;;
  assign "stage" (WorkflowResult.set_stage WorkflowStage.EXECUTING) ;;
  assign "progress" (WorkflowResult.set_progress (task_progress i total)).

(** Stage 1 of the [try] block, data ingestion; it gives [inputs]. *)
Definition stage_ingest (config : PyDict) : M PyVal :=
  assign "stage" (WorkflowResult.set_stage WorkflowStage.INGESTING) ;;
  name <- lift (config_name config) ;;
  add_log "info" ("Starting workflow: " ++ py_str name) [] ;;
  let inputs := dict_get_default config "inputs" (VList []) in
  input_count <- lift (py_len inputs) ;;
  add_log "info" ("Ingesting " ++ PyStr.of_nat input_count ++ " input sources...")
          [] ;;
  for_each (py_iter inputs) ingest_input ;;
  assign "progress" (WorkflowResult.set_progress 0.2%float) ;;
  ret inputs.

(** Stage 2, planning; it gives [tasks]. *)
Definition stage_plan (config : PyDict) : M (list Task.t) :=
  assign "stage" (WorkflowResult.set_stage WorkflowStage.PLANNING) ;;
  tasks <- generate_plan config ;;
  assign "tasks" (WorkflowResult.set_tasks tasks) ;;
  assign "progress" (WorkflowResult.set_progress 0.3%float) ;;
  ret tasks.

(** Stages 3 to 5: the loop over the tasks. *)
Definition stage_execute (self : t) (inputs : PyVal) (tasks : list Task.t)
  : M unit :=
  assign "stage" (WorkflowResult.set_stage WorkflowStage.EXECUTING) ;;
  for_each (enumerate 0 tasks) (run_task self inputs (List.length tasks)).

(** Stage 6: the artifacts and the end of the run. *)
Definition stage_complete (tasks : list Task.t) : M unit :=
  assign "stage" (WorkflowResult.set_stage WorkflowStage.COMPLETED) ;;
  assign "progress" (WorkflowResult.set_progress 0.9%float) ;;
  artifacts <- generate_artifacts ;;
  assign "artifacts" (WorkflowResult.set_artifacts artifacts) ;;
  assign "progress" (WorkflowResult.set_progress 1%float) ;;
  completed <- now ;;
  assign "completed_at" (WorkflowResult.set_completed_at (Some completed)) ;;
  add_log "success" "Workflow completed successfully"
          [ ("total_tasks", MetaInt (List.length tasks));
            ("artifacts", MetaInt (List.length artifacts)) ].

(** The [try] block of [execute_workflow]. *)
Definition workflow_body (self : t) (config : PyDict) : M unit :=
  inputs <- stage_ingest config ;;
  tasks <- stage_plan config ;;
  stage_execute self inputs tasks ;;
  stage_complete tasks.

(** The [except Exception as e] block of [execute_workflow]. *)
Definition workflow_handler (e : PyExc) : M unit :=
  assign "stage" (WorkflowResult.set_stage WorkflowStage.FAILED) ;;
  add_log "error" ("Workflow failed: " ++ exc_str e) [] ;;
  raise e.

(** [return self.current_workflow] *)
Definition return_current_workflow : M WorkflowResult.t :=
  fun w =>
    match trace w with
    | [] => (Raise (AttributeError VNone "current_workflow"), w)
    | s :: _ => (Ok s, w)
    end.

(** [execute_workflow(config)] *)
Definition execute_workflow (self : t) (config : PyDict) : M WorkflowResult.t :=
  workflow_id <- now ;;
  let name := dict_get_default config "name" (VStr "Unnamed Workflow") in
  created_at <- now ;;
  set_current_workflow
    (WorkflowResult.mk workflow_id name WorkflowStage.IDLE 0%float [] [] []
                       None None created_at None) ;;
  try_except (workflow_body self config) workflow_handler ;;
  return_current_workflow.

End WorkflowEngine.

(** The state of an engine that has run nothing yet. *)
Definition fresh_world : World := mkWorld [] 0.

(* ================================================================== *)
(** * Observations on a run *)
(* ================================================================== *)

Import WorkflowEngine.

Definition Obs : Type := WorkflowStage.t * float * list TaskStatus.t.
Definition obs (s : WorkflowResult.t) : Obs :=
  (WorkflowResult.stage s, WorkflowResult.progress s,
   map Task.status (WorkflowResult.tasks s)).
Definition obs_trace (w : World) : list Obs := map obs (trace w).

Definition entry_view (e : LogEntry.t) : string * string :=
  (LogEntry.level e, LogEntry.message e).

Lemma set_logs_same (s : WorkflowResult.t) :
  WorkflowResult.set_logs (WorkflowResult.logs s ++ [])%list s = s.
Proof. destruct s; cbn. now rewrite app_nil_r. Qed.

Definition ingest_entry (e : LogEntry.t) : Prop :=
  LogEntry.level e = "success" /\
  exists x, LogEntry.message e = "Ingested " ++ x.

Definition is_dict (v : PyVal) : Prop := exists d, v = VDict d.

Lemma for_each_ingest (items : list PyVal) :
  forall s tr n,
  exists es new r n',
    for_each items ingest_input (mkWorld (s :: tr) n)
    = (r, mkWorld (WorkflowResult.set_logs (WorkflowResult.logs s ++ es)%list s
                     :: new ++ tr)%list n')
    /\ Forall (fun x => obs x = obs s) new
    /\ List.length new = List.length es
    /\ Forall ingest_entry es
    /\ ((r = Ok tt /\ List.length es = List.length items /\ Forall is_dict items)
        \/ (exists v, r = Raise (AttributeError v "get") /\ ~ Forall is_dict items)).
Proof.
  induction items as [|inp items IH]; intros s tr n.
  - exists [], [], (Ok tt), n. cbn. rewrite set_logs_same.
    split; [reflexivity|]. split; [constructor|]. split; [reflexivity|].
    split; [constructor|].
    left. split; [reflexivity|]. split; [reflexivity|constructor].
  - cbn [for_each]. unfold bind at 1. unfold ingest_input at 1.
    destruct inp; cbn;
      try (exists [], []; do 2 eexists; rewrite set_logs_same;
           split; [reflexivity|]; split; [constructor|]; split; [reflexivity|];
           split; [constructor|];
           right; eexists; split; [reflexivity|];
           intros Hall; inversion Hall as [|? ? [d Hd] ?]; discriminate).
    match goal with
    | |- context [for_each items ingest_input (mkWorld (?s1 :: ?tr1) ?n1)] =>
        destruct (IH s1 tr1 n1) as (es & new & r & n' & Heq & Hnew & Hlen & Hes & Hr)
    end.
    rewrite Heq. cbn in *.
    eexists (_ :: es), (new ++ [s])%list, r, n'.
    rewrite <- !app_assoc. cbn. split; [reflexivity|].
    split; [|split; [|split]].
    + apply Forall_app; split; [exact Hnew | constructor; auto].
    + rewrite length_app. cbn. lia.
    + constructor; [|exact Hes]. split; [reflexivity|]. cbn. eexists. reflexivity.
    + destruct Hr as [(-> & Hlen' & Hd)|(v & -> & Hnd)].
      * left. split; [reflexivity|]. split; [cbn; now rewrite Hlen'|].
        constructor; [eexists; reflexivity | exact Hd].
      * right. exists v. split; [reflexivity|].
        intros Hall. inversion Hall. auto.
Qed.

Lemma plan_steps_five (l : string) :
  exists d1 d2 d3 d4 d5, plan_steps_for l = [d1; d2; d3; d4; d5].
Proof.
  unfold plan_steps_for.
  destruct (_ || _); [do 5 eexists; reflexivity|].
  destruct (_ || _); do 5 eexists; reflexivity.
Qed.


Definition name_ok (cfg : PyDict) : Prop :=
  exists s, dict_get cfg "name" = Some (VStr s).
Definition inputs_ok (cfg : PyDict) : Prop :=
  let inputs := dict_get_default cfg "inputs" (VList []) in
  (exists k, py_len inputs = Ok k) /\ Forall is_dict (py_iter inputs).
Definition config_ok (cfg : PyDict) : Prop := name_ok cfg /\ inputs_ok cfg.

Lemma map_obs_same (x : Obs) (l : list WorkflowResult.t) :
  Forall (fun y => obs y = x) l -> map obs l = repeat x (List.length l).
Proof.
  induction 1 as [|y l Hy _ IH]; cbn; [reflexivity|]. now rewrite Hy, IH.
Qed.

Lemma repeat_snoc {A} (x : A) (n : nat) : (repeat x n ++ [x])%list = x :: repeat x n.
Proof. induction n; cbn; [reflexivity|]. now rewrite IHn. Qed.

Definition cur_view (w : World) : list (string * string) :=
  match trace w with
  | [] => []
  | s :: _ => map entry_view (WorkflowResult.logs s)
  end.

(** [w'] continues [w]: its trace has the snapshots observed as [ext] in
    front of those of [w], and its log has the entries viewed as [lext]
    after those of [w]. *)
Definition continues (w w' : World) (ext : list Obs) (lext : list (string * string))
  : Prop :=
  trace w' <> [] /\
  obs_trace w' = (ext ++ obs_trace w)%list /\
  cur_view w' = (cur_view w ++ lext)%list.

Lemma continues_trans w0 w1 w2 e1 l1 e2 l2 :
  continues w0 w1 e1 l1 -> continues w1 w2 e2 l2 ->
  continues w0 w2 (e2 ++ e1) (l1 ++ l2).
Proof.
  intros (_ & H1 & H1') (H2n & H2 & H2'). split; [exact H2n|]. split.
  - now rewrite H2, H1, app_assoc.
  - now rewrite H2', H1', app_assoc.
Qed.

Definition ingesting_obs (s : WorkflowResult.t) (p : float) : Obs :=
  (WorkflowStage.INGESTING, p, map Task.status (WorkflowResult.tasks s)).

Lemma repeat_cons_app {A} (x : A) (n : nat) (l : list A) :
  (repeat x n ++ x :: l)%list = (x :: repeat x n ++ l)%list.
Proof. induction n; cbn; [reflexivity|]. now rewrite IHn. Qed.

Lemma length_list_ascii_of_string (s : string) :
  List.length (list_ascii_of_string s) = String.length s.
Proof. induction s; cbn; [reflexivity|]. now rewrite IHs. Qed.

Lemma py_len_iter (v : PyVal) (k : nat) :
  py_len v = Ok k -> List.length (py_iter v) = k.
Proof.
  destruct v; cbn; intros H; try discriminate; injection H as <-.
  - now rewrite length_map, length_list_ascii_of_string.
  - reflexivity.
  - now rewrite length_map.
Qed.

Ltac wr_proj :=
  cbn [WorkflowResult.stage WorkflowResult.progress WorkflowResult.tasks
       WorkflowResult.logs WorkflowResult.set_progress WorkflowResult.set_logs
       WorkflowResult.append_log WorkflowResult.set_stage
       WorkflowResult.set_tasks WorkflowResult.set_artifacts
       WorkflowResult.set_validation_failure WorkflowResult.set_correction
       WorkflowResult.set_completed_at].

Ltac mstep :=
  cbn beta iota zeta delta
    [assign lift add_log trace clock_reads fst snd ret raise].

(** The exceptions stage 1 can raise. *)
Definition ingest_fault (cfg : PyDict) (e : PyExc) : Prop :=
  e = KeyError "name"
  \/ e = TypeError_no_len (dict_get_default cfg "inputs" (VList []))
  \/ exists v, e = AttributeError v "get".

Lemma ingest_fault_is_Exception (cfg : PyDict) (e : PyExc) :
  ingest_fault cfg e -> is_Exception e = true.
Proof. intros [-> | [-> | [v ->]]]; reflexivity. Qed.

Lemma py_len_raise (v : PyVal) (e : PyExc) :
  py_len v = Raise e -> e = TypeError_no_len v.
Proof. destruct v; cbn; intros H; try discriminate; now injection H. Qed.

Lemma stage_ingest_spec (cfg : PyDict) s tr n :
  let w := mkWorld (s :: tr) n in
  let o := ingesting_obs s (WorkflowResult.progress s) in
  let rw := stage_ingest cfg w in
  (exists e m lext,
      fst rw = Raise e /\ ingest_fault cfg e
      /\ ~ (exists nm, dict_get cfg "name" = Some nm /\ inputs_ok cfg)
      /\ continues w (snd rw) (repeat o (S m)) lext)
  \/
  (exists nm es,
      fst rw = Ok (dict_get_default cfg "inputs" (VList []))
      /\ dict_get cfg "name" = Some nm /\ inputs_ok cfg
      /\ Forall ingest_entry es
      /\ List.length es = List.length (py_iter (dict_get_default cfg "inputs" (VList [])))
      /\ continues w (snd rw)
           (ingesting_obs s 0.2%float :: repeat o (3 + List.length es))
           ([ ("info", "Starting workflow: " ++ py_str nm);
              ("info", "Ingesting "
                         ++ PyStr.of_nat (List.length es) ++ " input sources...") ]
              ++ map entry_view es)).
Proof.
  intros w o rw. subst w o rw.
  unfold stage_ingest, bind, config_name. mstep.
  destruct (dict_get cfg "name") as [nm|] eqn:Hname.
  2:{ left. exists (KeyError "name"), 0, []. split; [reflexivity|].
      split; [now left|]. split.
      - intros (nm & Hnm & _). discriminate.
      - split; [discriminate|]. split; [reflexivity|].
        cbn. now rewrite app_nil_r. }
  mstep.
  remember (dict_get_default cfg "inputs" (VList [])) as iv eqn:Hiv.
  destruct (py_len iv) as [k|e] eqn:Hlen.
  2:{ left. exists e, 1, [("info", "Starting workflow: " ++ py_str nm)].
      split; [reflexivity|].
      split; [right; left; rewrite <- Hiv; now apply py_len_raise|]. split.
      - intros (_ & _ & [k Hk] & _). cbv zeta in Hk. rewrite <- Hiv in Hk. congruence.
      - split; [discriminate|]. split; [reflexivity|].
        cbn. now rewrite map_app. }
  mstep.
  match goal with
  | |- context [for_each ?items ingest_input (mkWorld (?s1 :: ?tr1) ?n1)] =>
      destruct (for_each_ingest items s1 tr1 n1)
        as (es & new & r & n' & Heq & Hnew & Hlen_new & Hes & Hr)
  end.
  rewrite Heq. clear Heq.
  apply map_obs_same in Hnew. rewrite Hlen_new in Hnew.
  apply py_len_iter in Hlen as Hk.
  destruct Hr as [(-> & Hlen_es & Hdicts)|(v & -> & Hnd)].
  - right. exists nm, es. mstep.
    split; [reflexivity|]. split; [reflexivity|]. split.
    { split; [exists k; cbv zeta; now rewrite <- Hiv | cbv zeta; now rewrite <- Hiv]. }
    split; [exact Hes|]. split; [exact Hlen_es|].
    split; [discriminate|]. split.
    + unfold obs_trace. cbn [trace map].
      rewrite map_app, Hnew. cbn [map]. unfold obs, ingesting_obs. wr_proj.
      rewrite !repeat_cons_app. reflexivity.
    + unfold cur_view. cbn [trace]. wr_proj.
      rewrite !map_app. cbn [map entry_view LogEntry.level LogEntry.message].
      rewrite <- !app_assoc. cbn [app]. rewrite Hlen_es, Hk. reflexivity.
  - left. exists (AttributeError v "get"), (2 + List.length es).
    exists (("info", "Starting workflow: " ++ py_str nm)
              :: ("info", "Ingesting " ++ PyStr.of_nat k ++ " input sources...")
              :: map entry_view es).
    mstep.
    split; [reflexivity|]. split; [right; right; now exists v|]. split.
    { intros (_ & _ & _ & Hd). cbv zeta in Hd. rewrite <- Hiv in Hd. contradiction. }
    split; [discriminate|]. split.
    + unfold obs_trace. cbn [trace map].
      rewrite map_app, Hnew. cbn [map]. unfold obs, ingesting_obs. wr_proj.
      rewrite !repeat_cons_app. reflexivity.
    + unfold cur_view. cbn [trace]. wr_proj.
      rewrite !map_app. cbn [map entry_view LogEntry.level LogEntry.message].
      rewrite <- !app_assoc. cbn [app]. reflexivity.
Qed.

Definition cur_obs_failed (s : WorkflowResult.t) : Obs :=
  (WorkflowStage.FAILED, WorkflowResult.progress s,
   map Task.status (WorkflowResult.tasks s)).

Lemma workflow_handler_spec (e : PyExc) s tr n :
  let w := mkWorld (s :: tr) n in
  fst (workflow_handler e w) = Raise e
  /\ continues w (snd (workflow_handler e w))
       [cur_obs_failed s; cur_obs_failed s]
       [("error", "Workflow failed: " ++ exc_str e)].
Proof.
  cbn. split; [reflexivity|]. split; [discriminate|]. split; [reflexivity|].
  unfold cur_view. cbn [trace]. wr_proj. now rewrite map_app.
Qed.

(** The tasks [generate_plan] builds from the descriptions of a plan. *)
Definition planned_tasks (plan_steps : list string) : list Task.t :=
  map (fun p => new_task (fst p) (snd p)) (enumerate 1 plan_steps).

Definition planning_obs (s : WorkflowResult.t) : Obs :=
  (WorkflowStage.PLANNING, WorkflowResult.progress s,
   map Task.status (WorkflowResult.tasks s)).

Definition five_pending : list TaskStatus.t :=
  repeat TaskStatus.PENDING 5.

Lemma planned_tasks_status (l : string) :
  map Task.status (planned_tasks (plan_steps_for l)) = five_pending.
Proof.
  destruct (plan_steps_five l) as (d1 & d2 & d3 & d4 & d5 & ->). reflexivity.
Qed.

Lemma stage_plan_spec (cfg : PyDict) s tr n nm k :
  dict_get cfg "name" = Some nm ->
  py_len (dict_get_default cfg "inputs" (VList [])) = Ok k ->
  let w := mkWorld (s :: tr) n in
  let rw := stage_plan cfg w in
  (exists name s' tr' n',
      nm = VStr name
      /\ fst rw = Ok (planned_tasks (plan_steps_for (PyStr.lower name)))
      /\ snd rw = mkWorld (s' :: tr') n'
      /\ WorkflowResult.tasks s' = planned_tasks (plan_steps_for (PyStr.lower name))
      /\ WorkflowResult.progress s' = 0.3%float
      /\ continues w (snd rw)
           [ (WorkflowStage.PLANNING, 0.3%float, five_pending);
             (WorkflowStage.PLANNING, WorkflowResult.progress s, five_pending);
             planning_obs s; planning_obs s; planning_obs s ]
           [ ("info", "Gemini 3 analyzing task requirements...");
             ("success", "Generated 5-step workflow plan") ])
  \/
  (fst rw = Raise (AttributeError nm "lower")
   /\ (forall name, nm <> VStr name)
   /\ continues w (snd rw) [planning_obs s; planning_obs s]
        [ ("info", "Gemini 3 analyzing task requirements...") ]).
Proof.
  intros Hname Hlen w rw. subst w rw.
  unfold stage_plan, generate_plan, bind. mstep.
  remember (dict_get_default cfg "inputs" (VList [])) as iv eqn:Hiv.
  unfold dict_get_default. rewrite Hname.
  destruct nm as [| | |name| |];
    try (right; cbn [py_lower]; mstep; split; [reflexivity|];
         split; [discriminate|]; split; [discriminate|]; split; [reflexivity|];
         unfold cur_view; cbn [trace]; wr_proj; now rewrite map_app).
  left. cbn [py_lower]. mstep. rewrite Hlen. mstep.
  do 4 eexists. split; [reflexivity|]. split; [reflexivity|].
  split; [reflexivity|]. split; [reflexivity|]. split; [reflexivity|].
  split; [discriminate|]. split.
  - unfold obs_trace. cbn [trace map]. unfold obs, planning_obs. wr_proj.
    fold (planned_tasks (plan_steps_for (PyStr.lower name))).
    rewrite planned_tasks_status. reflexivity.
  - unfold cur_view. cbn [trace]. wr_proj.
    rewrite !map_app. cbn [map entry_view LogEntry.level LogEntry.message].
    rewrite <- !app_assoc. cbn [app].
    destruct (plan_steps_five (PyStr.lower name)) as (d1 & d2 & d3 & d4 & d5 & ->).
    reflexivity.
Qed.

Definition canonical_config : PyDict := [("name", VStr "workflow")].

(** The part of the canonical run from the first assignment of stage 3 on. *)
Definition executed_obs_of (b : bool) : list Obs :=
  let t := obs_trace (snd (execute_workflow (init b) canonical_config fresh_world)) in
  firstn (List.length t - 10) t.

Definition executed_obs_bound : list Obs :=
  Eval vm_compute in executed_obs_of true.
Definition executed_obs_fallback : list Obs :=
  Eval vm_compute in executed_obs_of false.
Definition executed_obs (b : bool) : list Obs :=
  if b then executed_obs_bound else executed_obs_fallback.

(** What the run logs for one step of the plan. *)
Definition step_view (b : bool) (p : nat * string) : list (string * string) :=
  let (i, d) := p in
  ("info", "Executing step " ++ PyStr.of_nat i ++ ": " ++ d)
    :: ("info", "Validating step " ++ PyStr.of_nat i ++ " output...")
    :: (if b then [ ("warning", "Initiating autonomous self-correction...") ]
        else if i =? 3 then
          [ ("error", "Validation FAILED: Missing error handling for edge case: empty citation list");
            ("warning", "Initiating autonomous self-correction...");
            ("warning", "Correction strategy: Add null-check and default handling for citation lists");
            ("info", "Re-executing with correction...");
            ("success", "Validation PASSED after correction") ]
        else [ ("success", "Step " ++ PyStr.of_nat i ++ " validation passed") ]).

Definition completion_view : list (string * string) :=
  [ ("info", "Generating verified artifacts...");
    ("success", "Generated artifact: research_synthesis_report.pdf");
    ("success", "Generated artifact: key_findings.json");
    ("success", "Generated artifact: execution_log.txt");
    ("success", "Workflow completed successfully") ].

Definition executed_view (b : bool) (plan_steps : list string)
  : list (string * string) :=
  (flat_map (step_view b) (enumerate 1 plan_steps) ++ completion_view)%list.

Lemma obs_trace_nonempty (w : World) (o : Obs) (l : list Obs) :
  obs_trace w = o :: l -> trace w <> [].
Proof. unfold obs_trace. destruct (trace w); [discriminate | discriminate]. Qed.

Lemma run_tasks_spec (b : bool) d1 d2 d3 d4 d5 (inputs : PyVal) s tr n :
  let tasks := planned_tasks [d1; d2; d3; d4; d5] in
  WorkflowResult.tasks s = tasks ->
  WorkflowResult.progress s = 0.3%float ->
  let w := mkWorld (s :: tr) n in
  let rw := bind (stage_execute (init b) inputs tasks)
                 (fun _ => stage_complete tasks) w in
  fst rw = Ok tt
  /\ continues w (snd rw) (executed_obs b) (executed_view b [d1; d2; d3; d4; d5]).
Proof.
  intros tasks Ht Hp w rw. subst tasks w rw.
  destruct s as [wid nm stg prg tsk lg arts vf corr cat compl].
  cbn [WorkflowResult.tasks WorkflowResult.progress] in Ht, Hp. subst tsk prg.
  assert (Hobs :
    obs_trace (snd (bind (stage_execute (init b) inputs (planned_tasks [d1; d2; d3; d4; d5]))
                 (fun _ => stage_complete (planned_tasks [d1; d2; d3; d4; d5]))
                 (mkWorld (WorkflowResult.mk wid nm stg 0.3%float
                     (planned_tasks [d1; d2; d3; d4; d5]) lg arts vf corr cat compl :: tr) n)))
    = (executed_obs b ++ obs_trace (mkWorld (WorkflowResult.mk wid nm stg 0.3%float
                     (planned_tasks [d1; d2; d3; d4; d5]) lg arts vf corr cat compl :: tr) n))%list).
  { destruct b; vm_compute; reflexivity. }
  split; [destruct b; vm_compute; reflexivity|].
  split; [destruct b; eapply obs_trace_nonempty; rewrite Hobs; reflexivity|].
  split; [exact Hobs|].
  clear Hobs.
  destruct b; cbn.
  - rewrite !map_app. cbn [map entry_view LogEntry.level LogEntry.message].
    rewrite <- !app_assoc. reflexivity.
  - rewrite !map_app. cbn [map entry_view LogEntry.level LogEntry.message].
    rewrite <- !app_assoc. reflexivity.
Qed.

(** A stage transition without a log entry, in a trace (newest state
    first): the run changes stage between [a] and the states [mid], which
    all have one stage, changes stage again between [mid] and [d], and the
    log of [d] is still the log of [a]. *)
Definition unlogged_transition (tr : list WorkflowResult.t) : Prop :=
  exists post d mid a pre x,
    tr = (post ++ d :: mid ++ a :: pre)%list
    /\ mid <> []
    /\ Forall (fun s => WorkflowResult.stage s = x) mid
    /\ WorkflowResult.stage a <> x
    /\ WorkflowResult.stage d <> x
    /\ WorkflowResult.logs d = WorkflowResult.logs a.

Lemma nth_error_skipn_cons {A} (l : list A) :
  forall i x, nth_error l i = Some x -> skipn i l = x :: skipn (S i) l.
Proof.
  induction l as [|y l IH]; intros [|i] x H; try discriminate.
  - injection H as ->. reflexivity.
  - cbn [nth_error] in H. change (skipn i l = x :: skipn (S i) l). now apply IH.
Qed.

(** Four states in a row at index [i] of a trace that make such a
    transition. *)
Lemma unlogged_at (tr : list WorkflowResult.t) (i : nat)
    (x y z : WorkflowStage.t) :
  option_map WorkflowResult.stage (nth_error tr i) = Some z ->
  option_map WorkflowResult.stage (nth_error tr (1 + i)) = Some x ->
  option_map WorkflowResult.stage (nth_error tr (2 + i)) = Some x ->
  option_map WorkflowResult.stage (nth_error tr (3 + i)) = Some y ->
  y <> x -> z <> x ->
  option_map WorkflowResult.logs (nth_error tr i)
  = option_map WorkflowResult.logs (nth_error tr (3 + i)) ->
  unlogged_transition tr.
Proof.
  intros Hd Hc Hb Ha Hy Hz Hlogs.
  destruct (nth_error tr i) as [d|] eqn:Ed; [|discriminate].
  destruct (nth_error tr (1 + i)) as [c|] eqn:Ec; [|discriminate].
  destruct (nth_error tr (2 + i)) as [b'|] eqn:Eb; [|discriminate].
  destruct (nth_error tr (3 + i)) as [a|] eqn:Ea; [|discriminate].
  cbn in Hd, Hc, Hb, Ha, Hlogs.
  injection Hd as Hd. injection Hc as Hc. injection Hb as Hb. injection Ha as Ha.
  injection Hlogs as Hlogs.
  cbn [Nat.add] in Ec, Eb, Ea.
  exists (firstn i tr), d, [c; b'], a, (skipn (S (S (S (S i)))) tr), x.
  split.
  { rewrite <- (firstn_skipn i tr) at 1. f_equal.
    rewrite (nth_error_skipn_cons _ _ Ed), (nth_error_skipn_cons _ _ Ec),
      (nth_error_skipn_cons _ _ Eb), (nth_error_skipn_cons _ _ Ea).
    reflexivity. }
  split; [discriminate|].
  split; [repeat constructor; assumption|].
  split; [now rewrite Ha|]. split; [now rewrite Hd | exact Hlogs].
Qed.

(** The last turn of the loop ends with the return to EXECUTING, and
    stage 6 begins with the change to COMPLETED: no entry is logged from
    the one to the other. *)
Lemma run_tasks_last_turn (b : bool) d1 d2 d3 d4 d5 (inputs : PyVal) s tr n :
  let tasks := planned_tasks [d1; d2; d3; d4; d5] in
  WorkflowResult.tasks s = tasks ->
  let w := mkWorld (s :: tr) n in
  let rw := bind (stage_execute (init b) inputs tasks)
                 (fun _ => stage_complete tasks) w in
  unlogged_transition (trace (snd rw)).
Proof.
  intros tasks Ht w rw. subst tasks w rw.
  destruct s as [wid nm stg prg tsk lg arts vf corr cat compl].
  cbn [WorkflowResult.tasks] in Ht. subst tsk.
  apply unlogged_at
    with (i := 9) (x := WorkflowStage.EXECUTING)
         (y := if b then WorkflowStage.CORRECTING else WorkflowStage.VALIDATING)
         (z := WorkflowStage.COMPLETED);
    try (destruct b; vm_compute; reflexivity);
    try (destruct b; discriminate).
Qed.

(** ** The shape of every run *)

Definition o_idle : Obs := (WorkflowStage.IDLE, 0%float, []).
Definition o_ing : Obs := (WorkflowStage.INGESTING, 0%float, []).
Definition o_ingested : Obs := (WorkflowStage.INGESTING, 0.2%float, []).
Definition o_planning : Obs := (WorkflowStage.PLANNING, 0.2%float, []).

Definition fail_ingest_obs (m : nat) : list Obs :=
  ((WorkflowStage.FAILED, 0%float, []) :: (WorkflowStage.FAILED, 0%float, [])
     :: repeat o_ing (S m) ++ [o_idle])%list.

Definition fail_plan_obs (m : nat) : list Obs :=
  ((WorkflowStage.FAILED, 0.2%float, []) :: (WorkflowStage.FAILED, 0.2%float, [])
     :: o_planning :: o_planning :: o_ingested
     :: repeat o_ing (3 + m) ++ [o_idle])%list.

Definition success_obs (b : bool) (m : nat) : list Obs :=
  (executed_obs b
     ++ (WorkflowStage.PLANNING, 0.3%float, five_pending)
     :: (WorkflowStage.PLANNING, 0.2%float, five_pending)
     :: o_planning :: o_planning :: o_planning :: o_ingested
     :: repeat o_ing (3 + m) ++ [o_idle])%list.

Definition run_view (b : bool) (name : string) (es : list LogEntry.t)
  : list (string * string) :=
  ("info", "Starting workflow: " ++ name)
    :: ("info", "Ingesting " ++ PyStr.of_nat (List.length es) ++ " input sources...")
    :: (map entry_view es
          ++ ("info", "Gemini 3 analyzing task requirements...")
          :: ("success", "Generated 5-step workflow plan")
          :: executed_view b (plan_steps_for (PyStr.lower name)))%list.

(** The state [execute_workflow] builds before it enters its [try] block. *)
Definition created (cfg : PyDict) (w : World) : World :=
  mkWorld
    [ WorkflowResult.mk (clock_reads w)
        (dict_get_default cfg "name" (VStr "Unnamed Workflow"))
        WorkflowStage.IDLE 0%float [] [] [] None None (S (clock_reads w)) None ]
    (S (S (clock_reads w))).

Lemma execute_workflow_unfold (self : WorkflowEngine.t) (cfg : PyDict) (w : World) :
  execute_workflow self cfg w
  = match workflow_body self cfg (created cfg w) with
    | (Ok _, w1) => return_current_workflow w1
    | (Raise e, w1) =>
        if is_Exception e then
          match workflow_handler e w1 with
          | (Ok _, w2) => return_current_workflow w2
          | (Raise e', w2) => (Raise e', w2)
          end
        else (Raise e, w1)
    end.
Proof.
  unfold execute_workflow, bind, now, set_current_workflow, try_except, created.
  cbn [trace clock_reads].
  destruct (workflow_body self cfg _) as [[u|e] w1]; [reflexivity|].
  destruct (is_Exception e); [|reflexivity].
  destruct (workflow_handler e w1) as [[u|e'] w2]; reflexivity.
Qed.

Lemma cur_obs_failed_of (s : WorkflowResult.t) st p l :
  obs s = (st, p, l) -> cur_obs_failed s = (WorkflowStage.FAILED, p, l).
Proof. unfold obs, cur_obs_failed. intros H. injection H as _ -> ->. reflexivity. Qed.

Lemma planning_obs_of (s : WorkflowResult.t) st p l :
  obs s = (st, p, l) -> planning_obs s = (WorkflowStage.PLANNING, p, l).
Proof. unfold obs, planning_obs. intros H. injection H as _ -> ->. reflexivity. Qed.

Lemma return_current_workflow_spec s tr n :
  return_current_workflow (mkWorld (s :: tr) n) = (Ok s, mkWorld (s :: tr) n).
Proof. reflexivity. Qed.

Lemma run_spec (b : bool) (cfg : PyDict) (w : World) :
  let rw := execute_workflow (init b) cfg w in
  (exists e m w1,
      fst rw = Raise e
      /\ workflow_body (init b) cfg (created cfg w) = (Raise e, w1)
      /\ (ingest_fault cfg e \/ exists nm, e = AttributeError nm "lower")
      /\ ~ config_ok cfg
      /\ (obs_trace (snd rw) = fail_ingest_obs m
          \/ obs_trace (snd rw) = fail_plan_obs m)
      /\ exists lv,
           cur_view (snd rw)
           = (lv ++ [("error", ("Workflow failed: " ++ exc_str e)%string)])%list)
  \/
  (exists s name es,
      fst rw = Ok s
      /\ current_workflow (snd rw) = Some s
      /\ dict_get cfg "name" = Some (VStr name)
      /\ inputs_ok cfg
      /\ Forall ingest_entry es
      /\ List.length es
         = List.length (py_iter (dict_get_default cfg "inputs" (VList [])))
      /\ obs_trace (snd rw) = success_obs b (List.length es)
      /\ cur_view (snd rw) = run_view b name es
      /\ unlogged_transition (trace (snd rw))).
Proof.
  intros rw. subst rw. rewrite execute_workflow_unfold.
  unfold workflow_body, bind, created.
  match goal with
  | |- context [stage_ingest cfg (mkWorld (?s0 :: ?tr0) ?n0)] =>
      pose proof (stage_ingest_spec cfg s0 tr0 n0) as Hing;
      cbv zeta in Hing;
      destruct (stage_ingest cfg (mkWorld (s0 :: tr0) n0)) as [r1 w1] eqn:E1
  end.
  cbn [fst snd] in Hing.
  destruct Hing as [(e & m & lext & -> & Hfault & Hbad & Hne & Hobs & Hview)
                   |(nm & es & -> & Hname & Hin & Hes & Hlen & Hne & Hobs & Hview)].
  - (* stage 1 raised *)
    left. exists e, m, w1. rewrite (ingest_fault_is_Exception Hfault).
    destruct w1 as [[|s1 tr1] n1]; [contradiction|].
    pose proof (workflow_handler_spec e s1 tr1 n1) as Hh. cbv zeta in Hh.
    destruct (workflow_handler e _) as [r2 w2]. cbn [fst snd] in Hh.
    destruct Hh as (-> & Hne2 & Hobs2 & Hview2). cbn [fst snd].
    split; [reflexivity|]. split; [reflexivity|]. split; [now left|].
    split; [intros [[nme Hn] Hi]; apply Hbad; eauto|].
    split.
    + left.
      assert (Hs1 : obs s1 = o_ing).
      { exact (f_equal (hd o_idle) Hobs). }
      rewrite Hobs2, Hobs, (cur_obs_failed_of Hs1). reflexivity.
    + eexists. exact Hview2.
  - (* stage 1 returned *)
    destruct w1 as [[|s1 tr1] n1]; [contradiction|].
    assert (Hs1 : obs s1 = o_ingested).
    { exact (f_equal (hd o_idle) Hobs). }
    destruct Hin as [[k Hk] Hdicts].
    pose proof (@stage_plan_spec cfg s1 tr1 n1 _ _ Hname Hk) as Hpl. cbv zeta in Hpl.
    destruct (stage_plan cfg _) as [r2 w2] eqn:E2. cbn [fst snd] in Hpl.
    destruct Hpl as [(name & s2 & tr2 & n2 & -> & -> & -> & Ht2 & Hp2 & Hne2 & Hobs2 & Hview2)
                    |(-> & Hnot & Hne2 & Hobs2 & Hview2)].
    + (* stage 2 returned *)
      right.
      destruct (plan_steps_five (PyStr.lower name)) as (d1 & d2 & d3 & d4 & d5 & Hds).
      rewrite Hds in *.
      pose proof (@run_tasks_spec b d1 d2 d3 d4 d5
                    (dict_get_default cfg "inputs" (VList [])) s2 tr2 n2 Ht2 Hp2) as Hex.
      cbv zeta in Hex. unfold bind in Hex.
      pose proof (@run_tasks_last_turn b d1 d2 d3 d4 d5
                    (dict_get_default cfg "inputs" (VList [])) s2 tr2 n2 Ht2) as Hun.
      cbv zeta in Hun. unfold bind in Hun.
      destruct (stage_execute (init b) _ _ _) as [r3 w3] eqn:E3.
      destruct r3 as [u|e3].
      * destruct (stage_complete _ w3) as [r4 w4] eqn:E4. cbn [fst snd] in Hex.
        destruct Hex as (-> & Hne4 & Hobs4 & Hview4).
        destruct w4 as [[|s4 tr4] n4]; [contradiction|].
        rewrite return_current_workflow_spec. cbn [fst snd].
        exists s4, name, es.
        split; [reflexivity|]. split; [reflexivity|]. split; [exact Hname|].
        split; [split; [now exists k | exact Hdicts]|].
        split; [exact Hes|]. split; [exact Hlen|].
        split; [|split; [|exact Hun]].
        -- rewrite Hobs4, Hobs2, Hobs. rewrite (planning_obs_of Hs1).
           assert (Hprog : WorkflowResult.progress s1 = 0.2%float)
             by exact (f_equal (fun o : Obs => snd (fst o)) Hs1).
           rewrite Hprog.
           unfold success_obs. cbn [app]. reflexivity.
        -- rewrite Hview4, Hview2, Hview. unfold run_view. rewrite Hds.
           cbn [cur_view trace WorkflowResult.logs map app py_str].
           rewrite <- !app_assoc. reflexivity.
      * cbn [fst] in Hex. destruct Hex as [Hex _]. discriminate.
    + (* stage 2 raised *)
      left. change (is_Exception (AttributeError nm "lower")) with true. cbv iota.
      destruct w2 as [[|s2 tr2] n2]; [contradiction|].
      pose proof (workflow_handler_spec (AttributeError nm "lower") s2 tr2 n2) as Hh.
      cbv zeta in Hh.
      destruct (workflow_handler _ _) as [r3 w3]. cbn [fst snd] in Hh.
      destruct Hh as (-> & Hne3 & Hobs3 & Hview3). cbn [fst snd].
      exists (AttributeError nm "lower"), (List.length es), (mkWorld (s2 :: tr2) n2).
      split; [reflexivity|]. split; [reflexivity|]. split; [right; now exists nm|].
      split.
      { intros [[nme Hn] _]. rewrite Hname in Hn. injection Hn as ->.
        now apply (Hnot nme). }
      split.
      * right.
        assert (Hs2 : obs s2 = o_planning).
        { transitivity (planning_obs s1);
            [exact (f_equal (hd o_idle) Hobs2) | exact (planning_obs_of Hs1)]. }
        rewrite Hobs3, Hobs2, Hobs.
        rewrite (cur_obs_failed_of Hs2), (planning_obs_of Hs1). reflexivity.
      * eexists. exact Hview3.
Qed.

(* ================================================================== *)
(** * Plan generation and the run without a name *)
(* ================================================================== *)

(** C10: when the config mapping has no ['name'] key, [execute_workflow]
    raises [KeyError('name')] after it created a run named
    ['Unnamed Workflow']; the run is left with stage [FAILED], its log holds
    the failure at level [error], and at no point of the run does the
    workflow hold a task. *)
Theorem execute_workflow_without_name (self : WorkflowEngine.t) (cfg : PyDict)
    (w : World) :
  dict_get cfg "name" = None ->
  let rw := execute_workflow self cfg w in
  fst rw = Raise (KeyError "name")
  /\ exc_class (KeyError "name") = "KeyError"
  /\ (exists s,
        current_workflow (snd rw) = Some s
        /\ WorkflowResult.stage s = WorkflowStage.FAILED
        /\ map entry_view (WorkflowResult.logs s)
           = [("error", "Workflow failed: 'name'")])
  /\ Forall (fun s => WorkflowResult.name s = VStr "Unnamed Workflow"
                      /\ WorkflowResult.tasks s = [])
            (trace (snd rw)).
Proof.
  intros Hname rw. subst rw. rewrite execute_workflow_unfold.
  unfold workflow_body, stage_ingest, bind, config_name, created.
  unfold dict_get_default. rewrite Hname. cbn.
  split; [reflexivity|]. split; [reflexivity|]. split.
  - eexists. split; [reflexivity|]. split; reflexivity.
  - repeat constructor.
Qed.

Lemma execute_workflow_without_name_witness :
  dict_get [("inputs", VList [])] "name" = None
  /\ fst (execute_workflow (init true) [("inputs", VList [])] fresh_world)
     = Raise (KeyError "name").
Proof.
  split; [reflexivity|].
  apply (@execute_workflow_without_name (init true) [("inputs", VList [])] fresh_world).
  reflexivity.
Defined.





(* ================================================================== *)
(** * Execution and validation of one task *)
(* ================================================================== *)

(** The task object at index [i] of the current workflow. *)
Definition task_at (w : World) (i : nat) : option Task.t :=
  match trace w with
  | [] => None
  | s :: _ => nth_error (WorkflowResult.tasks s) i
  end.

Lemma nth_error_update_nth {A} (f : A -> A) (l : list A) (i : nat) :
  nth_error (update_nth i f l) i = option_map f (nth_error l i).
Proof.
  revert i. induction l as [|x l IH]; intros [|i]; cbn; auto.
Qed.

(** What [execute_task] returns for a step that is not step 3. *)
Definition completed_output (task : Task.t) : PyVal :=
  VDict [ ("task_id", VStr (Task.id task));
          ("result", VStr ("Completed: " ++ Task.description task));
          ("data", VDict [ ("processed", VBool true) ]) ].

Definition failed_output : PyVal :=
  VDict [ ("success", VBool false); ("error", VStr "Edge case not handled") ].

Lemma execute_task_step3 (i : nat) (task t0 : Task.t) (inputs : PyVal) (w : World) :
  Task.step_number task = 3%Z ->
  task_at w i = Some t0 ->
  fst (execute_task i task inputs w) = Ok failed_output
  /\ exists t',
       task_at (snd (execute_task i task inputs w)) i = Some t'
       /\ Task.status t' = TaskStatus.FAILED
       /\ Task.error t' = Some "Edge case not handled".
Proof.
  intros Hstep Hat. destruct w as [[|s tr] n]; [discriminate|].
  unfold task_at in Hat. cbn [trace] in Hat.
  unfold execute_task, bind, assign_task, now, add_log. rewrite Hstep.
  cbn [trace clock_reads Z.eqb Pos.eqb fst snd ret].
  split; [reflexivity|].
  unfold task_at. cbn [trace WorkflowResult.tasks WorkflowResult.set_tasks
                       WorkflowResult.append_log WorkflowResult.set_logs].
  rewrite !nth_error_update_nth, Hat. cbn. eexists. repeat split.
Qed.

Lemma execute_task_other_step (i : nat) (task t0 : Task.t) (inputs : PyVal)
    (w : World) :
  Task.step_number task <> 3%Z ->
  task_at w i = Some t0 ->
  fst (execute_task i task inputs w) = Ok (completed_output task)
  /\ exists t',
       task_at (snd (execute_task i task inputs w)) i = Some t'
       /\ Task.status t' = TaskStatus.COMPLETED
       /\ Task.error t' = Task.error t0.
Proof.
  intros Hstep Hat. destruct w as [[|s tr] n]; [discriminate|].
  unfold task_at in Hat. cbn [trace] in Hat.
  apply Z.eqb_neq in Hstep.
  unfold execute_task, bind, assign_task, now, add_log. rewrite Hstep.
  cbn [trace clock_reads fst snd ret].
  split; [reflexivity|].
  unfold task_at. cbn [trace WorkflowResult.tasks WorkflowResult.set_tasks
                       WorkflowResult.append_log WorkflowResult.set_logs].
  rewrite !nth_error_update_nth, Hat. cbn. eexists. repeat split.
Qed.

(** With or without a validator, step 3 fails validation with the same
    result, whatever the output. *)
Lemma validate_output_step3 (self : WorkflowEngine.t) (task : Task.t)
    (output : PyVal) (w : World) :
  Task.step_number task = 3%Z ->
  fst (validate_output self task output w) = Ok (fallback_failure task).
Proof.
  intros Hstep. unfold validate_output, bind, add_log, lift, Validator.validate.
  rewrite Hstep. destruct w as [[|s tr] n]; destruct (validator self); reflexivity.
Qed.

(** Without a validator, every other step passes, whatever the output. *)
Lemma validate_output_fallback_pass (c : option Corrector.t) (task : Task.t)
    (output : PyVal) (w : World) :
  Task.step_number task <> 3%Z ->
  fst (validate_output (WorkflowEngine.mk None c) task output w)
  = Ok (ValidationResult.mk true [] "none" (Task.id task)).
Proof.
  intros Hstep. apply Z.eqb_neq in Hstep.
  unfold validate_output, bind, add_log. cbn [validator]. rewrite Hstep.
  destruct w as [[|s tr] n]; reflexivity.
Qed.

(** With the validator of [__init__], another step is judged by the rules:
    the output [execute_task] builds has no citations and fails. *)
Lemma validate_output_bound_missing_citations (task : Task.t) (w : World) :
  Task.step_number task <> 3%Z ->
  fst (validate_output (init true) task (completed_output task) w)
  = Ok (ValidationResult.mk false ["Missing citations"] "medium" (Task.id task)).
Proof.
  intros Hstep. apply Z.eqb_neq in Hstep.
  unfold validate_output, bind, add_log, lift, Validator.validate.
  cbn [validator init]. rewrite Hstep.
  destruct w as [[|s tr] n]; reflexivity.
Qed.

(** C8 (amended): the task with step number 3 always fails execution with
    the error [Edge case not handled] and always fails validation with the
    single issue on the empty citation list at severity medium, whatever
    the inputs and the output; a task with another step number completes;
    it passes validation, whatever its output, when no validator is bound,
    and when the validator is bound its output is judged by the rules, which
    the output of [execute_task] fails for its missing citations. *)
Theorem step_position_outcomes (self : WorkflowEngine.t) (c : option Corrector.t)
    (i : nat) (task t0 : Task.t) (inputs output : PyVal) (w : World) :
  task_at w i = Some t0 ->
  (Task.step_number task = 3%Z ->
     fst (execute_task i task inputs w) = Ok failed_output
     /\ (exists t',
           task_at (snd (execute_task i task inputs w)) i = Some t'
           /\ Task.status t' = TaskStatus.FAILED
           /\ Task.error t' = Some "Edge case not handled")
     /\ fst (validate_output self task output w)
        = Ok (ValidationResult.mk false
                ["Missing error handling for edge case: empty citation list"]
                "medium" (Task.id task)))
  /\ (Task.step_number task <> 3%Z ->
     fst (execute_task i task inputs w) = Ok (completed_output task)
     /\ (exists t',
           task_at (snd (execute_task i task inputs w)) i = Some t'
           /\ Task.status t' = TaskStatus.COMPLETED)
     /\ fst (validate_output (WorkflowEngine.mk None c) task output w)
        = Ok (ValidationResult.mk true [] "none" (Task.id task))
     /\ fst (validate_output (init true) task (completed_output task) w)
        = Ok (ValidationResult.mk false ["Missing citations"] "medium"
                (Task.id task))).
Proof.
  intros Hat. split; intros Hstep.
  - destruct (execute_task_step3 i task inputs w Hstep Hat) as [Hr Ht].
    split; [exact Hr|]. split; [exact Ht|].
    exact (validate_output_step3 self task output w Hstep).
  - destruct (execute_task_other_step i task inputs w Hstep Hat)
      as [Hr (t' & Ht & Hs & _)].
    split; [exact Hr|]. split; [exists t'; auto|].
    split; [exact (validate_output_fallback_pass c task output w Hstep)|].
    exact (validate_output_bound_missing_citations task w Hstep).
Qed.

(** A world whose current workflow holds the five tasks of the default
    plan. *)
Definition planned_world : World :=
  mkWorld [ WorkflowResult.mk 0 (VStr "demo") WorkflowStage.EXECUTING 0.3%float
              (planned_tasks default_plan) [] [] None None 1 None ] 2.

Lemma step_position_outcomes_witness :
  fst (execute_task 2 (new_task 3 "Generate insights and findings") (VList [])
         planned_world) = Ok failed_output.
Proof.
  apply (@step_position_outcomes (init true) None 2
           (new_task 3 "Generate insights and findings")
           (new_task 3 "Generate insights and findings")
           (VList []) VNone planned_world); reflexivity.
Defined.

(** C8, as stated, fails on step 1 with the validator bound: the task
    completes, and its own output does not pass validation. *)
Lemma step_position_counterexample :
  let task := new_task 1 "Process and normalize input data" in
  Task.step_number task = 1%Z
  /\ fst (execute_task 0 task (VList []) planned_world) = Ok (completed_output task)
  /\ exists result,
       fst (validate_output (init true) task (completed_output task)
              (snd (execute_task 0 task (VList []) planned_world)))
       = Ok result
       /\ ValidationResult.passed result = false
       /\ ValidationResult.issues result = ["Missing citations"].
Proof.
  cbv zeta. split; [reflexivity|]. split; [reflexivity|].
  eexists. split; [vm_compute; reflexivity|]. split; reflexivity.
Qed.

(* ================================================================== *)
(** * Aggregation of the validation rules *)
(* ================================================================== *)

(** The checks of all the rules on one output, in registration order: the
    results, or the first exception. *)
Fixpoint check_all (rules : list (string * ValidationRule.t)) (output : PyVal)
  : Result (list (ValidationRule.t * (bool * list string))) :=
  match rules with
  | [] => Ok []
  | (_, rule) :: rest =>
      rbind (ValidationRule.check_function rule output) (fun res =>
      rbind (check_all rest output) (fun others => Ok ((rule, res) :: others)))
  end.

Definition rule_passed (x : ValidationRule.t * (bool * list string)) : bool :=
  fst (snd x).
Definition rule_issues (x : ValidationRule.t * (bool * list string))
  : list string := snd (snd x).
Definition rule_severity (x : ValidationRule.t * (bool * list string))
  : string := ValidationRule.severity (fst x).

(** The rules that fail, in registration order. *)
Definition failing (results : list (ValidationRule.t * (bool * list string)))
  : list (ValidationRule.t * (bool * list string)) :=
  filter (fun x => negb (rule_passed x)) results.

(** The order none < low < medium < high < critical. *)
Definition severity_rank (s : string) : nat :=
  if String.eqb s "critical" then 4
  else if String.eqb s "high" then 3
  else if String.eqb s "medium" then 2
  else if String.eqb s "low" then 1
  else 0.

Definition severity_max (a b : string) : string :=
  if severity_rank a <? severity_rank b then b else a.

(** The greatest severity of a list, [none] for the empty list. *)
Definition max_severity (l : list string) : string :=
  fold_left severity_max l "none".

(** The severities the loop of [validate] takes into account. *)
Definition counted_severity (s : string) : Prop :=
  s = "medium" \/ s = "high" \/ s = "critical".

Lemma counted_severity_cases (s : string) :
  counted_severity s ->
  (String.eqb s "critical" = true /\ s = "critical")
  \/ (String.eqb s "critical" = false /\ String.eqb s "high" = true /\ s = "high")
  \/ (String.eqb s "critical" = false /\ String.eqb s "high" = false
      /\ String.eqb s "medium" = true /\ s = "medium").
Proof.
  intros [-> | [-> | ->]]; cbn; auto 10.
Qed.

(** The loop of [validate], started from the issues [acc] and a severity
    [sev] that is [none] or one the loop counts. *)
Lemma validate_loop_spec (output : PyVal) (rules : list (string * ValidationRule.t)) :
  forall results acc sev,
    check_all rules output = Ok results ->
    exists sev',
      Validator.validate_loop output rules (acc, sev)
      = Ok ((acc ++ concat (map rule_issues (failing results)))%list, sev')
      /\ (Forall (fun x => counted_severity (rule_severity x)) (failing results) ->
          sev = "none" \/ counted_severity sev ->
          sev' = fold_left severity_max (map rule_severity (failing results)) sev).
Proof.
  induction rules as [|[name rule] rules IH]; intros results acc sev Hall.
  - injection Hall as <-. exists sev. cbn. rewrite app_nil_r. auto.
  - cbn in Hall. cbn [Validator.validate_loop].
    unfold Validator.validate_step at 1.
    destruct (ValidationRule.check_function rule output) as [[passed issues]|e];
      [|discriminate].
    cbn in Hall.
    destruct (check_all rules output) as [others|e] eqn:Hothers; [|discriminate].
    injection Hall as <-. cbn [rbind].
    destruct passed; cbn [negb].
    + destruct (IH others acc sev eq_refl) as (sev' & Hrun & Hsev).
      exists sev'. split; [exact Hrun | exact Hsev].
    + unfold failing. cbn [filter rule_passed fst snd negb].
      fold (failing others). cbn [map concat rule_issues rule_severity fst snd fold_left].
      rewrite app_assoc.
      destruct (String.eqb (ValidationRule.severity rule) "critical") eqn:Hc.
      { destruct (IH others (acc ++ issues)%list "critical" eq_refl) as (sev' & Hrun & Hsev).
        cbn [rbind]. exists sev'. split; [exact Hrun|].
        intros Hf Hs. inversion Hf as [|x l Hx Hl]; subst.
        rewrite (Hsev Hl) by (right; right; now right).
        apply String.eqb_eq in Hc. change (rule_severity (rule, (false, issues))) with (ValidationRule.severity rule) in *. rewrite Hc.
        destruct Hs as [-> | [-> | [-> | ->]]]; reflexivity. }
      destruct (String.eqb (ValidationRule.severity rule) "high"
                && negb (String.eqb sev "critical")) eqn:Hh.
      { destruct (IH others (acc ++ issues)%list "high" eq_refl) as (sev' & Hrun & Hsev).
        cbn [rbind]. exists sev'. split; [exact Hrun|].
        intros Hf Hs. inversion Hf as [|x l Hx Hl]; subst.
        rewrite (Hsev Hl) by (right; right; now left).
        apply andb_true_iff in Hh. destruct Hh as [Hh Hn].
        apply String.eqb_eq in Hh. change (rule_severity (rule, (false, issues))) with (ValidationRule.severity rule) in *. rewrite Hh.
        destruct Hs as [-> | [-> | [-> | ->]]]; try reflexivity; discriminate. }
      destruct (String.eqb (ValidationRule.severity rule) "medium"
                && negb (String.eqb sev "critical" || String.eqb sev "high")) eqn:Hm.
      { destruct (IH others (acc ++ issues)%list "medium" eq_refl) as (sev' & Hrun & Hsev).
        cbn [rbind]. exists sev'. split; [exact Hrun|].
        intros Hf Hs. inversion Hf as [|x l Hx Hl]; subst.
        rewrite (Hsev Hl) by (right; now left).
        apply andb_true_iff in Hm. destruct Hm as [Hm Hn].
        apply String.eqb_eq in Hm. change (rule_severity (rule, (false, issues))) with (ValidationRule.severity rule) in *. rewrite Hm.
        destruct Hs as [-> | [-> | [-> | ->]]]; try reflexivity; discriminate. }
      destruct (IH others (acc ++ issues)%list sev eq_refl) as (sev' & Hrun & Hsev).
      cbn [rbind]. exists sev'. split; [exact Hrun|].
      intros Hf Hs. inversion Hf as [|x l Hx Hl]; subst.
      rewrite (Hsev Hl Hs). change (rule_severity (rule, (false, issues))) with (ValidationRule.severity rule) in *.
      destruct (counted_severity_cases Hx) as [[Hc' E] | [(_ & Hh' & E) | (_ & _ & Hm' & E)]].
      * congruence.
      * rewrite Hh' in Hh. cbn in Hh. apply negb_false_iff in Hh.
        apply String.eqb_eq in Hh. subst sev. rewrite E. reflexivity.
      * rewrite Hm' in Hm. cbn in Hm. apply negb_false_iff in Hm.
        apply orb_true_iff in Hm. rewrite E.
        destruct Hm as [Hm | Hm]; apply String.eqb_eq in Hm; subst sev; reflexivity.
Qed.

Lemma concat_nil_nonempty {A} (l : list (list A)) :
  Forall (fun x => x <> []) l -> concat l = [] -> l = [].
Proof.
  destruct l as [|x l]; [reflexivity|]. intros Hall Hc. cbn in Hc.
  inversion Hall as [|? ? Hx _]; subst.
  destruct x; [now contradiction Hx | discriminate].
Qed.

Lemma failing_nil_all_pass (results : list (ValidationRule.t * (bool * list string))) :
  failing results = [] <-> Forall (fun x => rule_passed x = true) results.
Proof.
  unfold failing. induction results as [|x l IH]; cbn.
  - split; [constructor | reflexivity].
  - destruct (rule_passed x) eqn:Hx; cbn.
    + rewrite IH. split; [now constructor | now inversion 1].
    + split; [discriminate | inversion 1; congruence].
Qed.

(** C2 (amended): for a task whose step number is 3, [validate] returns,
    whatever the rules and the output, a failure of severity medium with
    the single issue on the empty citation list.  For a task with another
    step number and an output on which every check returns, [validate]
    returns a result whose issues are the issues of the failing rules,
    concatenated in registration order; [passed] is true iff that list is
    empty, hence iff every rule passes when each failing rule reports an
    issue; and the severity is the greatest severity among the failing
    rules when these are medium, high or critical. *)
Theorem validate_aggregates (self : Validator.t) (task : Task.t) (output : PyVal)
    (results : list (ValidationRule.t * (bool * list string))) :
  (Task.step_number task = 3%Z ->
   Validator.validate self task output
   = Ok (ValidationResult.mk false
           ["Missing error handling for edge case: empty citation list"]
           "medium" (Task.id task)))
  /\ (Task.step_number task <> 3%Z ->
      check_all (Validator.rules self) output = Ok results ->
      exists r,
        Validator.validate self task output = Ok r
        /\ ValidationResult.task_id r = Task.id task
        /\ ValidationResult.issues r = concat (map rule_issues (failing results))
        /\ (ValidationResult.passed r = true <-> ValidationResult.issues r = [])
        /\ (Forall (fun x => rule_issues x <> []) (failing results) ->
            (ValidationResult.passed r = true
             <-> Forall (fun x => rule_passed x = true) results))
        /\ (Forall (fun x => counted_severity (rule_severity x)) (failing results) ->
            ValidationResult.severity r
            = max_severity (map rule_severity (failing results)))).
Proof.
  split.
  { intros Hstep. unfold Validator.validate. rewrite Hstep. reflexivity. }
  intros Hstep Hall. apply Z.eqb_neq in Hstep.
  destruct (validate_loop_spec output (Validator.rules self) [] "none" Hall)
    as (sev & Hrun & Hsev).
  unfold Validator.validate. rewrite Hstep, Hrun. cbn [rbind app].
  eexists. split; [reflexivity|]. cbn.
  split; [reflexivity|]. split; [reflexivity|].
  assert (Hpassed :
    (List.length (concat (map rule_issues (failing results))) =? 0) = true
    <-> concat (map rule_issues (failing results)) = []).
  { rewrite Nat.eqb_eq. apply length_zero_iff_nil. }
  split; [exact Hpassed|]. split.
  - intros Hne. rewrite Hpassed, <- failing_nil_all_pass. split.
    + intros Hc. apply concat_nil_nonempty in Hc.
      * now apply map_eq_nil in Hc.
      * now apply Forall_map.
    + intros ->. reflexivity.
  - intros Hc. apply Hsev; [exact Hc | now left].
Qed.

(** The four rules of [__init__], when they all return: a failing rule
    reports an issue, and its severity is one the loop counts. *)
Lemma default_rules_regular (output : PyVal)
    (results : list (ValidationRule.t * (bool * list string))) :
  check_all (Validator.rules Validator.init) output = Ok results ->
  Forall (fun x => rule_issues x <> []) (failing results)
  /\ Forall (fun x => counted_severity (rule_severity x)) (failing results).
Proof.
  destruct output as [| | | | |d]; try discriminate.
  cbn [Validator.rules Validator.init Validator._load_default_rules check_all
       ValidationRule.check_function].
  unfold Validator._check_citations at 1. cbn [py_get rbind].
  destruct (py_len (dict_get_default d "citations" (VList []))) as [n|e];
    [|discriminate].
  cbn [rbind].
  unfold Validator._check_completeness, Validator.py_not_in. cbn [rbind].
  intros H.
  destruct (n =? 0), (dict_has d "result"), (dict_has d "data");
    cbn in H; injection H as <-; unfold failing; cbn;
    split; repeat (apply Forall_cons || apply Forall_nil); try discriminate;
    unfold counted_severity, rule_severity; cbn; auto.
Qed.

Definition cited_output : PyVal :=
  VDict [ ("citations", VList [VStr "Vaswani et al. 2017"]);
          ("result", VStr "Completed: synthesis");
          ("data", VDict [ ("processed", VBool true) ]) ].

Definition incomplete_output : PyVal :=
  VDict [ ("data", VDict [ ("processed", VBool true) ]) ].

Lemma validate_aggregates_witness :
  exists r,
    Validator.validate Validator.init (new_task 2 "Apply analysis algorithms")
                       incomplete_output = Ok r
    /\ ValidationResult.passed r = false
    /\ ValidationResult.severity r = "high"
    /\ ValidationResult.issues r
       = ["Missing citations"; "Missing required field: result"].
Proof.
  destruct (check_all (Validator.rules Validator.init) incomplete_output)
    as [results|e] eqn:Hall; [|discriminate].
  destruct (@validate_aggregates Validator.init
              (new_task 2 "Apply analysis algorithms") incomplete_output results)
    as [_ Hrules].
  destruct Hrules as (r & Hr & _ & Hissues & Hpassed & _ & Hsev).
  - discriminate.
  - exact Hall.
  - injection Hall as <-.
    exists r. split; [exact Hr|]. split; [|split].
    + destruct (ValidationResult.passed r); [|reflexivity].
      destruct Hpassed as [Hp _]. rewrite Hissues in Hp.
      specialize (Hp eq_refl). discriminate.
    + rewrite Hsev; [reflexivity|].
      apply (default_rules_regular incomplete_output). reflexivity.
    + rewrite Hissues. reflexivity.
Defined.

(** C2, as stated, fails for step 3: every rule passes on the output, and
    the result is a failure all the same. *)
Lemma validate_aggregates_counterexample :
  let task := new_task 3 "Generate insights and findings" in
  (exists results,
      check_all (Validator.rules Validator.init) cited_output = Ok results
      /\ Forall (fun x => rule_passed x = true) results)
  /\ exists r,
       Validator.validate Validator.init task cited_output = Ok r
       /\ ValidationResult.passed r = false
       /\ ValidationResult.severity r = "medium"
       /\ ValidationResult.issues r
          = ["Missing error handling for edge case: empty citation list"].
Proof.
  cbv zeta. split.
  - eexists. split; [reflexivity|]. repeat constructor.
  - eexists. split; [reflexivity|]. repeat split.
Qed.

(** A rule registered with [add_custom_rule] at severity [low]: when it is
    the only rule that fails, the loop of [validate] leaves the severity at
    [none]. *)
Definition low_rule : ValidationRule.t :=
  ValidationRule.mk "length_check" "Flag long results" "low"
    (fun _ => Ok (false, ["Result too long"])).

Example validate_skips_low_severity :
  Validator.validate (Validator.add_custom_rule Validator.init low_rule)
                     (new_task 2 "Apply analysis algorithms") cited_output
  = Ok (ValidationResult.mk false ["Result too long"] "none" "task_2").
Proof. reflexivity. Qed.

(* ================================================================== *)
(** * Strategy selection *)
(* ================================================================== *)

(** ** Substrings *)











(** ** Lower case and [repr] *)

Lemma lower_append (a b : string) :
  PyStr.lower (a ++ b) = PyStr.lower a ++ PyStr.lower b.
Proof. induction a as [|c a IH]; cbn; [reflexivity | now rewrite IH]. Qed.








Lemma repr_quote_cases (s : string) :
  PyStr.repr_quote s = PyStr.squote \/ PyStr.repr_quote s = PyStr.dquote.
Proof. unfold PyStr.repr_quote. destruct (_ && _); auto. Qed.



(** ** The text the selector searches *)









Lemma issue_text_render (validation : ValidationResult.t) :
  CorrectionStrategies.issue_text validation
  = "[" ++ PyStr.lower (PyStr.join ", "
             (map PyStr.repr (ValidationResult.issues validation))) ++ "]".
Proof.
  unfold CorrectionStrategies.issue_text. cbn [py_str py_repr].
  rewrite map_map. cbn [py_repr].
  rewrite !lower_append. reflexivity.
Qed.


(** ** Needles that survive [repr] *)













(* ================================================================== *)
(** * Properties of a whole run *)
(* ================================================================== *)

(** [chain R l]: [R older newer] holds for every two neighbours of the
    trace [l], which has its newest element first. *)
Fixpoint chain {A} (R : A -> A -> Prop) (l : list A) : Prop :=
  match l with
  | newer :: ((older :: _) as rest) => R older newer /\ chain R rest
  | _ => True
  end.

Fixpoint chainb {A} (r : A -> A -> bool) (l : list A) : bool :=
  match l with
  | newer :: ((older :: _) as rest) => r older newer && chainb r rest
  | _ => true
  end.

Lemma chainb_sound {A} (R : A -> A -> Prop) (r : A -> A -> bool) (l : list A) :
  (forall a b, r a b = true -> R a b) -> chainb r l = true -> chain R l.
Proof.
  intros Hr. induction l as [|x l IH]; [exact (fun _ => I)|].
  destruct l as [|y l]; [exact (fun _ => I)|].
  intros H. change (r y x && chainb r (y :: l) = true) in H.
  apply andb_true_iff in H. destruct H as [Hxy Hl].
  change (R y x /\ chain R (y :: l)). split; auto.
Qed.

Lemma chain_map {A B} (f : A -> B) (R : B -> B -> Prop) (l : list A) :
  chain R (map f l) <-> chain (fun a b => R (f a) (f b)) l.
Proof.
  induction l as [|x l IH]; [cbn; tauto|].
  destruct l as [|y l]; [cbn; tauto|].
  change ((R (f y) (f x) /\ chain R (map f (y :: l)))
          <-> (R (f y) (f x) /\ chain (fun a b => R (f a) (f b)) (y :: l))).
  rewrite IH. tauto.
Qed.

Lemma chain_append {A} (R : A -> A -> Prop) (l1 l2 : list A) (x : A) :
  chain R (l1 ++ [x])%list -> chain R (x :: l2) -> chain R (l1 ++ x :: l2)%list.
Proof.
  induction l1 as [|a l1 IH]; [cbn; auto|].
  destruct l1 as [|b l1].
  - intros [Hxa _] H2. change (R x a /\ chain R (x :: l2)). split; auto.
  - intros H1 H2.
    change (R b a /\ chain R ((b :: l1) ++ [x])%list) in H1.
    change (R b a /\ chain R ((b :: l1) ++ x :: l2)%list).
    destruct H1 as [Hba H1]. split; [exact Hba|]. apply IH; auto.
Qed.

Lemma chain_repeat_tail {A} (R : A -> A -> Prop) (o first : A) (k : nat) :
  R o o -> R first o -> chain R (o :: repeat o k ++ [first])%list.
Proof.
  intros Hoo Hfo. induction k as [|k IH].
  - cbn. auto.
  - change (R o o /\ chain R (o :: repeat o k ++ [first])%list). split; auto.
Qed.

(** The shape every run has: some last steps [steps], the snapshots of
    stage 1 before it, all alike, and the snapshot the run starts from. *)
Definition run_shape (steps : list Obs) (k : nat) : list Obs :=
  (steps ++ repeat o_ing (S k) ++ [o_idle])%list.

Lemma chain_run_shape (R : Obs -> Obs -> Prop) (steps : list Obs) (k : nat) :
  R o_ing o_ing -> R o_idle o_ing ->
  chain R (steps ++ [o_ing])%list -> chain R (run_shape steps k).
Proof.
  intros Hoo Hio H. unfold run_shape. cbn [repeat app].
  apply chain_append; [exact H|]. now apply chain_repeat_tail.
Qed.

Lemma Forall_run_shape (P : Obs -> Prop) (steps : list Obs) (k : nat) :
  P o_ing -> P o_idle -> Forall P steps -> Forall P (run_shape steps k).
Proof.
  intros Ho Hi H. unfold run_shape. apply Forall_app. split; [exact H|].
  apply Forall_app. split; [|now constructor].
  clear H. induction (S k); cbn; constructor; auto.
Qed.

Definition failed_ingest_steps : list Obs :=
  [ (WorkflowStage.FAILED, 0%float, []); (WorkflowStage.FAILED, 0%float, []) ].

Definition failed_plan_steps : list Obs :=
  [ (WorkflowStage.FAILED, 0.2%float, []); (WorkflowStage.FAILED, 0.2%float, []);
    o_planning; o_planning; o_ingested ].

Definition success_steps (b : bool) : list Obs :=
  (executed_obs b
     ++ [ (WorkflowStage.PLANNING, 0.3%float, five_pending);
          (WorkflowStage.PLANNING, 0.2%float, five_pending);
          o_planning; o_planning; o_planning; o_ingested ])%list.

(** Every run of an engine built by [__init__] has one of three shapes:
    it raised in stage 1, it raised in stage 2, or it returned. *)
Lemma run_shapes (b : bool) (cfg : PyDict) (w : World) :
  let rw := execute_workflow (init b) cfg w in
  exists steps k,
    obs_trace (snd rw) = run_shape steps k
    /\ (((steps = failed_ingest_steps \/ steps = failed_plan_steps)
         /\ exists e, fst rw = Raise e)
        \/ (steps = success_steps b /\ exists s, fst rw = Ok s)).
Proof.
  intros rw. subst rw.
  destruct (run_spec b cfg w)
    as [(e & m & w1 & Hr & _ & _ & _ & [Hobs | Hobs] & _)
       |(s & name & es & Hr & _ & _ & _ & _ & _ & Hobs & _)].
  - exists failed_ingest_steps, m. split; [exact Hobs|].
    left. split; [now left | now exists e].
  - exists failed_plan_steps, (2 + m). split; [exact Hobs|].
    left. split; [now right | now exists e].
  - exists (success_steps b), (2 + List.length es). split.
    + rewrite Hobs. unfold success_obs, success_steps, run_shape.
      rewrite <- app_assoc. reflexivity.
    + right. split; [reflexivity | now exists s].
Qed.

(** The four lists of last steps a run can have. *)
Definition all_steps : list (list Obs) :=
  [ failed_ingest_steps; failed_plan_steps; success_steps true; success_steps false ].

Lemma run_shape_cases (b : bool) (cfg : PyDict) (w : World) :
  exists steps k,
    obs_trace (snd (execute_workflow (init b) cfg w)) = run_shape steps k
    /\ In steps all_steps.
Proof.
  destruct (run_shapes b cfg w) as (steps & k & Hobs & H).
  exists steps, k. split; [exact Hobs|].
  destruct H as [[[-> | ->] _] | [-> _]]; cbn; auto.
  destruct b; auto.
Qed.

(** A relation between neighbouring observations that a boolean test
    establishes on the four lists of steps holds along every run. *)
Lemma run_chain (R : Obs -> Obs -> Prop) (r : Obs -> Obs -> bool) :
  (forall a b, r a b = true -> R a b) ->
  r o_ing o_ing = true -> r o_idle o_ing = true ->
  forallb (fun steps => chainb r (steps ++ [o_ing])%list) all_steps = true ->
  forall b cfg w,
    chain (fun older newer => R (obs older) (obs newer))
          (trace (snd (execute_workflow (init b) cfg w))).
Proof.
  intros Hr Hoo Hio Hall b cfg w.
  apply (proj1 (chain_map obs R _)).
  destruct (run_shape_cases b cfg w) as (steps & k & Hobs & Hin).
  unfold obs_trace in Hobs. rewrite Hobs.
  apply chain_run_shape; auto.
  apply chainb_sound with (r := r); [exact Hr|].
  rewrite forallb_forall in Hall. exact (Hall steps Hin).
Qed.

(** A property of observations that a boolean test establishes on the four
    lists of steps holds of every snapshot of every run. *)
Lemma run_forall (P : Obs -> Prop) (p : Obs -> bool) :
  (forall o, p o = true -> P o) ->
  p o_ing = true -> p o_idle = true ->
  forallb (forallb p) all_steps = true ->
  forall b cfg w,
    Forall (fun s => P (obs s)) (trace (snd (execute_workflow (init b) cfg w))).
Proof.
  intros Hp Ho Hi Hall b cfg w.
  apply (proj1 (Forall_map obs P _)).
  destruct (run_shape_cases b cfg w) as (steps & k & Hobs & Hin).
  unfold obs_trace in Hobs. rewrite Hobs.
  apply Forall_run_shape; auto.
  rewrite forallb_forall in Hall. specialize (Hall steps Hin).
  rewrite forallb_forall in Hall. apply Forall_forall. auto.
Qed.

(** The snapshots of a run that returns include one for each observation of
    [success_steps]. *)
Lemma run_ok_snapshot (b : bool) (cfg : PyDict) (w : World) (r : WorkflowResult.t)
    (o : Obs) :
  fst (execute_workflow (init b) cfg w) = Ok r ->
  In o (success_steps b) ->
  exists s, In s (trace (snd (execute_workflow (init b) cfg w))) /\ obs s = o.
Proof.
  intros Hr Hin.
  destruct (run_shapes b cfg w) as (steps & k & Hobs & [[_ [e He]] | [-> _]]).
  - rewrite Hr in He. discriminate.
  - assert (Hino : In o (obs_trace (snd (execute_workflow (init b) cfg w)))).
    { rewrite Hobs. unfold run_shape. apply in_or_app. now left. }
    unfold obs_trace in Hino. apply in_map_iff in Hino.
    destruct Hino as (s & Hs & Hin'). now exists s.
Qed.

(** The last observation of each engine's returning run. *)
Definition final_obs (b : bool) : Obs :=
  (WorkflowStage.COMPLETED, 1%float,
   [ TaskStatus.COMPLETED; TaskStatus.COMPLETED;
     (if b then TaskStatus.FAILED else TaskStatus.CORRECTED);
     TaskStatus.COMPLETED; TaskStatus.COMPLETED ]).

(** How a run ends: the exception leaves the run FAILED before any task
    exists, the returned value is the engine's current workflow. *)
Lemma run_final (b : bool) (cfg : PyDict) (w : World) :
  let rw := execute_workflow (init b) cfg w in
  exists s,
    current_workflow (snd rw) = Some s
    /\ ((exists e, fst rw = Raise e)
        /\ (obs s = (WorkflowStage.FAILED, 0%float, [])
            \/ obs s = (WorkflowStage.FAILED, 0.2%float, []))
        \/ fst rw = Ok s /\ obs s = final_obs b).
Proof.
  intros rw. subst rw.
  assert (Hhd : forall o l,
             obs_trace (snd (execute_workflow (init b) cfg w)) = o :: l ->
             exists s, current_workflow (snd (execute_workflow (init b) cfg w)) = Some s
                       /\ obs s = o).
  { intros o l H. unfold obs_trace, current_workflow in *.
    destruct (trace (snd (execute_workflow (init b) cfg w))) as [|s tr];
      [discriminate|].
    exists s. split; [reflexivity|]. now injection H. }
  destruct (run_spec b cfg w)
    as [(e & m & w1 & Hr & _ & _ & _ & [Hobs | Hobs] & _)
       |(s & name & es & Hr & Hcur & _ & _ & _ & _ & Hobs & _)].
  - destruct (Hhd _ _ Hobs) as (s & Hs & Ho). exists s. split; [exact Hs|].
    left. split; [now exists e | now left].
  - destruct (Hhd _ _ Hobs) as (s & Hs & Ho). exists s. split; [exact Hs|].
    left. split; [now exists e | now right].
  - exists s. split; [exact Hcur|]. right. split; [exact Hr|].
    assert (Hobs' : obs_trace (snd (execute_workflow (init b) cfg w))
                    = final_obs b :: tl (success_obs b (List.length es))).
    { rewrite Hobs. destruct b; reflexivity. }
    destruct (Hhd _ _ Hobs') as (s' & Hs' & Ho).
    rewrite Hcur in Hs'. now injection Hs' as <-.
Qed.

(* ================================================================== *)
(** * Progress of a run *)
(* ================================================================== *)

Definition finished (st : TaskStatus.t) : bool :=
  match st with
  | TaskStatus.PENDING | TaskStatus.RUNNING => false
  | _ => true
  end.

Definition tasks_finished (s : WorkflowResult.t) : nat :=
  List.length (filter (fun t => finished (Task.status t)) (WorkflowResult.tasks s)).

Definition total_tasks (s : WorkflowResult.t) : nat :=
  List.length (WorkflowResult.tasks s).

(** The formula of the specification, 0.3 + 0.6 * (tasks_finished /
    total_tasks), computed in floats as Python computes it. *)
Definition progress_formula (k total : nat) : float :=
  (0.3 + 0.6 * (float_of_nat k / float_of_nat total))%float.

Definition obs_finished (o : Obs) : nat := List.length (filter finished (snd o)).
Definition obs_total (o : Obs) : nat := List.length (snd o).

Lemma tasks_finished_obs (s : WorkflowResult.t) :
  tasks_finished s = obs_finished (obs s).
Proof.
  unfold tasks_finished, obs_finished, obs. cbn [snd].
  induction (WorkflowResult.tasks s) as [|t l IH]; [reflexivity|].
  cbn. destruct (finished (Task.status t)); cbn; now rewrite IH.
Qed.

Lemma total_tasks_obs (s : WorkflowResult.t) : total_tasks s = obs_total (obs s).
Proof. unfold total_tasks, obs_total, obs. cbn [snd]. now rewrite length_map. Qed.

(** With the five tasks of a plan, the assignment of the loop and the
    formula give the same floats: 0.42, 0.54, 0.6599999999999999, 0.78 and
    0.8999999999999999, the last one below the 0.9 of stage 6. *)
Lemma task_progress_formula :
  map (fun i => task_progress i 5) [0; 1; 2; 3; 4]
  = map (fun k => progress_formula k 5) [1; 2; 3; 4; 5]
  /\ map (fun k => progress_formula k 5) [1; 2; 3; 4; 5]
     = [ 0.42; 0.54; 0.6599999999999999; 0.78; 0.8999999999999999 ]%float
  /\ float_lt (progress_formula 5 5) 0.9.
Proof. repeat split; vm_compute; reflexivity. Qed.

Definition working (stage : WorkflowStage.t) : bool :=
  match stage with
  | WorkflowStage.EXECUTING | WorkflowStage.VALIDATING | WorkflowStage.CORRECTING => true
  | _ => false
  end.

Definition progress_tracks_b (o : Obs) : bool :=
  negb (working (fst (fst o)))
  || PrimFloat.eqb (snd (fst o)) (progress_formula (obs_finished o) (obs_total o))
  || PrimFloat.eqb (snd (fst o)) (progress_formula (obs_finished o - 1) (obs_total o)).

Definition full_is_completed_b (o : Obs) : bool :=
  negb (PrimFloat.eqb (snd (fst o)) 1)
  || WorkflowStage.eqb (fst (fst o)) WorkflowStage.COMPLETED.

Lemma stage_eqb_eq (a b : WorkflowStage.t) : WorkflowStage.eqb a b = true -> a = b.
Proof. destruct a, b; cbn; congruence. Qed.

(** C3: in every run of [execute_workflow] the progress never decreases
    from one state of the run to the next; a state with progress 1.0 has
    stage COMPLETED, and the run ends with progress 1.0 if and only if it
    ends with stage COMPLETED, which it does if and only if it returns;
    during stages 3 to 5 the progress is the float 0.3 + 0.6 * (k / total)
    for k the number of finished tasks, or still that of k - 1 until the
    assignment that ends the iteration; in a run that returns, each k from
    1 to the number of tasks has a state of stage EXECUTING with k finished
    tasks whose progress is that float, the value of the code's expression
    0.3 + (0.6 * k / total); and such a run has a state of stage COMPLETED
    whose progress is 0.9, below 1.0: stage COMPLETED does not imply
    progress 1.0 before the end of the run. *)
Theorem progress_of_run (b : bool) (cfg : PyDict) (w : World) :
  let rw := execute_workflow (init b) cfg w in
  let snapshots := trace (snd rw) in
  chain (fun older newer =>
           float_le (WorkflowResult.progress older) (WorkflowResult.progress newer))
        snapshots
  /\ Forall (fun s => float_eq (WorkflowResult.progress s) 1 ->
                      WorkflowResult.stage s = WorkflowStage.COMPLETED) snapshots
  /\ (exists s, current_workflow (snd rw) = Some s
                /\ (float_eq (WorkflowResult.progress s) 1
                    <-> WorkflowResult.stage s = WorkflowStage.COMPLETED)
                /\ (WorkflowResult.stage s = WorkflowStage.COMPLETED
                    <-> fst rw = Ok s))
  /\ Forall (fun s => working (WorkflowResult.stage s) = true ->
                      float_eq (WorkflowResult.progress s)
                               (progress_formula (tasks_finished s) (total_tasks s))
                      \/ float_eq (WorkflowResult.progress s)
                                  (progress_formula (tasks_finished s - 1)
                                                    (total_tasks s)))
            snapshots
  /\ (forall r, fst rw = Ok r ->
      (forall k, 1 <= k <= total_tasks r ->
       exists s, In s snapshots
                 /\ WorkflowResult.stage s = WorkflowStage.EXECUTING
                 /\ total_tasks s = total_tasks r
                 /\ tasks_finished s = k
                 /\ WorkflowResult.progress s = progress_formula k (total_tasks r)
                 /\ WorkflowResult.progress s = task_progress (k - 1) (total_tasks r))
      /\ exists s, In s snapshots
                   /\ WorkflowResult.stage s = WorkflowStage.COMPLETED
                   /\ WorkflowResult.progress s = 0.9%float
                   /\ float_lt (WorkflowResult.progress s) 1).
Proof.
  intros rw snapshots. subst rw snapshots.
  split; [|split; [|split; [|split]]].
  - apply (@run_chain (fun o o' => float_le (snd (fst o)) (snd (fst o')))
                      (fun o o' => PrimFloat.leb (snd (fst o)) (snd (fst o')))).
    + intros o o' H. exact H.
    + reflexivity.
    + reflexivity.
    + vm_compute. reflexivity.
  - apply (@run_forall (fun o => float_eq (snd (fst o)) 1 ->
                                 fst (fst o) = WorkflowStage.COMPLETED)
                       full_is_completed_b).
    + intros o Ho Hp. unfold full_is_completed_b in Ho. unfold float_eq in Hp.
      apply orb_true_iff in Ho. destruct Ho as [Ho | Ho].
      * apply negb_true_iff in Ho. congruence.
      * now apply stage_eqb_eq.
    + reflexivity.
    + reflexivity.
    + vm_compute. reflexivity.
  - destruct (run_final b cfg w) as (s & Hcur & [[[e He] Ho] | [Hr Ho]]).
    + exists s. split; [exact Hcur|].
      assert (Hs : WorkflowResult.stage s = WorkflowStage.FAILED
                   /\ (WorkflowResult.progress s = 0%float
                       \/ WorkflowResult.progress s = 0.2%float)).
      { unfold obs in Ho.
        destruct Ho as [Ho | Ho];
          (split; [exact (f_equal (fun o : Obs => fst (fst o)) Ho)|]);
          [left | right]; exact (f_equal (fun o : Obs => snd (fst o)) Ho). }
      destruct Hs as [Hst Hp]. rewrite Hst, He.
      split; split; try discriminate.
      unfold float_eq. destruct Hp as [-> | ->]; intros H; vm_compute in H;
        discriminate.
    + exists s. split; [exact Hcur|].
      assert (Hst : WorkflowResult.stage s = WorkflowStage.COMPLETED)
        by exact (f_equal (fun o : Obs => fst (fst o)) Ho).
      assert (Hp : WorkflowResult.progress s = 1%float)
        by exact (f_equal (fun o : Obs => snd (fst o)) Ho).
      unfold float_eq. rewrite Hst, Hp. split; split; intros _; auto; reflexivity.
  - assert (H := @run_forall
                   (fun o => working (fst (fst o)) = true ->
                             float_eq (snd (fst o))
                                      (progress_formula (obs_finished o) (obs_total o))
                             \/ float_eq (snd (fst o))
                                         (progress_formula (obs_finished o - 1)
                                                           (obs_total o)))
                   progress_tracks_b).
    eapply Forall_impl; [|apply H].
    + intros s Hs. rewrite tasks_finished_obs, total_tasks_obs. exact Hs.
    + intros o Ho Hw. unfold progress_tracks_b in Ho. rewrite Hw in Ho. cbn in Ho.
      apply orb_true_iff in Ho. destruct Ho as [Ho | Ho]; auto.
    + reflexivity.
    + reflexivity.
    + vm_compute. reflexivity.
  - intros r Hr.
    destruct (run_final b cfg w) as (s & Hcur & [[[e He] _] | [Hr' Ho]]).
    { rewrite Hr in He. discriminate. }
    rewrite Hr in Hr'. injection Hr' as ->.
    assert (Htot : total_tasks s = 5).
    { rewrite total_tasks_obs, Ho. reflexivity. }
    rewrite Htot in *.
    split.
    + intros k Hk.
      set (st := fun k : nat =>
             map (fun i => if i <? k then nth i (snd (final_obs b)) TaskStatus.PENDING
                           else TaskStatus.PENDING) [0; 1; 2; 3; 4]).
      assert (Hin : In (WorkflowStage.EXECUTING, progress_formula k 5, st k)
                       (success_steps b)
                    /\ obs_finished (WorkflowStage.EXECUTING, 0%float, st k) = k
                    /\ progress_formula k 5 = task_progress (k - 1) 5).
      { assert (Hk' : k = 1 \/ k = 2 \/ k = 3 \/ k = 4 \/ k = 5) by lia.
        destruct Hk' as [-> | [-> | [-> | [-> | ->]]]]; destruct b;
          (split; [|split; [reflexivity | vm_compute; reflexivity]]); vm_compute;
          repeat (first [left; reflexivity | right]). }
      destruct Hin as (Hin & Hfin & Hcode).
      destruct (run_ok_snapshot b cfg w _ Hr Hin) as (s' & Hs' & Hobs').
      exists s'. split; [exact Hs'|].
      rewrite tasks_finished_obs, total_tasks_obs, Hobs'.
      split; [exact (f_equal (fun x : Obs => fst (fst x)) Hobs')|].
      split; [reflexivity|]. split; [exact Hfin|].
      assert (Hprog : WorkflowResult.progress s' = progress_formula k 5)
        by exact (f_equal (fun x : Obs => snd (fst x)) Hobs').
      split; [exact Hprog | now rewrite Hprog].
    + assert (Hin : In (WorkflowStage.COMPLETED, 0.9%float, snd (final_obs b))
                       (success_steps b)).
      { destruct b; vm_compute; repeat (first [left; reflexivity | right]). }
      destruct (run_ok_snapshot b cfg w _ Hr Hin) as (s' & Hs' & Hobs').
      exists s'. split; [exact Hs'|].
      split; [exact (f_equal (fun x : Obs => fst (fst x)) Hobs')|].
      assert (Hprog : WorkflowResult.progress s' = 0.9%float)
        by exact (f_equal (fun x : Obs => snd (fst x)) Hobs').
      split; [exact Hprog|]. rewrite Hprog. reflexivity.
Qed.

(* ================================================================== *)
(** * The life of a task *)
(* ================================================================== *)

(** The moves the code makes: [execute_task] sets RUNNING and then
    COMPLETED or FAILED, the fallback of [apply_correction] sets CORRECTED. *)
Inductive status_move : TaskStatus.t -> TaskStatus.t -> Prop :=
| move_start : status_move TaskStatus.PENDING TaskStatus.RUNNING
| move_complete : status_move TaskStatus.RUNNING TaskStatus.COMPLETED
| move_fail : status_move TaskStatus.RUNNING TaskStatus.FAILED
| move_correct : status_move TaskStatus.FAILED TaskStatus.CORRECTED.

Definition status_rank (st : TaskStatus.t) : nat :=
  match st with
  | TaskStatus.PENDING => 0
  | TaskStatus.RUNNING => 1
  | TaskStatus.COMPLETED => 2
  | TaskStatus.FAILED => 2
  | TaskStatus.CORRECTED => 3
  end.

Definition statuses (s : WorkflowResult.t) : list TaskStatus.t :=
  map Task.status (WorkflowResult.tasks s).

(** One step of a task between two states of a run: no change, or a move
    of the machine, that out of FAILED in stage CORRECTING only. *)
Definition task_step (stage : WorkflowStage.t) (a b : TaskStatus.t) : Prop :=
  a = b
  \/ (status_move a b /\ (a = TaskStatus.FAILED -> stage = WorkflowStage.CORRECTING)).

(** One step of the tasks of a run: the plan is installed, every task
    PENDING, or every task makes a step. *)
Definition tasks_step (stage : WorkflowStage.t) (older newer : list TaskStatus.t)
  : Prop :=
  (older = [] /\ Forall (eq TaskStatus.PENDING) newer)
  \/ Forall2 (task_step stage) older newer.

Definition status_moveb (a b : TaskStatus.t) : bool :=
  match a, b with
  | TaskStatus.PENDING, TaskStatus.RUNNING
  | TaskStatus.RUNNING, TaskStatus.COMPLETED
  | TaskStatus.RUNNING, TaskStatus.FAILED
  | TaskStatus.FAILED, TaskStatus.CORRECTED => true
  | _, _ => false
  end.

Definition task_stepb (stage : WorkflowStage.t) (a b : TaskStatus.t) : bool :=
  TaskStatus.eqb a b
  || (status_moveb a b
      && (negb (TaskStatus.eqb a TaskStatus.FAILED)
          || WorkflowStage.eqb stage WorkflowStage.CORRECTING)).

Fixpoint forall2b {A B} (r : A -> B -> bool) (l1 : list A) (l2 : list B) : bool :=
  match l1, l2 with
  | [], [] => true
  | a :: l1, b :: l2 => r a b && forall2b r l1 l2
  | _, _ => false
  end.

Definition tasks_stepb (stage : WorkflowStage.t) (older newer : list TaskStatus.t)
  : bool :=
  match older with
  | [] => forallb (TaskStatus.eqb TaskStatus.PENDING) newer
  | _ => forall2b (task_stepb stage) older newer
  end.

Lemma forall2b_sound {A B} (R : A -> B -> Prop) (r : A -> B -> bool) l1 l2 :
  (forall a b, r a b = true -> R a b) -> forall2b r l1 l2 = true -> Forall2 R l1 l2.
Proof.
  intros Hr. revert l2. induction l1 as [|a l1 IH]; intros [|b l2] H;
    try discriminate; constructor.
  - apply Hr. cbn in H. now apply andb_true_iff in H.
  - apply IH. cbn in H. now apply andb_true_iff in H.
Qed.

Lemma status_eqb_eq (a b : TaskStatus.t) : TaskStatus.eqb a b = true -> a = b.
Proof. destruct a, b; cbn; congruence. Qed.

Lemma task_stepb_sound stage a b : task_stepb stage a b = true -> task_step stage a b.
Proof.
  unfold task_stepb, task_step. intros H.
  apply orb_true_iff in H. destruct H as [H | H]; [left; now apply status_eqb_eq|].
  right. apply andb_true_iff in H. destruct H as [Hm Hc]. split.
  - destruct a, b; try discriminate; constructor.
  - intros ->. cbn in Hc. now apply stage_eqb_eq.
Qed.

Lemma tasks_stepb_sound stage older newer :
  tasks_stepb stage older newer = true -> tasks_step stage older newer.
Proof.
  unfold tasks_stepb, tasks_step. destruct older as [|a older]; intros H.
  - left. split; [reflexivity|]. rewrite forallb_forall in H.
    apply Forall_forall. intros x Hx. apply status_eqb_eq. auto.
  - right. apply forall2b_sound with (r := task_stepb stage); [|exact H].
    apply task_stepb_sound.
Qed.

(** C6: along every run of [execute_workflow], from one state of the run
    to the next either the plan is installed with every task PENDING or
    every task keeps its status or makes one move of the machine
    PENDING -> RUNNING -> COMPLETED | FAILED, FAILED -> CORRECTED, the last
    one only while the stage is CORRECTING; every move goes up in the order
    PENDING < RUNNING < COMPLETED, FAILED < CORRECTED, so no status comes
    back, FAILED -> RUNNING never happens, COMPLETED and CORRECTED are never
    left; a run that returns leaves every task COMPLETED, FAILED or
    CORRECTED, the task that failed being CORRECTED by the fallback
    correction and FAILED for good with the [Corrector] bound. *)
Theorem task_status_only_moves_forward (b : bool) (cfg : PyDict) (w : World) :
  let rw := execute_workflow (init b) cfg w in
  chain (fun older newer =>
           tasks_step (WorkflowResult.stage newer) (statuses older) (statuses newer))
        (trace (snd rw))
  /\ (forall stage x y,
         task_step stage x y ->
         status_rank x <= status_rank y
         /\ (x = y \/ status_rank x < status_rank y)
         /\ ~ (x = TaskStatus.FAILED /\ y = TaskStatus.RUNNING)
         /\ (x = TaskStatus.COMPLETED \/ x = TaskStatus.CORRECTED -> y = x)
         /\ (x = TaskStatus.FAILED -> y = TaskStatus.FAILED \/ y = TaskStatus.CORRECTED))
  /\ (forall s, fst rw = Ok s ->
        statuses s
        = [ TaskStatus.COMPLETED; TaskStatus.COMPLETED;
            (if b then TaskStatus.FAILED else TaskStatus.CORRECTED);
            TaskStatus.COMPLETED; TaskStatus.COMPLETED ]).
Proof.
  intros rw. subst rw. split; [|split].
  - apply (@run_chain
             (fun o o' => tasks_step (fst (fst o')) (snd o) (snd o'))
             (fun o o' => tasks_stepb (fst (fst o')) (snd o) (snd o'))).
    + intros o o'. apply tasks_stepb_sound.
    + reflexivity.
    + reflexivity.
    + vm_compute. reflexivity.
  - intros stage x y H.
    assert (Hxy : x = y \/ status_move x y) by (destruct H as [? | [? _]]; auto).
    clear H. destruct Hxy as [-> | Hm]; [|destruct Hm];
      (split; [cbn; lia|]);
      (split; [first [left; reflexivity | right; cbn; lia]|]);
      (split; [intros [? ?]; congruence|]);
      (split; [intros [? | ?]; congruence|]);
      intros ?; first [discriminate | now left | now right].
  - intros s Hs.
    destruct (run_final b cfg w) as (s' & Hcur & [[[e He] _] | [Hr Ho]]).
    { rewrite Hs in He. discriminate. }
    rewrite Hs in Hr. injection Hr as <-.
    exact (f_equal (fun o : Obs => snd o) Ho).
Qed.

(* ================================================================== *)
(** * What a run returns *)
(* ================================================================== *)

Definition terminal (st : TaskStatus.t) : Prop :=
  st = TaskStatus.COMPLETED \/ st = TaskStatus.FAILED \/ st = TaskStatus.CORRECTED.





Definition obs_stage (o : Obs) : WorkflowStage.t := fst (fst o).






Definition demo_config : PyDict :=
  [ ("name", VStr "demo");
    ("inputs", VList [ VDict [ ("type", VStr "pdf"); ("name", VStr "a.pdf") ] ]) ].

Lemma demo_config_inputs_ok : inputs_ok demo_config.
Proof.
  split; [exists 1; reflexivity|].
  repeat constructor. eexists. reflexivity.
Defined.



(* ================================================================== *)
(** * Validation failures and corrections in a run *)
(* ================================================================== *)

(** The number of entries of a log with the given level and message. *)
Definition count_log (level message : string) (view : list (string * string))
  : nat :=
  List.length
    (filter (fun v => String.eqb (fst v) level && String.eqb (snd v) message) view).

Lemma count_log_app level message (v1 v2 : list (string * string)) :
  count_log level message (v1 ++ v2)%list
  = count_log level message v1 + count_log level message v2.
Proof. unfold count_log. now rewrite filter_app, length_app. Qed.

Lemma count_log_ingest level message (es : list LogEntry.t) :
  Forall ingest_entry es -> String.eqb "success" level = false ->
  count_log level message (map entry_view es) = 0.
Proof.
  intros Hes Hl. induction Hes as [|e es [He _] _ IH]; [reflexivity|].
  unfold count_log in *. cbn [map filter]. unfold entry_view at 1. cbn [fst snd].
  rewrite He, Hl. exact IH.
Qed.

(** A run on a well-typed config returns the current workflow, observed as
    [final_obs], with the log [run_view]. *)
Lemma run_returns (b : bool) (cfg : PyDict) (w : World) :
  config_ok cfg ->
  let rw := execute_workflow (init b) cfg w in
  exists s name es,
    fst rw = Ok s
    /\ current_workflow (snd rw) = Some s
    /\ obs s = final_obs b
    /\ dict_get cfg "name" = Some (VStr name)
    /\ Forall ingest_entry es
    /\ map entry_view (WorkflowResult.logs s) = run_view b name es.
Proof.
  intros Hcfg rw. subst rw.
  destruct (run_spec b cfg w)
    as [(e & m & w1 & _ & _ & _ & Hbad & _)
       |(s & name & es & Hr & Hcur & Hname & _ & Hes & _ & _ & Hview & _)].
  { contradiction. }
  exists s, name, es. split; [exact Hr|]. split; [exact Hcur|].
  split; [|split; [exact Hname|split; [exact Hes|]]].
  - destruct (run_final b cfg w) as (s' & Hcur' & [[[e He] _] | [_ Ho]]).
    { rewrite Hr in He. discriminate. }
    rewrite Hcur in Hcur'. now injection Hcur' as <-.
  - rewrite <- Hview. unfold cur_view, current_workflow in *.
    destruct (trace (snd (execute_workflow (init b) cfg w))) as [|s0 tr];
      [discriminate|].
    now injection Hcur as ->.
Qed.

(** The log of a returning run in three parts: the two entries that open
    it, one entry for each input, and the entries of stages 2 to 6. *)
Definition run_head (name : string) (n : nat) : list (string * string) :=
  [ ("info", "Starting workflow: " ++ name);
    ("info", "Ingesting " ++ PyStr.of_nat n ++ " input sources...") ].

Definition run_tail (b : bool) (plan_steps : list string) : list (string * string) :=
  ("info", "Gemini 3 analyzing task requirements...")
    :: ("success", "Generated 5-step workflow plan")
    :: executed_view b plan_steps.

Lemma run_view_parts (b : bool) (name : string) (es : list LogEntry.t) :
  run_view b name es
  = (run_head name (List.length es)
       ++ map entry_view es ++ run_tail b (plan_steps_for (PyStr.lower name)))%list.
Proof. reflexivity. Qed.

(** An entry that is neither one of the two that open the log nor the
    entry of an input is counted in the last part. *)
Lemma count_log_run_view (b : bool) (name : string) (es : list LogEntry.t)
    (level message : string) :
  Forall ingest_entry es ->
  count_log level message (map entry_view es) = 0 ->
  String.eqb "info" level = false
  \/ (exists c m, message = String c m /\ Ascii.eqb "S" c = false
                  /\ Ascii.eqb "I" c = false) ->
  count_log level message (run_view b name es)
  = count_log level message (run_tail b (plan_steps_for (PyStr.lower name))).
Proof.
  intros Hes Hl Hm.
  rewrite run_view_parts, !count_log_app, Hl.
  assert (H0 : count_log level message (run_head name (List.length es)) = 0).
  { unfold count_log, run_head. cbn [filter fst snd].
    destruct Hm as [Hi | (c & m & -> & HS & HI)].
    - rewrite Hi. reflexivity.
    - cbn [append String.eqb]. rewrite HS, HI.
      rewrite !andb_false_r. reflexivity. }
  rewrite H0. reflexivity.
Qed.

Lemma count_log_corrected (es : list LogEntry.t) :
  Forall ingest_entry es ->
  count_log "success" "Validation PASSED after correction" (map entry_view es) = 0.
Proof.
  intros Hes. induction Hes as [|e es [He [x Hx]] _ IH]; [reflexivity|].
  unfold count_log in *. cbn [map filter].
  change (entry_view e) with (LogEntry.level e, LogEntry.message e).
  cbn [fst snd]. rewrite He, Hx. exact IH.
Qed.

Lemma config_ok_of (cfg : PyDict) (name : string) :
  dict_get cfg "name" = Some (VStr name) -> inputs_ok cfg -> config_ok cfg.
Proof. intros Hn Hi. split; [now exists name | exact Hi]. Qed.

(** A run that returns has never been in stage FAILED. *)
Lemma returning_run_never_failed (b : bool) (cfg : PyDict) (w : World)
    (r : WorkflowResult.t) :
  fst (execute_workflow (init b) cfg w) = Ok r ->
  Forall (fun x => WorkflowResult.stage x <> WorkflowStage.FAILED)
         (trace (snd (execute_workflow (init b) cfg w))).
Proof.
  intros Hr.
  destruct (run_shapes b cfg w) as (steps & k & Hobs & [[_ [e He]] | [-> _]]).
  { rewrite Hr in He. discriminate. }
  apply (proj1 (Forall_map obs (fun o => obs_stage o <> WorkflowStage.FAILED) _)).
  unfold obs_trace in Hobs. rewrite Hobs.
  apply Forall_run_shape; [discriminate | discriminate |].
  assert (Hall : forallb (fun o => negb (WorkflowStage.eqb (obs_stage o)
                                                           WorkflowStage.FAILED))
                         (success_steps b) = true)
    by (destruct b; vm_compute; reflexivity).
  rewrite forallb_forall in Hall. apply Forall_forall. intros o Hin Heq.
  specialize (Hall o Hin). rewrite Heq in Hall. discriminate.
Qed.

(** C1 (amended): on a config whose name is a string and whose inputs are a
    sized collection of mappings, a run validates each of the five tasks
    exactly once (a correction is never followed by another validation),
    applies one correction for every validation that failed (all five with
    the [Validator] and [Corrector] bound, task 3 alone without them), and
    returns with stage COMPLETED without ever entering FAILED; the task
    that failed is left FAILED with the [Corrector] bound and CORRECTED by
    the fallback correction, and no task is left RUNNING. *)
Theorem one_correction_per_failed_validation (b : bool) (cfg : PyDict) (w : World) :
  config_ok cfg ->
  let rw := execute_workflow (init b) cfg w in
  exists s,
    fst rw = Ok s
    /\ (forall k, 1 <= k <= 5 ->
        count_log "info" ("Validating step " ++ PyStr.of_nat k ++ " output...")
                  (map entry_view (WorkflowResult.logs s)) = 1)
    /\ count_log "warning" "Initiating autonomous self-correction..."
                 (map entry_view (WorkflowResult.logs s))
       = (if b then 5 else 1)
    /\ count_log "success" "Validation PASSED after correction"
                 (map entry_view (WorkflowResult.logs s))
       = (if b then 0 else 1)
    /\ WorkflowResult.stage s = WorkflowStage.COMPLETED
    /\ Forall (fun x => WorkflowResult.stage x <> WorkflowStage.FAILED)
              (trace (snd rw))
    /\ statuses s
       = [ TaskStatus.COMPLETED; TaskStatus.COMPLETED;
           (if b then TaskStatus.FAILED else TaskStatus.CORRECTED);
           TaskStatus.COMPLETED; TaskStatus.COMPLETED ]
    /\ Forall (fun t => Task.status t <> TaskStatus.RUNNING) (WorkflowResult.tasks s).
Proof.
  intros Hcfg rw. subst rw.
  destruct (run_returns b w Hcfg)
    as (s & name & es & Hr & Hcur & Ho & Hname & Hes & Hview).
  exists s. split; [exact Hr|].
  assert (Hst : statuses s = snd (final_obs b))
    by exact (f_equal (fun o : Obs => snd o) Ho).
  rewrite Hview.
  split; [|split; [|split; [|split; [|split; [|split]]]]].
  - intros k Hk.
    assert (Hk' : k = 1 \/ k = 2 \/ k = 3 \/ k = 4 \/ k = 5) by lia.
    rewrite (@count_log_run_view b name es _ _ Hes).
    + destruct (plan_steps_five (PyStr.lower name)) as (d1 & d2 & d3 & d4 & d5 & ->).
      destruct Hk' as [-> | [-> | [-> | [-> | ->]]]]; destruct b; reflexivity.
    + now apply count_log_ingest.
    + right. destruct Hk' as [-> | [-> | [-> | [-> | ->]]]];
        do 2 eexists; (split; [reflexivity|]); split; reflexivity.
  - rewrite (@count_log_run_view b name es _ _ Hes).
    + destruct (plan_steps_five (PyStr.lower name)) as (d1 & d2 & d3 & d4 & d5 & ->).
      destruct b; reflexivity.
    + now apply count_log_ingest.
    + left. reflexivity.
  - rewrite (@count_log_run_view b name es _ _ Hes).
    + destruct (plan_steps_five (PyStr.lower name)) as (d1 & d2 & d3 & d4 & d5 & ->).
      destruct b; reflexivity.
    + now apply count_log_corrected.
    + right. do 2 eexists. split; [reflexivity|]. split; reflexivity.
  - exact (f_equal obs_stage Ho).
  - exact (returning_run_never_failed _ _ _ Hr).
  - exact Hst.
  - apply (proj1 (Forall_map Task.status (fun st => st <> TaskStatus.RUNNING) _)).
    change (Forall (fun st => st <> TaskStatus.RUNNING) (statuses s)). rewrite Hst.
    destruct b; cbn; repeat (apply Forall_cons || apply Forall_nil); discriminate.
Qed.

Lemma demo_config_ok : config_ok demo_config.
Proof. exact (@config_ok_of demo_config "demo" eq_refl demo_config_inputs_ok). Defined.

Lemma one_correction_per_failed_validation_witness :
  exists s,
    fst (execute_workflow (init false) demo_config fresh_world) = Ok s
    /\ count_log "info" "Validating step 3 output..."
                 (map entry_view (WorkflowResult.logs s)) = 1
    /\ count_log "warning" "Initiating autonomous self-correction..."
                 (map entry_view (WorkflowResult.logs s)) = 1
    /\ WorkflowResult.stage s = WorkflowStage.COMPLETED.
Proof.
  destruct (@one_correction_per_failed_validation false demo_config fresh_world
              demo_config_ok)
    as (s & Hr & Hv & Hc & _ & Hs & _).
  exists s. split; [exact Hr|]. split; [|split; [exact Hc | exact Hs]].
  apply (Hv 3). lia.
Defined.

(** With the [Validator] and the [Corrector] bound, task 3 of the demo run
    fails a validation that no output passes, is corrected once, is never
    validated again and is left FAILED, and the run ends COMPLETED: no
    bounded loop of attempts, no re-validation, no FAILED run. *)
Lemma correction_loop_counterexample :
  let rw := execute_workflow (init true) demo_config fresh_world in
  exists s t,
    fst rw = Ok s
    /\ nth_error (WorkflowResult.tasks s) 2 = Some t
    /\ Task.step_number t = 3%Z
    /\ (forall output,
          exists r, Validator.validate Validator.init t output = Ok r
                    /\ ValidationResult.passed r = false)
    /\ count_log "info" "Validating step 3 output..."
                 (map entry_view (WorkflowResult.logs s)) = 1
    /\ Task.status t = TaskStatus.FAILED
    /\ WorkflowResult.stage s = WorkflowStage.COMPLETED
    /\ Forall (fun x => WorkflowResult.stage x <> WorkflowStage.FAILED)
              (trace (snd rw)).
Proof.
  intros rw. subst rw.
  destruct (fst (execute_workflow (init true) demo_config fresh_world))
    as [s | e] eqn:Hr.
  - assert (Hs := Hr). vm_compute in Hs. injection Hs as Hs.
    exists s. rewrite <- Hs. eexists. split; [reflexivity|].
    split; [reflexivity|]. split; [reflexivity|]. split.
    { intros output. eexists. split; reflexivity. }
    split; [reflexivity|]. split; [reflexivity|]. split; [reflexivity|].
    exact (returning_run_never_failed _ _ _ Hr).
  - vm_compute in Hr. discriminate.
Qed.

(* ================================================================== *)
(** * Exceptions of a run *)
(* ================================================================== *)

Definition untyped_name_config : PyDict := [ ("name", VNone) ].

Lemma ingest_fault_class (cfg : PyDict) (e : PyExc) :
  ingest_fault cfg e \/ (exists nm, e = AttributeError nm "lower") ->
  In (exc_class e) ["KeyError"; "TypeError"; "AttributeError"].
Proof.
  intros [[-> | [-> | [v ->]]] | [nm ->]]; cbn; auto.
Qed.

(** C5 (amended): an exception raised inside a run is logged at error
    level as the last entry of the log, leaves the stage FAILED, and is
    raised again to the caller as it is: the exception [execute_workflow]
    raises is the very one its [try] block raised, a KeyError, TypeError or
    AttributeError, with no WorkflowExecutionError around it.  On a config
    whose name is a string and whose inputs are a sized collection of
    mappings nothing is raised: the failed validations are corrected, the
    run returns COMPLETED, and the log holds the entry of each correction. *)
Theorem exception_is_reraised_unchanged (b : bool) (cfg : PyDict) (w : World) :
  let rw := execute_workflow (init b) cfg w in
  (forall e, fst rw = Raise e ->
     (exists w1, workflow_body (init b) cfg (created cfg w) = (Raise e, w1))
     /\ In (exc_class e) ["KeyError"; "TypeError"; "AttributeError"]
     /\ exc_class e <> "WorkflowExecutionError"
     /\ exists s lv,
          current_workflow (snd rw) = Some s
          /\ WorkflowResult.stage s = WorkflowStage.FAILED
          /\ map entry_view (WorkflowResult.logs s)
             = (lv ++ [("error", ("Workflow failed: " ++ exc_str e)%string)])%list)
  /\ (config_ok cfg ->
      exists s,
        fst rw = Ok s
        /\ WorkflowResult.stage s = WorkflowStage.COMPLETED
        /\ 1 <= count_log "warning" "Initiating autonomous self-correction..."
                          (map entry_view (WorkflowResult.logs s))
        /\ nth_error (statuses s) 2
           = Some (if b then TaskStatus.FAILED else TaskStatus.CORRECTED)).
Proof.
  intros rw. subst rw. split.
  - intros e He.
    destruct (run_spec b cfg w)
      as [(e' & m & w1 & Hr & Hbody & Hfault & _ & Hobs & lv & Hview)
         |(s & name & es & Hr & _)].
    2: { rewrite He in Hr. discriminate. }
    rewrite He in Hr. injection Hr as <-.
    assert (Hclass := ingest_fault_class Hfault).
    split; [now exists w1|]. split; [exact Hclass|]. split.
    { intros Heq. rewrite Heq in Hclass. cbn in Hclass.
      destruct Hclass as [H | [H | [H | []]]]; discriminate. }
    destruct (run_final b cfg w) as (s & Hcur & [[_ Ho] | [Hr' _]]).
    2: { rewrite He in Hr'. discriminate. }
    exists s, lv. split; [exact Hcur|]. split.
    + destruct Ho as [Ho | Ho]; exact (f_equal obs_stage Ho).
    + rewrite <- Hview. unfold cur_view, current_workflow in *.
      destruct (trace (snd (execute_workflow (init b) cfg w))) as [|s0 tr];
        [discriminate|].
      now injection Hcur as ->.
  - intros Hcfg.
    destruct (run_returns b w Hcfg)
      as (s & name & es & Hr & Hcur & Ho & Hname & Hes & Hview).
    exists s. split; [exact Hr|]. split; [exact (f_equal obs_stage Ho)|]. split.
    + rewrite Hview, (@count_log_run_view b name es _ _ Hes).
      * destruct (plan_steps_five (PyStr.lower name)) as (d1 & d2 & d3 & d4 & d5 & ->).
        destruct b; cbn; lia.
      * now apply count_log_ingest.
      * left. reflexivity.
    + assert (Hst : statuses s = snd (final_obs b))
        by exact (f_equal (fun o : Obs => snd o) Ho).
      rewrite Hst. reflexivity.
Qed.

(** A name that is no string makes the planner raise; the caller gets the
    planner's AttributeError itself, not a WorkflowExecutionError. *)
Lemma reraise_counterexample :
  let rw := execute_workflow (init true) untyped_name_config fresh_world in
  fst rw = Raise (AttributeError VNone "lower")
  /\ (forall w, fst (generate_plan untyped_name_config w)
                = Raise (AttributeError VNone "lower"))
  /\ exc_class (AttributeError VNone "lower") = "AttributeError"
  /\ exc_class (AttributeError VNone "lower") <> "WorkflowExecutionError"
  /\ exc_str (AttributeError VNone "lower")
     = "'NoneType' object has no attribute 'lower'".
Proof.
  cbv zeta. split; [vm_compute; reflexivity|]. split.
  { intros [[|s tr] n]; reflexivity. }
  split; [reflexivity|]. split; [discriminate | reflexivity].
Qed.

(* ================================================================== *)
(** * The properties of a run on the demo configs *)
(* ================================================================== *)

Lemma progress_of_run_witness :
  exists s,
    In s (trace (snd (execute_workflow (init false) demo_config fresh_world)))
    /\ WorkflowResult.stage s = WorkflowStage.EXECUTING
    /\ tasks_finished s = 3
    /\ WorkflowResult.progress s = 0.6599999999999999%float.
Proof.
  destruct (run_returns false fresh_world demo_config_ok)
    as (r & _ & _ & Hr & _ & Ho & _).
  assert (Htotal : total_tasks r = 5) by (rewrite total_tasks_obs, Ho; reflexivity).
  destruct (progress_of_run false demo_config fresh_world) as (_ & _ & _ & _ & Hk).
  destruct (Hk r Hr) as [Hk' _].
  destruct (Hk' 3) as (s & Hin & Hstage & _ & Hfin & Hp & _).
  - rewrite Htotal. lia.
  - exists s. rewrite Htotal in Hp.
    split; [exact Hin|]. split; [exact Hstage|]. split; [exact Hfin|].
    rewrite Hp. vm_compute. reflexivity.
Defined.

(** On the demo config the run of the engine with its collaborators passes
    through a state whose stage is COMPLETED while its progress is 0.9:
    between the assignment of the stage and the last assignment of the
    progress, progress 1.0 does not hold although the stage is COMPLETED. *)
Lemma progress_completed_counterexample :
  exists s,
    In s (trace (snd (execute_workflow (init true) demo_config fresh_world)))
    /\ WorkflowResult.stage s = WorkflowStage.COMPLETED
    /\ WorkflowResult.progress s = 0.9%float
    /\ PrimFloat.eqb (WorkflowResult.progress s) 1 = false.
Proof.
  destruct (run_returns true fresh_world demo_config_ok)
    as (r & _ & _ & Hr & _ & Ho & _).
  assert (Hin : In (WorkflowStage.COMPLETED, 0.9%float, snd (final_obs true))
                   (success_steps true)).
  { vm_compute. repeat (first [left; reflexivity | right]). }
  destruct (run_ok_snapshot true demo_config fresh_world _ Hr Hin)
    as (s & Hs & Hobs).
  exists s. split; [exact Hs|].
  split; [exact (f_equal (fun x : Obs => fst (fst x)) Hobs)|].
  assert (Hprog : WorkflowResult.progress s = 0.9%float)
    by exact (f_equal (fun x : Obs => snd (fst x)) Hobs).
  split; [exact Hprog|]. rewrite Hprog. reflexivity.
Qed.

Lemma task_status_only_moves_forward_witness :
  exists s,
    fst (execute_workflow (init false) demo_config fresh_world) = Ok s
    /\ nth_error (statuses s) 2 = Some TaskStatus.CORRECTED.
Proof.
  destruct (run_returns false fresh_world demo_config_ok)
    as (s & _ & _ & Hr & _).
  destruct (task_status_only_moves_forward false demo_config fresh_world)
    as (_ & _ & Hfinal).
  exists s. split; [exact Hr|]. rewrite (Hfinal s Hr). reflexivity.
Defined.

Lemma exception_is_reraised_unchanged_witness :
  exists s lv,
    current_workflow
      (snd (execute_workflow (init true) untyped_name_config fresh_world)) = Some s
    /\ WorkflowResult.stage s = WorkflowStage.FAILED
    /\ map entry_view (WorkflowResult.logs s)
       = (lv ++ [("error",
                  "Workflow failed: 'NoneType' object has no attribute 'lower'")])%list.
Proof.
  destruct (exception_is_reraised_unchanged true untyped_name_config fresh_world)
    as [Hraise _].
  destruct (Hraise (AttributeError VNone "lower")) as (_ & _ & _ & s & lv & H).
  - vm_compute. reflexivity.
  - exists s, lv. exact H.
Defined.

(* ================================================================== *)
(** * The validator with its default rules *)
(* ================================================================== *)

(** What the four default rules report on a dict with [n] citations that
    holds, or not, the fields [result] and [data]. *)
Definition default_issues (n : nat) (has_result has_data : bool) : list string :=
  ((if n =? 0 then ["Missing citations"] else [])
     ++ (if has_result then [] else ["Missing required field: result"])
     ++ (if has_data then [] else ["Missing required field: data"]))%list.

Definition default_severity (n : nat) (has_result has_data : bool) : string :=
  if has_result && has_data then (if n =? 0 then "medium" else "none")
  else "high".

(** With the default rules, a task that is not step 3 and a dict whose
    citations have a length: the result fails exactly for missing citations
    and missing fields, severity high for a missing field and medium for
    missing citations alone; the format and quality rules never fail. *)
Theorem validate_default_rules (task : Task.t) (d : PyDict) (n : nat) :
  Task.step_number task <> 3%Z ->
  py_len (dict_get_default d "citations" (VList [])) = Ok n ->
  Validator.validate Validator.init task (VDict d)
  = Ok (ValidationResult.mk
          (negb (n =? 0) && dict_has d "result" && dict_has d "data")
          (default_issues n (dict_has d "result") (dict_has d "data"))
          (default_severity n (dict_has d "result") (dict_has d "data"))
          (Task.id task)).
Proof.
  intros Hstep Hn. apply Z.eqb_neq in Hstep.
  unfold Validator.validate. rewrite Hstep.
  cbn [Validator.rules Validator.init Validator._load_default_rules
       Validator.validate_loop].
  unfold Validator.validate_step.
  cbn [ValidationRule.check_function ValidationRule.severity].
  unfold Validator._check_citations, Validator._check_completeness,
    Validator.py_not_in, Validator._check_format,
    Validator._calculate_quality_score.
  cbn [py_get rbind]. rewrite Hn. cbn [rbind].
  unfold default_issues, default_severity.
  destruct (n =? 0), (dict_has d "result"), (dict_has d "data"); reflexivity.
Qed.

Lemma validate_default_rules_witness :
  Validator.validate Validator.init (new_task 4 "Create output artifacts")
    (VDict [ ("citations", VList []); ("result", VStr "draft") ])
  = Ok (ValidationResult.mk false
          ["Missing citations"; "Missing required field: data"] "high" "task_4").
Proof.
  apply (@validate_default_rules (new_task 4 "Create output artifacts")
           [ ("citations", VList []); ("result", VStr "draft") ] 0).
  - discriminate.
  - reflexivity.
Defined.

(** For a task whose step number is not 3, [validate] with the default
    rules never reports that the output must be a dictionary: on an output
    that is no dict the citation rule, which runs first, raises
    AttributeError, and on a dict whose citations have no length it raises
    TypeError; so whenever it returns, the output was a dict. *)
Theorem validate_default_rules_raise (task : Task.t) (output : PyVal) :
  Task.step_number task <> 3%Z ->
  ((forall d, output <> VDict d) ->
   Validator.validate Validator.init task output
   = Raise (AttributeError output "get"))
  /\ (forall d e,
        output = VDict d ->
        py_len (dict_get_default d "citations" (VList [])) = Raise e ->
        Validator.validate Validator.init task output
        = Raise (TypeError_no_len (dict_get_default d "citations" (VList []))))
  /\ (forall r,
        Validator.validate Validator.init task output = Ok r ->
        (exists d, output = VDict d)
        /\ ~ In "Output must be a dictionary" (ValidationResult.issues r)).
Proof.
  intros Hstep. assert (Hs := Hstep). apply Z.eqb_neq in Hs.
  split; [|split].
  - intros Hnd. unfold Validator.validate. rewrite Hs.
    destruct output; try reflexivity. now contradiction (Hnd d).
  - intros d e -> He. unfold Validator.validate. rewrite Hs.
    cbn [Validator.rules Validator.init Validator._load_default_rules
         Validator.validate_loop].
    unfold Validator.validate_step at 1.
    cbn [ValidationRule.check_function].
    unfold Validator._check_citations. cbn [py_get rbind].
    rewrite He. cbn [rbind]. now rewrite (py_len_raise _ He).
  - intros r Hr.
    destruct output as [| | | | |d];
      try (unfold Validator.validate in Hr; rewrite Hs in Hr; discriminate).
    split; [now exists d|].
    destruct (py_len (dict_get_default d "citations" (VList []))) as [n|e] eqn:Hn.
    + rewrite (@validate_default_rules task d n Hstep Hn) in Hr. injection Hr as <-.
      cbn [ValidationResult.issues]. unfold default_issues.
      destruct (n =? 0), (dict_has d "result"), (dict_has d "data"); cbn;
        intros H; repeat (destruct H as [H | H]; [discriminate|]); exact H.
    + unfold Validator.validate in Hr. rewrite Hs in Hr.
      cbn [Validator.rules Validator.init Validator._load_default_rules
           Validator.validate_loop] in Hr.
      unfold Validator.validate_step at 1 in Hr.
      cbn [ValidationRule.check_function] in Hr.
      unfold Validator._check_citations in Hr. cbn [py_get rbind] in Hr.
      rewrite Hn in Hr. discriminate.
Qed.

Lemma validate_default_rules_raise_witness :
  Validator.validate Validator.init (new_task 1 "Process and normalize input data")
                     (VList [VStr "a result"])
  = Raise (AttributeError (VList [VStr "a result"]) "get").
Proof.
  destruct (@validate_default_rules_raise
              (new_task 1 "Process and normalize input data")
              (VList [VStr "a result"])) as [H _].
  - discriminate.
  - apply H. discriminate.
Defined.

(* ================================================================== *)
(** * Severity and custom rules *)
(* ================================================================== *)

(** The severities the loop of [validate] has a branch for. *)
Definition countedb (s : string) : bool :=
  String.eqb s "medium" || String.eqb s "high" || String.eqb s "critical".

Definition loop_severity (s : string) : Prop :=
  s = "none" \/ s = "medium" \/ s = "high" \/ s = "critical".

(** The severity one turn of the loop leaves, for a failing rule of
    severity [s]. *)
Lemma validate_step_severity (output : PyVal) (rule : ValidationRule.t)
    (acc : list string) (sev : string) (issues : list string) :
  ValidationRule.check_function rule output = Ok (false, issues) ->
  loop_severity sev ->
  exists sev',
    Validator.validate_step output (acc, sev) rule = Ok ((acc ++ issues)%list, sev')
    /\ loop_severity sev'
    /\ sev' = (if countedb (ValidationRule.severity rule)
               then severity_max sev (ValidationRule.severity rule) else sev).
Proof.
  intros Hc Hsev. unfold Validator.validate_step. rewrite Hc. cbn [rbind negb].
  unfold countedb.
  destruct (String.eqb (ValidationRule.severity rule) "critical") eqn:Ec.
  { apply String.eqb_eq in Ec. rewrite Ec. eexists. split; [reflexivity|].
    split; [unfold loop_severity; auto|].
    destruct Hsev as [-> | [-> | [-> | ->]]]; reflexivity. }
  destruct (String.eqb (ValidationRule.severity rule) "high") eqn:Eh.
  { apply String.eqb_eq in Eh. rewrite Eh.
    destruct Hsev as [-> | [-> | [-> | ->]]]; cbn; eexists;
      (split; [reflexivity|]); (split; [unfold loop_severity; auto | reflexivity]). }
  destruct (String.eqb (ValidationRule.severity rule) "medium") eqn:Em.
  { apply String.eqb_eq in Em. rewrite Em.
    destruct Hsev as [-> | [-> | [-> | ->]]]; cbn; eexists;
      (split; [reflexivity|]); (split; [unfold loop_severity; auto | reflexivity]). }
  cbn. exists sev. auto.
Qed.

Lemma validate_loop_severity (output : PyVal)
    (rules : list (string * ValidationRule.t)) :
  forall results acc sev,
    check_all rules output = Ok results ->
    loop_severity sev ->
    exists sev',
      Validator.validate_loop output rules (acc, sev)
      = Ok ((acc ++ concat (map rule_issues (failing results)))%list, sev')
      /\ loop_severity sev'
      /\ sev' = fold_left severity_max
                  (filter countedb (map rule_severity (failing results))) sev.
Proof.
  induction rules as [|[name rule] rules IH]; intros results acc sev Hall Hsev.
  - injection Hall as <-. exists sev. cbn. rewrite app_nil_r. auto.
  - cbn in Hall. cbn [Validator.validate_loop].
    destruct (ValidationRule.check_function rule output) as [[passed issues]|e] eqn:Hc;
      [|discriminate].
    cbn in Hall.
    destruct (check_all rules output) as [others|e] eqn:Hothers; [|discriminate].
    injection Hall as <-.
    destruct passed.
    + unfold Validator.validate_step at 1. rewrite Hc. cbn [rbind negb].
      destruct (IH others acc sev eq_refl Hsev) as (sev' & Hrun & Hok & Hfold).
      exists sev'. auto.
    + destruct (@validate_step_severity output rule acc sev issues Hc Hsev) as (sev1 & Hstep & Hok1 & Hsev1).
      rewrite Hstep. cbn [rbind].
      destruct (IH others (acc ++ issues)%list sev1 eq_refl Hok1)
        as (sev' & Hrun & Hok & Hfold).
      assert (Hfail : failing ((rule, (false, issues)) :: others)
                      = (rule, (false, issues)) :: failing others) by reflexivity.
      rewrite Hfail. cbn [map concat filter].
      change (rule_issues (rule, (false, issues))) with issues.
      change (rule_severity (rule, (false, issues)))
        with (ValidationRule.severity rule).
      exists sev'. split; [|split; [exact Hok|]].
      * rewrite Hrun. now rewrite app_assoc.
      * rewrite Hfold, Hsev1.
        destruct (countedb (ValidationRule.severity rule)); reflexivity.
Qed.

(** The loop returns only when every check returned. *)
Lemma validate_loop_returns (output : PyVal)
    (rules : list (string * ValidationRule.t)) :
  forall acc x,
    Validator.validate_loop output rules acc = Ok x ->
    exists results, check_all rules output = Ok results.
Proof.
  induction rules as [|[name rule] rules IH]; intros [issues sev] x Hx.
  - now exists [].
  - cbn [Validator.validate_loop] in Hx. cbn [check_all].
    destruct (Validator.validate_step output (issues, sev) rule) as [acc1|e] eqn:Hstep;
      [|discriminate].
    cbn [rbind] in Hx. destruct (IH acc1 x Hx) as [others Hothers].
    unfold Validator.validate_step in Hstep.
    destruct (ValidationRule.check_function rule output) as [res|e]; [|discriminate].
    cbn [rbind]. rewrite Hothers. cbn [rbind]. now eexists.
Qed.

(** Whatever the rules, custom ones included: the severity of a result is
    none, medium, high or critical, never low; for a task whose step number
    is not 3 it is the greatest severity among the failing rules whose
    severity is medium, high or critical, and a failing rule of any other
    severity leaves it as it is. *)
Theorem validate_severity (self : Validator.t) (task : Task.t) (output : PyVal)
    (r : ValidationResult.t) :
  Validator.validate self task output = Ok r ->
  In (ValidationResult.severity r) ["none"; "medium"; "high"; "critical"]
  /\ ValidationResult.severity r <> "low"
  /\ (Task.step_number task <> 3%Z ->
      exists results,
        check_all (Validator.rules self) output = Ok results
        /\ ValidationResult.severity r
           = max_severity (filter countedb (map rule_severity (failing results)))).
Proof.
  intros Hr. unfold Validator.validate in Hr.
  destruct (Task.step_number task =? 3)%Z eqn:Hs.
  - injection Hr as <-. cbn. split; [auto|]. split; [discriminate|].
    intros Hne. apply Z.eqb_eq in Hs. contradiction.
  - destruct (check_all (Validator.rules self) output) as [results|e] eqn:Hall.
    + destruct (@validate_loop_severity output (Validator.rules self) results [] "none"
                  Hall) as (sev & Hrun & Hok & Hfold); [left; reflexivity|].
      rewrite Hrun in Hr. cbn in Hr. injection Hr as <-.
      cbn [ValidationResult.severity].
      split; [|split].
      * destruct Hok as [-> | [-> | [-> | ->]]]; cbn; auto.
      * destruct Hok as [-> | [-> | [-> | ->]]]; discriminate.
      * intros _. exists results. split; [reflexivity | exact Hfold].
    + destruct (Validator.validate_loop output (Validator.rules self) ([], "none"))
        as [acc|e'] eqn:Hloop; [|discriminate].
      destruct (@validate_loop_returns output (Validator.rules self) _ _ Hloop)
        as [results Hres].
      rewrite Hres in Hall. discriminate.
Qed.

Lemma validate_severity_witness :
  exists r,
    Validator.validate (Validator.add_custom_rule Validator.init low_rule)
                       (new_task 2 "Apply analysis algorithms") cited_output = Ok r
    /\ ValidationResult.passed r = false
    /\ ValidationResult.severity r <> "low".
Proof.
  eexists. split; [reflexivity|]. split; [reflexivity|].
  apply (@validate_severity (Validator.add_custom_rule Validator.init low_rule)
           (new_task 2 "Apply analysis algorithms") cited_output).
  reflexivity.
Defined.

(** [self.rules.get(name)] *)
Fixpoint rules_get (rules : list (string * ValidationRule.t)) (name : string)
  : option ValidationRule.t :=
  match rules with
  | [] => None
  | (k, rule) :: rest => if String.eqb name k then Some rule else rules_get rest name
  end.

Definition rule_names (self : Validator.t) : list string :=
  map fst (Validator.rules self).

Lemma dict_set_get (rules : list (string * ValidationRule.t)) (k : string)
    (rule : ValidationRule.t) :
  rules_get (Validator.dict_set rules k rule) k = Some rule.
Proof.
  induction rules as [|[k' r'] rules IH]; cbn.
  - now rewrite String.eqb_refl.
  - destruct (String.eqb k k') eqn:E; cbn.
    + now rewrite String.eqb_refl.
    + now rewrite E.
Qed.

Lemma dict_set_get_other (rules : list (string * ValidationRule.t)) (k n : string)
    (rule : ValidationRule.t) :
  n <> k -> rules_get (Validator.dict_set rules k rule) n = rules_get rules n.
Proof.
  intros Hn. apply String.eqb_neq in Hn.
  induction rules as [|[k' r'] rules IH]; cbn.
  - now rewrite Hn.
  - destruct (String.eqb k k') eqn:E; cbn.
    + apply String.eqb_eq in E. subst k'. now rewrite Hn.
    + now rewrite IH.
Qed.

Lemma dict_set_names (rules : list (string * ValidationRule.t)) (k : string)
    (rule : ValidationRule.t) :
  map fst (Validator.dict_set rules k rule)
  = if existsb (String.eqb k) (map fst rules) then map fst rules
    else (map fst rules ++ [k])%list.
Proof.
  induction rules as [|[k' r'] rules IH]; cbn; [reflexivity|].
  destruct (String.eqb k k') eqn:E; cbn.
  - apply String.eqb_eq in E. now subst.
  - rewrite IH. now destruct (existsb (String.eqb k) (map fst rules)).
Qed.

Lemma dict_set_twice (rules : list (string * ValidationRule.t)) (k : string)
    (r1 r2 : ValidationRule.t) :
  Validator.dict_set (Validator.dict_set rules k r1) k r2
  = Validator.dict_set rules k r2.
Proof.
  induction rules as [|[k' r'] rules IH]; cbn.
  - now rewrite String.eqb_refl.
  - destruct (String.eqb k k') eqn:E; cbn.
    + now rewrite String.eqb_refl.
    + now rewrite E, IH.
Qed.

(** [add_custom_rule] is an assignment to the dict of rules: the rule is
    then found under its name, the other names keep their rules, a name
    already registered keeps its place in the order of the rules and a new
    name comes last, and registering a second rule under the same name
    leaves the second only. *)
Theorem add_custom_rule_lookup (self : Validator.t) (rule : ValidationRule.t) :
  let self' := Validator.add_custom_rule self rule in
  rules_get (Validator.rules self') (ValidationRule.name rule) = Some rule
  /\ (forall n, n <> ValidationRule.name rule ->
        rules_get (Validator.rules self') n = rules_get (Validator.rules self) n)
  /\ rule_names self'
     = (if existsb (String.eqb (ValidationRule.name rule)) (rule_names self)
        then rule_names self
        else (rule_names self ++ [ValidationRule.name rule])%list)
  /\ (forall rule2,
        ValidationRule.name rule2 = ValidationRule.name rule ->
        Validator.add_custom_rule self' rule2 = Validator.add_custom_rule self rule2).
Proof.
  intros self'. subst self'. unfold Validator.add_custom_rule, rule_names.
  cbn [Validator.rules].
  split; [apply dict_set_get|]. split; [intros n Hn; now apply dict_set_get_other|].
  split; [apply dict_set_names|].
  intros rule2 ->. now rewrite dict_set_twice.
Qed.

(** A rule registered under a new name is checked after all the others. *)
Lemma validate_loop_new_rule (output : PyVal) (rules : list (string * ValidationRule.t))
    (rule : ValidationRule.t) :
  ~ In (ValidationRule.name rule) (map fst rules) ->
  forall acc,
    Validator.validate_loop output
      (Validator.dict_set rules (ValidationRule.name rule) rule) acc
    = rbind (Validator.validate_loop output rules acc)
            (fun acc' => Validator.validate_step output acc' rule).
Proof.
  induction rules as [|[k r] rules IH]; intros Hnew acc.
  - cbn. now destruct (Validator.validate_step output acc rule).
  - cbn [Validator.dict_set].
    destruct (String.eqb (ValidationRule.name rule) k) eqn:E.
    + apply String.eqb_eq in E. exfalso. apply Hnew. left. now symmetry.
    + cbn [Validator.validate_loop].
      destruct (Validator.validate_step output acc r) as [acc1|e]; [|reflexivity].
      cbn [rbind]. apply IH. intros Hin. apply Hnew. now right.
Qed.

(** A custom rule under a new name, run on a task that is not step 3: when
    [validate] raised without it, it raises the same and the new rule is
    not checked; otherwise the new rule is checked last: its exception is
    raised, its success changes nothing (the issues it returns are dropped),
    and its failure puts its issues after all the others, makes the result
    fail when there is an issue, and raises the severity as the loop does. *)
Theorem add_custom_rule_runs_last (self : Validator.t) (rule : ValidationRule.t)
    (task : Task.t) (output : PyVal) :
  ~ In (ValidationRule.name rule) (rule_names self) ->
  Task.step_number task <> 3%Z ->
  let self' := Validator.add_custom_rule self rule in
  (forall e, Validator.validate self task output = Raise e ->
             Validator.validate self' task output = Raise e)
  /\ (forall res e,
        Validator.validate self task output = Ok res ->
        ValidationRule.check_function rule output = Raise e ->
        Validator.validate self' task output = Raise e)
  /\ (forall res issues,
        Validator.validate self task output = Ok res ->
        ValidationRule.check_function rule output = Ok (true, issues) ->
        Validator.validate self' task output = Ok res)
  /\ (forall res issues,
        Validator.validate self task output = Ok res ->
        ValidationRule.check_function rule output = Ok (false, issues) ->
        Validator.validate self' task output
        = Ok (ValidationResult.mk
                (List.length (ValidationResult.issues res ++ issues) =? 0)
                (ValidationResult.issues res ++ issues)%list
                (if countedb (ValidationRule.severity rule)
                 then severity_max (ValidationResult.severity res)
                                   (ValidationRule.severity rule)
                 else ValidationResult.severity res)
                (Task.id task))).
Proof.
  intros Hnew Hstep self'. subst self'. apply Z.eqb_neq in Hstep.
  unfold Validator.validate, Validator.add_custom_rule. rewrite Hstep.
  cbn [Validator.rules]. rewrite (@validate_loop_new_rule output (Validator.rules self) rule Hnew).
  destruct (Validator.validate_loop output (Validator.rules self) ([], "none"))
    as [[all_issues sev]|e0] eqn:Hloop; cbn [rbind].
  - destruct (@validate_loop_returns output (Validator.rules self) _ _ Hloop)
      as [results Hres].
    destruct (@validate_loop_severity output (Validator.rules self) results [] "none"
                Hres) as (sev' & Hrun & Hok & _); [left; reflexivity|].
    rewrite Hrun in Hloop. injection Hloop as <- <-.
    split; [discriminate|]. split; [|split].
    + intros res e _ He. unfold Validator.validate_step. now rewrite He.
    + intros res issues Hres' Hc. unfold Validator.validate_step. rewrite Hc.
      exact Hres'.
    + intros res issues Hres' Hc. injection Hres' as <-.
      cbn [ValidationResult.issues ValidationResult.severity].
      destruct (@validate_step_severity output rule
                  (concat (map rule_issues (failing results))) sev' issues Hc Hok)
        as (sev1 & Hs & _ & ->).
      cbn [app] in Hs. rewrite Hs. reflexivity.
  - split; [intros e H; exact H|].
    split; [discriminate|]. split; discriminate.
Qed.

(** A rule that fails with severity critical on every output. *)
Definition strict_rule : ValidationRule.t :=
  ValidationRule.mk "length_limit" "Reject every output" "critical"
    (fun _ => Ok (false, ["Output rejected"])).

Lemma add_custom_rule_runs_last_witness :
  Validator.validate (Validator.add_custom_rule Validator.init strict_rule)
                     (new_task 2 "Apply analysis algorithms") incomplete_output
  = Ok (ValidationResult.mk false
          ["Missing citations"; "Missing required field: result"; "Output rejected"]
          "critical" "task_2").
Proof.
  destruct (@add_custom_rule_runs_last Validator.init strict_rule
              (new_task 2 "Apply analysis algorithms") incomplete_output)
    as (_ & _ & _ & Hfail).
  - cbn. intros [H | [H | [H | [H | []]]]]; discriminate.
  - discriminate.
  - exact (Hfail _ ["Output rejected"] eq_refl eq_refl).
Defined.

(* ================================================================== *)
(** * The selector and the corrector (strategies.py, corrector.py) *)
(* ================================================================== *)

Ltac each_char c :=
  destruct c as [[] [] [] [] [] [] [] []]; vm_compute; reflexivity.

Lemma eqb_quote_lower_char (q c : ascii) :
  q = PyStr.squote \/ q = PyStr.dquote ->
  Ascii.eqb q (PyStr.lower_char c) = Ascii.eqb q c.
Proof. intros [-> | ->]; each_char c. Qed.

Lemma has_char_lower (q : ascii) (s : string) :
  q = PyStr.squote \/ q = PyStr.dquote ->
  PyStr.has_char q (PyStr.lower s) = PyStr.has_char q s.
Proof.
  intros Hq. induction s as [|c s IH]; cbn; [reflexivity|].
  now rewrite IH, eqb_quote_lower_char.
Qed.

Lemma repr_quote_lower (s : string) :
  PyStr.repr_quote (PyStr.lower s) = PyStr.repr_quote s.
Proof.
  unfold PyStr.repr_quote.
  rewrite !has_char_lower by (auto). reflexivity.
Qed.

Lemma lower_escape_char (q c : ascii) :
  q = PyStr.squote \/ q = PyStr.dquote ->
  PyStr.lower (PyStr.escape_char q (PyStr.lower_char c))
  = PyStr.lower (PyStr.escape_char q c).
Proof. intros [-> | ->]; each_char c. Qed.

Lemma lower_escape (q : ascii) (s : string) :
  q = PyStr.squote \/ q = PyStr.dquote ->
  PyStr.lower (PyStr.escape q (PyStr.lower s)) = PyStr.lower (PyStr.escape q s).
Proof.
  intros Hq. induction s as [|c s IH]; cbn; [reflexivity|].
  now rewrite !lower_append, IH, lower_escape_char.
Qed.

(** In lower case, [repr] of a string and of its lower case are the same. *)
Lemma lower_repr_lower (s : string) :
  PyStr.lower (PyStr.repr (PyStr.lower s)) = PyStr.lower (PyStr.repr s).
Proof.
  unfold PyStr.repr. rewrite repr_quote_lower.
  cbn [PyStr.lower]. rewrite !lower_append.
  now rewrite lower_escape by apply repr_quote_cases.
Qed.

Lemma lower_join (sep : string) (l : list string) :
  PyStr.lower (PyStr.join sep l) = PyStr.join (PyStr.lower sep) (map PyStr.lower l).
Proof.
  induction l as [|x l IH]; [reflexivity|].
  destruct l as [|y l]; [reflexivity|].
  change (PyStr.join sep (x :: y :: l)) with (x ++ sep ++ PyStr.join sep (y :: l)).
  rewrite !lower_append, IH. reflexivity.
Qed.

Lemma issue_text_lower (v1 v2 : ValidationResult.t) :
  map PyStr.lower (ValidationResult.issues v1)
  = map PyStr.lower (ValidationResult.issues v2) ->
  CorrectionStrategies.issue_text v1 = CorrectionStrategies.issue_text v2.
Proof.
  intros H. rewrite !issue_text_render, !lower_join, !map_map.
  assert (Hl : forall l : list string,
             map (fun x => PyStr.lower (PyStr.repr x)) l
             = map (fun x => PyStr.lower (PyStr.repr x)) (map PyStr.lower l)).
  { intros l. rewrite map_map. apply map_ext. intros x.
    now rewrite lower_repr_lower. }
  rewrite (Hl (ValidationResult.issues v1)), (Hl (ValidationResult.issues v2)), H.
  reflexivity.
Qed.

(** The selection reads the issues only, and not their case: two results
    whose issues are the same up to case get the same strategy, whatever
    the tasks and whatever the other fields of the results. *)
Theorem select_strategy_ignores_case (self1 self2 : CorrectionStrategies.t)
    (task1 task2 : Task.t) (v1 v2 : ValidationResult.t) :
  map PyStr.lower (ValidationResult.issues v1)
  = map PyStr.lower (ValidationResult.issues v2) ->
  CorrectionStrategies.select_strategy self1 task1 v1
  = CorrectionStrategies.select_strategy self2 task2 v2.
Proof.
  intros H. unfold CorrectionStrategies.select_strategy.
  now rewrite (issue_text_lower v1 v2 H).
Qed.

Lemma select_strategy_ignores_case_witness :
  CorrectionStrategies.select_strategy CorrectionStrategies.mk
    (new_task 1 "Process and normalize input data")
    (ValidationResult.mk false ["Request TIMEOUT after 30s"] "high" "task_1")
  = CorrectionStrategies.select_strategy CorrectionStrategies.mk
      (new_task 4 "Create output artifacts")
      (ValidationResult.mk true ["request Timeout After 30S"] "none" "task_4").
Proof.
  apply select_strategy_ignores_case. reflexivity.
Defined.

(** [correct] always proposes one of the first three strategies of
    [STRATEGIES], never [decompose_task]; with no issue at all it proposes
    [use_alternative_method]; the action names the strategy, the confidence
    is 0.95 and the correction carries the id of the task. *)
Theorem correct_proposes_known_strategy (self : Corrector.t) (task : Task.t)
    (validation : ValidationResult.t) :
  let c := Corrector.correct self task validation in
  In (CorrectionStrategy.strategy c)
     (firstn 3 (map fst CorrectionStrategies.STRATEGIES))
  /\ CorrectionStrategy.strategy c <> "decompose_task"
  /\ (ValidationResult.issues validation = [] ->
      CorrectionStrategy.strategy c = "use_alternative_method")
  /\ CorrectionStrategy.action c
     = "Apply " ++ CorrectionStrategy.strategy c ++ " to fix validation issues"
  /\ CorrectionStrategy.confidence c = 0.95%float
  /\ CorrectionStrategy.task_id c = Task.id task.
Proof.
  intros c. subst c. unfold Corrector.correct.
  cbn [CorrectionStrategy.strategy CorrectionStrategy.action
       CorrectionStrategy.confidence CorrectionStrategy.task_id].
  split; [|split; [|split; [|split; [reflexivity|split; reflexivity]]]].
  - unfold CorrectionStrategies.select_strategy.
    destruct (PyStr.contains "edge case" _); [cbn; auto|].
    destruct (PyStr.contains "timeout" _); cbn; auto.
  - unfold CorrectionStrategies.select_strategy.
    destruct (PyStr.contains "edge case" _); [discriminate|].
    destruct (PyStr.contains "timeout" _); discriminate.
  - intros Hnil. unfold CorrectionStrategies.select_strategy,
      CorrectionStrategies.issue_text. rewrite Hnil. reflexivity.
Qed.

(* ================================================================== *)
(** * The planner (planner.py) *)
(* ================================================================== *)

Module WorkflowPlanner.

Definition research_steps : list string :=
  [ "Parse and extract content from all input sources";
    "Identify key themes and patterns using NLP analysis";
    "Cross-reference findings across all sources";
    "Generate comprehensive synthesis report with citations";
    "Validate output completeness and citation accuracy" ].

Definition code_steps : list string :=
  [ "Analyze code structure and dependencies";
    "Detect code smells and anti-patterns";
    "Evaluate security vulnerabilities";
    "Generate improvement recommendations";
    "Validate analysis completeness" ].

Definition video_steps : list string :=
  [ "Extract video transcript and metadata";
    "Identify key concepts and topics";
    "Generate timeline of important moments";
    "Create summary and study guide";
    "Validate output quality" ].

Definition default_steps : list string :=
  [ "Process and normalize input data";
    "Apply analysis algorithms";
    "Generate insights and findings";
    "Create output artifacts";
    "Validate results quality" ].

(** [generate_plan(task_type, inputs)] *)
Definition generate_plan (task_type : string) (inputs : list PyVal) : list string :=
  if PyStr.contains "research" (PyStr.lower task_type)
     || PyStr.contains "synthesis" (PyStr.lower task_type) then research_steps
  else if PyStr.contains "code" (PyStr.lower task_type) then code_steps
  else if PyStr.contains "video" (PyStr.lower task_type)
          || PyStr.contains "youtube" (PyStr.lower task_type) then video_steps
  else default_steps.

End WorkflowPlanner.

(** The names on which the two planners agree. *)
Definition planners_agree (lowered_name : string) : bool :=
  PyStr.contains "research" lowered_name
  || PyStr.contains "synthesis" lowered_name
  || PyStr.contains "code" lowered_name
  || negb (PyStr.contains "analysis" lowered_name
           || PyStr.contains "video" lowered_name
           || PyStr.contains "youtube" lowered_name).

(** [WorkflowPlanner.generate_plan] always gives five steps and does not
    read the inputs; it gives the steps the engine plans for the same name
    exactly when the name mentions research, synthesis or code, or none of
    analysis, video and youtube. *)
Theorem planner_and_engine_plans (task_type : string) (inputs : list PyVal) :
  List.length (WorkflowPlanner.generate_plan task_type inputs) = 5
  /\ WorkflowPlanner.generate_plan task_type inputs
     = WorkflowPlanner.generate_plan task_type []
  /\ (WorkflowPlanner.generate_plan task_type inputs
      = plan_steps_for (PyStr.lower task_type)
      <-> planners_agree (PyStr.lower task_type) = true).
Proof.
  unfold WorkflowPlanner.generate_plan, plan_steps_for, planners_agree.
  destruct (PyStr.contains "research" (PyStr.lower task_type)),
    (PyStr.contains "synthesis" (PyStr.lower task_type)),
    (PyStr.contains "code" (PyStr.lower task_type)),
    (PyStr.contains "analysis" (PyStr.lower task_type)),
    (PyStr.contains "video" (PyStr.lower task_type)),
    (PyStr.contains "youtube" (PyStr.lower task_type));
    cbn; (split; [reflexivity|]); (split; [reflexivity|]);
    split; intros H; first [reflexivity | discriminate].
Qed.

(* ================================================================== *)
(** * The stand-alone rules (rules.py) *)
(* ================================================================== *)

(** [bool(v)] *)
Definition py_truthy (v : PyVal) : bool :=
  match v with
  | VNone => false
  | VBool b => b
  | VInt z => negb (z =? 0)%Z
  | VStr s => negb (String.length s =? 0)
  | VList l => negb (List.length l =? 0)
  | VDict d => negb (List.length d =? 0)
  end.

Module Rules.

(** [check_citations(output)] *)
Definition check_citations (output : PyVal) : Result (bool * list string) :=
  rbind (py_get output "citations" (VList [])) (fun citations =>
  if negb (py_truthy citations) then Ok (false, ["No citations found"])
  else Ok (true, [])).

(** [check_completeness(output)] *)
Definition check_completeness (output : PyVal) : Result (bool * list string) :=
  rbind (Validator.py_not_in "result" output) (fun m1 =>
  rbind (Validator.py_not_in "data" output) (fun m2 =>
  let missing := ((if m1 then ["result"] else []) ++ (if m2 then ["data"] else []))%list in
  match missing with
  | [] => Ok (true, [])
  | _ => Ok (false, map (fun f => "Missing: " ++ f) missing)
  end)).

(** [check_format(output)] *)
Definition check_format (output : PyVal) : Result (bool * list string) :=
  match output with
  | VDict _ => Ok (true, [])
  | _ => Ok (false, ["Invalid format"])
  end.

End Rules.

(** Whether a check passed, when it returned. *)
Definition verdict (r : Result (bool * list string)) : Result bool :=
  rbind r (fun x => Ok (fst x)).

(** The stand-alone rules give the verdicts of the validator's own checks:
    the same for completeness and format on every output, and the same for
    citations whenever the validator's check returns; on a dict whose
    citations have no length (None, a number, a boolean) the stand-alone
    rule still returns, by truth value, where the validator's raises. *)
Theorem rules_and_validator_checks (output : PyVal) :
  verdict (Rules.check_completeness output)
  = verdict (Validator._check_completeness output)
  /\ verdict (Rules.check_format output) = verdict (Validator._check_format output)
  /\ (forall passed, verdict (Validator._check_citations output) = Ok passed ->
                     verdict (Rules.check_citations output) = Ok passed)
  /\ (forall d, output = VDict d ->
        verdict (Rules.check_citations output)
        = Ok (py_truthy (dict_get_default d "citations" (VList []))))
  /\ (forall e, Rules.check_citations output = Raise e ->
                Validator._check_citations output = Raise e).
Proof.
  split; [|split; [|split; [|split]]].
  - unfold Rules.check_completeness, Validator._check_completeness.
    destruct (Validator.py_not_in "result" output) as [[]|]; cbn; [| |reflexivity];
      destruct (Validator.py_not_in "data" output) as [[]|]; reflexivity.
  - destruct output; reflexivity.
  - intros passed. unfold Rules.check_citations, Validator._check_citations.
    destruct output as [| | | | |d]; try discriminate. cbn [py_get rbind].
    destruct (dict_get_default d "citations" (VList [])) as [| | |s|l|d'];
      cbn [py_len rbind]; try discriminate; cbn [py_truthy];
      match goal with |- context [?n =? 0] => destruct (n =? 0) end;
      cbn; intros H; exact H.
  - intros d ->. unfold Rules.check_citations. cbn [py_get rbind].
    destruct (py_truthy _); reflexivity.
  - intros e. unfold Rules.check_citations, Validator._check_citations.
    destruct output as [| | | | |d]; cbn [py_get rbind]; try (intros H; exact H).
    destruct (negb (py_truthy _)); discriminate.
Qed.

(* ================================================================== *)
(** * A logic for the engine's computations *)
(* ================================================================== *)

(** [triple P m Q E]: run from a state that satisfies [P], the computation
    [m] either returns a value [a] and leaves a state that satisfy [Q a],
    or raises an exception [e] and leaves a state that satisfy [E e]. *)
Definition triple {A} (P : World -> Prop) (m : M A) (Q : A -> World -> Prop)
    (E : PyExc -> World -> Prop) : Prop :=
  forall w, P w ->
    match m w with
    | (Ok a, w') => Q a w'
    | (Raise e, w') => E e w'
    end.

Lemma triple_ret {A} (P : World -> Prop) (a : A) Q E :
  (forall w, P w -> Q a w) -> triple P (ret a) Q E.
Proof. intros H w Hw. cbn. auto. Qed.

Lemma triple_bind {A B} (P : World -> Prop) (m : M A) (f : A -> M B)
    (Q1 : A -> World -> Prop) (Q : B -> World -> Prop) E :
  triple P m Q1 E -> (forall a, triple (Q1 a) (f a) Q E) ->
  triple P (bind m f) Q E.
Proof.
  intros Hm Hf w Hw. unfold bind. specialize (Hm w Hw).
  destruct (m w) as [[a|e] w']; [exact (Hf a w' Hm) | exact Hm].
Qed.

Lemma triple_conseq {A} (P P' : World -> Prop) (m : M A)
    (Q Q' : A -> World -> Prop) (E E' : PyExc -> World -> Prop) :
  triple P' m Q' E' ->
  (forall w, P w -> P' w) -> (forall a w, Q' a w -> Q a w) ->
  (forall e w, E' e w -> E e w) ->
  triple P m Q E.
Proof.
  intros Hm HP HQ HE w Hw. specialize (Hm w (HP w Hw)).
  destruct (m w) as [[a|e] w']; auto.
Qed.

Lemma triple_lift {A} (P : World -> Prop) (r : Result A) Q E :
  (forall w a, P w -> r = Ok a -> Q a w) ->
  (forall w e, P w -> r = Raise e -> E e w) ->
  triple P (lift r) Q E.
Proof. intros HQ HE w Hw. unfold lift. destruct r; auto. Qed.

Lemma triple_raise {A} (P : World -> Prop) (e : PyExc) (Q : A -> World -> Prop) E :
  (forall w, P w -> E e w) -> triple P (raise e) Q E.
Proof. intros H w Hw. cbn. auto. Qed.

Lemma triple_try_except {A} (P : World -> Prop) (body : M A)
    (handler : PyExc -> M A) Q E E' :
  triple P body Q E' ->
  (forall e, is_Exception e = true -> triple (E' e) (handler e) Q E) ->
  (forall e w, is_Exception e = false -> E' e w -> E e w) ->
  triple P (try_except body handler) Q E.
Proof.
  intros Hb Hh He w Hw. unfold try_except. specialize (Hb w Hw).
  destruct (body w) as [[a|e] w']; [exact Hb|].
  destruct (is_Exception e) eqn:Hexc; [exact (Hh e Hexc w' Hb) | now apply He].
Qed.

Lemma triple_for_each {A} (J : World -> Prop) (l : list A) (body : A -> M unit) E :
  (forall x, In x l -> triple J (body x) (fun _ => J) E) ->
  triple J (for_each l body) (fun _ => J) E.
Proof.
  induction l as [|x l' IH]; intros H.
  - apply triple_ret. auto.
  - cbn [for_each]. eapply triple_bind; [apply H; now left|].
    intros u. apply IH. intros y Hy. apply H. now right.
Qed.

(** The loop over [enumerate k l], with an invariant that counts the turns. *)
Lemma triple_for_each_indexed {A} (J : nat -> World -> Prop) (l : list A) :
  forall (k : nat) (body : nat * A -> M unit) E,
    (forall i x, nth_error l i = Some x ->
       triple (J (k + i)) (body (k + i, x)) (fun _ => J (S (k + i))) E) ->
    triple (J k) (for_each (enumerate k l) body)
           (fun _ => J (k + List.length l)) E.
Proof.
  induction l as [|x l' IH]; intros k body E H.
  - apply triple_ret. intros w Hw. cbn. now rewrite Nat.add_0_r.
  - cbn [enumerate for_each]. eapply triple_bind.
    + specialize (H 0 x eq_refl). rewrite Nat.add_0_r in H. exact H.
    + intros u. cbn [List.length]. rewrite <- Nat.add_succ_comm.
      apply IH. intros i y Hy. specialize (H (S i) y Hy).
      rewrite <- Nat.add_succ_comm in H. exact H.
Qed.

(** ** States of a run *)

(** What identifies a task. *)
Definition ident (t : Task.t) : string * Z * string :=
  (Task.id t, Task.step_number t, Task.description t).

Definition rank_le (a b : TaskStatus.t) : Prop := status_rank a <= status_rank b.

(** The values that the progress of a run takes, in the order in which the
    run assigns them: 0.0 at the creation, 0.2 and 0.3 in stages 1 and 2,
    one value for each of the five tasks, 0.9 and 1.0 in stage 6. *)
Definition progress_values : list float :=
  ([ 0%float; 0.2%float; 0.3%float ]
     ++ map (fun i => task_progress i 5) [0; 1; 2; 3; 4]
     ++ [ 0.9%float; 1%float ])%list.

Definition level (k : nat) : float := nth k progress_values 1%float.

(** One state of a run and the next: the identity of the run stays, the
    log grows at its end, the tasks, once there are some, stay the same
    tasks and none of them goes back in the order of the statuses, the
    artifacts and the completion time are set once, and the progress, one
    of [progress_values], does not decrease. *)
Definition evolves (older newer : WorkflowResult.t) : Prop :=
  WorkflowResult.workflow_id newer = WorkflowResult.workflow_id older
  /\ WorkflowResult.name newer = WorkflowResult.name older
  /\ WorkflowResult.created_at newer = WorkflowResult.created_at older
  /\ (exists ext,
        WorkflowResult.logs newer = (WorkflowResult.logs older ++ ext)%list)
  /\ (WorkflowResult.tasks older = []
      \/ (map ident (WorkflowResult.tasks newer)
          = map ident (WorkflowResult.tasks older)
          /\ Forall2 rank_le (statuses older) (statuses newer)))
  /\ (WorkflowResult.artifacts older = []
      \/ WorkflowResult.artifacts newer = WorkflowResult.artifacts older)
  /\ (WorkflowResult.completed_at older = None
      \/ WorkflowResult.completed_at newer = WorkflowResult.completed_at older)
  /\ In (WorkflowResult.progress older) progress_values
  /\ In (WorkflowResult.progress newer) progress_values
  /\ float_le (WorkflowResult.progress older) (WorkflowResult.progress newer).

(** The states since the run was created evolve one from the other, and
    the current one satisfies [K]. *)
Definition at_state (K : WorkflowResult.t -> Prop) (w : World) : Prop :=
  chain evolves (trace w)
  /\ exists s tr,
       trace w = s :: tr /\ K s /\ In (WorkflowResult.progress s) progress_values.

Lemma at_state_weaken (K K' : WorkflowResult.t -> Prop) (w : World) :
  (forall s, K s -> K' s) -> at_state K w -> at_state K' w.
Proof.
  intros H [Hc (s & tr & Ht & Hs & Hin)]. split; [exact Hc|]. exists s, tr. auto.
Qed.

(** The order of the floats on the values of the progress. *)
Lemma float_le_values_refl (a : float) : In a progress_values -> float_le a a.
Proof.
  assert (H : forallb (fun a => PrimFloat.leb a a) progress_values = true)
    by (vm_compute; reflexivity).
  rewrite forallb_forall in H. exact (H a).
Qed.

Lemma float_le_values_trans (a b c : float) :
  In a progress_values -> In b progress_values -> In c progress_values ->
  float_le a b -> float_le b c -> float_le a c.
Proof.
  assert (H : forallb (fun a => forallb (fun b => forallb (fun c =>
                 implb (PrimFloat.leb a b && PrimFloat.leb b c) (PrimFloat.leb a c))
               progress_values) progress_values) progress_values = true)
    by (vm_compute; reflexivity).
  intros Ha Hb Hc Hab Hbc. unfold float_le in *.
  rewrite forallb_forall in H. specialize (H a Ha).
  rewrite forallb_forall in H. specialize (H b Hb).
  rewrite forallb_forall in H. specialize (H c Hc).
  rewrite Hab, Hbc in H. exact H.
Qed.

Lemma level_In (k : nat) : k < 10 -> In (level k) progress_values.
Proof. intros H. apply nth_In. exact H. Qed.

Lemma level_le (a b : nat) : a <= b -> b < 10 -> float_le (level a) (level b).
Proof.
  assert (H : forallb (fun a => forallb (fun b =>
                 implb (a <=? b) (PrimFloat.leb (level a) (level b)))
               (seq 0 10)) (seq 0 10) = true)
    by (vm_compute; reflexivity).
  intros Hab Hb. unfold float_le.
  assert (Ha : In a (seq 0 10)) by (apply in_seq; lia).
  assert (Hb' : In b (seq 0 10)) by (apply in_seq; lia).
  rewrite forallb_forall in H. specialize (H a Ha).
  rewrite forallb_forall in H. specialize (H b Hb').
  rewrite (proj2 (Nat.leb_le a b) Hab) in H. exact H.
Qed.

Lemma level_lt_1 (k : nat) : k < 9 -> float_lt (level k) 1.
Proof.
  assert (H : forallb (fun a => PrimFloat.ltb (level a) 1) (seq 0 9) = true)
    by (vm_compute; reflexivity).
  intros Hk. rewrite forallb_forall in H. apply H. apply in_seq. lia.
Qed.

(** The value that the loop assigns after task [i] of five. *)
Lemma level_task (i : nat) : i < 5 -> task_progress i 5 = level (3 + i).
Proof. intros H. do 5 (destruct i as [|i]; [reflexivity|]). lia. Qed.

Lemma Forall2_rank_le_refl (l : list TaskStatus.t) : Forall2 rank_le l l.
Proof. induction l; constructor; [unfold rank_le; lia | assumption]. Qed.

(** A state that differs in neither log, tasks, artifacts, completion time
    nor progress. *)
Lemma evolves_fields (s s' : WorkflowResult.t) :
  In (WorkflowResult.progress s) progress_values ->
  WorkflowResult.workflow_id s' = WorkflowResult.workflow_id s ->
  WorkflowResult.name s' = WorkflowResult.name s ->
  WorkflowResult.created_at s' = WorkflowResult.created_at s ->
  WorkflowResult.logs s' = WorkflowResult.logs s ->
  WorkflowResult.tasks s' = WorkflowResult.tasks s ->
  WorkflowResult.artifacts s' = WorkflowResult.artifacts s ->
  WorkflowResult.completed_at s' = WorkflowResult.completed_at s ->
  WorkflowResult.progress s' = WorkflowResult.progress s ->
  evolves s s'.
Proof.
  intros Hin H1 H2 H3 H4 H5 H6 H7 H8. unfold evolves, statuses.
  rewrite H5, H8.
  split; [exact H1|]. split; [exact H2|]. split; [exact H3|].
  split; [exists []; now rewrite app_nil_r|].
  split; [right; split; [reflexivity | apply Forall2_rank_le_refl]|].
  split; [now right|]. split; [now right|].
  split; [exact Hin|]. split; [exact Hin|]. now apply float_le_values_refl.
Qed.

Ltac same_fields :=
  intros; apply evolves_fields; solve [assumption | reflexivity].

Lemma map_ident_update_nth (i : nat) (f : Task.t -> Task.t) (l : list Task.t) :
  (forall t, nth_error l i = Some t -> ident (f t) = ident t) ->
  map ident (update_nth i f l) = map ident l.
Proof.
  revert i. induction l as [|x l IH]; intros [|i] Hf; cbn; try reflexivity.
  - now rewrite (Hf x eq_refl).
  - rewrite IH; [reflexivity|]. intros t Ht. now apply Hf.
Qed.

Lemma rank_le_update_nth (i : nat) (f : Task.t -> Task.t) (l : list Task.t) :
  (forall t, nth_error l i = Some t -> rank_le (Task.status t) (Task.status (f t))) ->
  Forall2 rank_le (map Task.status l) (map Task.status (update_nth i f l)).
Proof.
  revert i. induction l as [|x l IH]; intros [|i] Hf; cbn; constructor.
  - now apply Hf.
  - apply Forall2_rank_le_refl.
  - unfold rank_le. lia.
  - apply IH. intros t Ht. now apply Hf.
Qed.

(** ** The primitives *)

Lemma triple_assign (K K' : WorkflowResult.t -> Prop) (attr : string)
    (f : WorkflowResult.t -> WorkflowResult.t) E :
  (forall s, K s -> In (WorkflowResult.progress s) progress_values ->
     evolves s (f s)) ->
  (forall s, K s -> K' (f s)) ->
  triple (at_state K) (assign attr f) (fun _ => at_state K') E.
Proof.
  intros He Hk w Hw. unfold assign.
  destruct Hw as [Hc (s & tr & Ht & Hs & Hin)]. rewrite Ht.
  assert (Hev : evolves s (f s)) by now apply He.
  split.
  - cbn [trace]. split; [exact Hev | now rewrite <- Ht].
  - exists (f s), (s :: tr). split; [reflexivity|]. split; [now apply Hk|].
    apply Hev.
Qed.

(** An assignment to the task of index [i] that keeps what identifies the
    task and does not take its status back. *)
Lemma triple_assign_task (K K' : WorkflowResult.t -> Prop) (i : nat)
    (f : Task.t -> Task.t) E :
  (forall s t, K s -> nth_error (WorkflowResult.tasks s) i = Some t ->
     ident (f t) = ident t /\ rank_le (Task.status t) (Task.status (f t))) ->
  (forall s, K s ->
     K' (WorkflowResult.set_tasks (update_nth i f (WorkflowResult.tasks s)) s)) ->
  triple (at_state K) (assign_task i f) (fun _ => at_state K') E.
Proof.
  intros Hf Hk w Hw. unfold assign_task.
  destruct Hw as [Hc (s & tr & Ht & Hs & Hin)]. rewrite Ht.
  split.
  - cbn [trace]. split; [|now rewrite <- Ht].
    unfold evolves, statuses. cbn.
    split; [reflexivity|]. split; [reflexivity|]. split; [reflexivity|].
    split; [exists []; now rewrite app_nil_r|].
    split.
    { right. split.
      - apply map_ident_update_nth. intros t Hn. now apply (Hf s t Hs Hn).
      - apply rank_le_update_nth. intros t Hn. now apply (Hf s t Hs Hn). }
    split; [now right|]. split; [now right|].
    split; [exact Hin|]. split; [exact Hin|]. now apply float_le_values_refl.
  - eexists _, (s :: tr). split; [reflexivity|]. split; [now apply Hk | exact Hin].
Qed.

Lemma triple_add_log (K K' : WorkflowResult.t -> Prop) (level message : string)
    (metadata : list (string * Meta)) E :
  (forall s ts, K s ->
     K' (WorkflowResult.append_log (LogEntry.mk ts level message metadata) s)) ->
  triple (at_state K) (add_log level message metadata) (fun _ => at_state K') E.
Proof.
  intros Hk w Hw. unfold add_log.
  destruct Hw as [Hc (s & tr & Ht & Hs & Hin)]. rewrite Ht.
  split.
  - cbn [trace]. split; [|now rewrite <- Ht].
    unfold evolves, statuses. cbn.
    split; [reflexivity|]. split; [reflexivity|]. split; [reflexivity|].
    split; [now eexists|].
    split; [right; split; [reflexivity | apply Forall2_rank_le_refl]|].
    split; [now right|]. split; [now right|].
    split; [exact Hin|]. split; [exact Hin|]. now apply float_le_values_refl.
  - eexists _, (s :: tr). split; [reflexivity|]. split; [now apply Hk | exact Hin].
Qed.

Lemma triple_now (K : WorkflowResult.t -> Prop) E :
  triple (at_state K) now (fun _ => at_state K) E.
Proof. intros w Hw. exact Hw. Qed.

Lemma triple_pure {A} (P : World -> Prop) (fact : Prop) (m : M A) Q E :
  (fact -> triple P m Q E) -> triple (fun w => P w /\ fact) m Q E.
Proof. intros H w [Hw Hf]. now apply H. Qed.

Lemma triple_lift_value {A} (P E' : World -> Prop) (r : Result A) :
  (forall w, P w -> E' w) ->
  triple P (lift r) (fun a w => P w /\ r = Ok a) (fun _ => E').
Proof. intros HE. apply triple_lift; [auto|]. intros w e Hw _. auto. Qed.

(** ** The statuses of the tasks along the loop *)

(** The statuses in turn [i] of the loop over the tasks: the tasks before
    [i] are finished, the task [i], when there is one, satisfies [P], and
    the tasks after it are PENDING. *)
Definition parts (i : nat) (P : TaskStatus.t -> Prop) (sts : list TaskStatus.t)
  : Prop :=
  Forall terminal (firstn i sts)
  /\ (forall st, nth_error sts i = Some st -> P st)
  /\ Forall (eq TaskStatus.PENDING) (skipn (S i) sts).

Lemma map_status_update_nth (i : nat) (f : Task.t -> Task.t)
    (g : TaskStatus.t -> TaskStatus.t) (l : list Task.t) :
  (forall t, Task.status (f t) = g (Task.status t)) ->
  map Task.status (update_nth i f l) = update_nth i g (map Task.status l).
Proof.
  intros H. revert i. induction l as [|x l IH]; intros [|i]; cbn;
    try reflexivity; [now rewrite H | now rewrite IH].
Qed.

Lemma update_nth_same {A} (i : nat) (g : A -> A) (l : list A) :
  (forall x, g x = x) -> update_nth i g l = l.
Proof.
  intros H. revert i. induction l as [|x l IH]; intros [|i]; cbn;
    try reflexivity; [now rewrite H | now rewrite IH].
Qed.

Lemma firstn_update_nth {A} (i : nat) (g : A -> A) (l : list A) :
  firstn i (update_nth i g l) = firstn i l.
Proof.
  revert i. induction l as [|x l IH]; intros [|i]; cbn; try reflexivity.
  now rewrite IH.
Qed.

Lemma skipn_update_nth {A} (i : nat) (g : A -> A) (l : list A) :
  skipn (S i) (update_nth i g l) = skipn (S i) l.
Proof.
  revert i. induction l as [|x l IH]; intros [|i]; try reflexivity.
  cbn [update_nth]. change (skipn (S i) (update_nth i g l) = skipn (S i) l).
  apply IH.
Qed.

Lemma parts_update (i : nat) (P Q : TaskStatus.t -> Prop)
    (g : TaskStatus.t -> TaskStatus.t) (sts : list TaskStatus.t) :
  (forall st, P st -> Q (g st)) ->
  parts i P sts -> parts i Q (update_nth i g sts).
Proof.
  intros H (H1 & H2 & H3). unfold parts.
  rewrite firstn_update_nth, skipn_update_nth, nth_error_update_nth.
  split; [exact H1|]. split; [|exact H3].
  intros st Hst. destruct (nth_error sts i) as [x|]; [|discriminate].
  injection Hst as <-. auto.
Qed.

Lemma parts_nil (i : nat) (P : TaskStatus.t -> Prop) : parts i P [].
Proof.
  unfold parts. rewrite firstn_nil. cbn.
  split; [constructor|]. split; [|constructor].
  intros st H. destruct i; discriminate.
Qed.

Lemma parts_start (sts : list TaskStatus.t) :
  Forall (eq TaskStatus.PENDING) sts -> parts 0 (eq TaskStatus.PENDING) sts.
Proof.
  intros H. unfold parts. cbn. split; [constructor|].
  destruct sts as [|x l]; cbn.
  - split; [discriminate | constructor].
  - inversion H; subst. split; [|assumption].
    intros st Hst. now injection Hst as <-.
Qed.

(** The end of turn [i] is the start of turn [i + 1]. *)
Lemma parts_next (sts : list TaskStatus.t) :
  forall i, parts i terminal sts -> parts (S i) (eq TaskStatus.PENDING) sts.
Proof.
  induction sts as [|x l IH]; intros i H; [apply parts_nil|].
  destruct H as (H1 & H2 & H3). destruct i as [|i].
  - cbn in *. unfold parts. cbn [firstn].
    split; [constructor; [now apply H2 | constructor]|].
    destruct l as [|y l]; cbn.
    + split; [discriminate | constructor].
    + inversion H3; subst. split; [|assumption].
      intros st Hst. now injection Hst as <-.
  - cbn [firstn] in H1. inversion H1 as [|? ? Hx Hl]; subst.
    destruct (IH i) as (I1 & I2 & I3).
    { split; [exact Hl|]. split; [exact H2 | exact H3]. }
    unfold parts. split; [|split].
    + change (firstn (S (S i)) (x :: l)) with (x :: firstn (S i) l).
      now constructor.
    + exact I2.
    + exact I3.
Qed.

(** With every task behind, every task is finished. *)
Lemma parts_end (P : TaskStatus.t -> Prop) (sts : list TaskStatus.t) :
  parts (List.length sts) P sts -> Forall terminal sts.
Proof. intros (H & _). now rewrite firstn_all in H. Qed.

(** At the start of a turn the tasks are cut in two. *)
Lemma parts_cut (sts : list TaskStatus.t) :
  forall i, parts i (eq TaskStatus.PENDING) sts ->
            Forall terminal (firstn i sts)
            /\ Forall (eq TaskStatus.PENDING) (skipn i sts).
Proof.
  induction sts as [|x l IH]; intros i (H1 & H2 & H3).
  - rewrite firstn_nil, skipn_nil. split; constructor.
  - split; [exact H1|]. destruct i as [|i].
    + cbn in *. constructor; [now apply H2 | exact H3].
    + cbn [firstn] in H1. inversion H1; subst.
      apply (IH i). split; [assumption|]. split; [exact H2 | exact H3].
Qed.

Lemma nth_error_statuses (s : WorkflowResult.t) (i : nat) (t : Task.t) :
  nth_error (WorkflowResult.tasks s) i = Some t ->
  nth_error (statuses s) i = Some (Task.status t).
Proof. intros H. unfold statuses. now apply map_nth_error. Qed.

(** ** The functions of the engine that only log *)

(** A property of the current state that no log entry and no change of
    stage, to a stage other than FAILED, can break. *)
Definition quiet (K : WorkflowResult.t -> Prop) : Prop :=
  (forall s e, K s -> K (WorkflowResult.append_log e s))
  /\ (forall s v, v <> WorkflowStage.FAILED -> K s ->
                  K (WorkflowResult.set_stage v s)).

Ltac hstep tac := eapply triple_bind; [tac | intros ?].

Section Quiet.

Variable K : WorkflowResult.t -> Prop.
Hypothesis HK : quiet K.

Lemma triple_log (level message : string) (metadata : list (string * Meta)) E :
  triple (at_state K) (add_log level message metadata) (fun _ => at_state K) E.
Proof. apply triple_add_log. intros s ts Hs. now apply HK. Qed.

Lemma triple_stage (v : WorkflowStage.t) E :
  v <> WorkflowStage.FAILED ->
  triple (at_state K) (assign "stage" (WorkflowResult.set_stage v))
         (fun _ => at_state K) E.
Proof.
  intros Hv. apply triple_assign; [same_fields|].
  intros s Hs. now apply HK.
Qed.

Lemma triple_validate_output (self : WorkflowEngine.t) (task : Task.t)
    (output : PyVal) (K' : WorkflowResult.t -> Prop) :
  (forall s, K s -> K' s) ->
  triple (at_state K) (validate_output self task output)
         (fun _ => at_state K) (fun _ => at_state K').
Proof.
  intros Hweak. unfold validate_output. hstep ltac:(apply triple_log).
  destruct (validator self) as [v|].
  - apply triple_lift; [auto|]. intros w e Hw _.
    now apply at_state_weaken with (K := K).
  - destruct (Task.step_number task =? 3)%Z;
      hstep ltac:(apply triple_log); apply triple_ret; auto.
Qed.

Lemma triple_ingest_input (inp : PyVal) (K' : WorkflowResult.t -> Prop) :
  (forall s, K s -> K' s) ->
  triple (at_state K) (ingest_input inp) (fun _ => at_state K)
         (fun _ => at_state K').
Proof.
  intros Hweak. unfold ingest_input.
  eapply triple_bind.
  { apply triple_lift with (Q := fun _ => at_state K); [auto|].
    intros w e Hw _. now apply at_state_weaken with (K := K). }
  intros input_type. eapply triple_bind.
  { apply triple_lift with (Q := fun _ => at_state K); [auto|].
    intros w e Hw _. now apply at_state_weaken with (K := K). }
  intros input_name. apply triple_log.
Qed.

Lemma triple_generate_plan (config : PyDict) (K' : WorkflowResult.t -> Prop) :
  (forall s, K s -> K' s) ->
  triple (at_state K) (generate_plan config)
         (fun tasks w =>
            at_state K w
            /\ exists name,
                 dict_get_default config "name" (VStr "workflow") = VStr name
                 /\ tasks = planned_tasks (plan_steps_for (PyStr.lower name)))
         (fun _ => at_state K').
Proof.
  intros Hweak. unfold generate_plan. hstep ltac:(apply triple_log).
  eapply triple_bind.
  { apply triple_lift_value with (E' := at_state K').
    intros w Hw. now apply at_state_weaken with (K := K). }
  intros lowered. apply triple_pure. intros Hlow.
  eapply triple_bind.
  { apply triple_lift_value with (E' := at_state K').
    intros w Hw. now apply at_state_weaken with (K := K). }
  intros input_count. apply triple_pure. intros _.
  hstep ltac:(apply triple_log). apply triple_ret. intros w Hw. split; [exact Hw|].
  destruct (dict_get_default config "name" (VStr "workflow")); try discriminate.
  injection Hlow as <-. now eexists.
Qed.

End Quiet.

Lemma triple_generate_artifacts (K : WorkflowResult.t -> Prop) E :
  (forall s e, K s -> K (WorkflowResult.append_log e s)) ->
  triple (at_state K) generate_artifacts
         (fun artifacts w => at_state K w /\ artifacts = the_artifacts) E.
Proof.
  intros HK. unfold generate_artifacts.
  eapply triple_bind; [apply triple_add_log; intros s ts Hs; now apply HK|].
  intros u0. eapply triple_bind.
  - apply triple_for_each. intros x _.
    apply triple_add_log. intros s ts Hs. now apply HK.
  - intros u. apply triple_ret. auto.
Qed.

(** ** The states of a run *)

(** The run goes on: it has the name [nm] and the tasks identified by
    [ids], with statuses of the shape [shape], its progress is the value
    of index [k] of [progress_values], below 1.0, and nothing of the end of
    the run is there yet; outside a correction ([vf_clear]) no validation
    failure is pending. *)
Definition state_core (nm : PyVal) (ids : list (string * Z * string)) (k : nat)
    (vf_clear : bool) (shape : list TaskStatus.t -> Prop)
    (s : WorkflowResult.t) : Prop :=
  WorkflowResult.name s = nm
  /\ map ident (WorkflowResult.tasks s) = ids
  /\ WorkflowResult.artifacts s = []
  /\ WorkflowResult.completed_at s = None
  /\ WorkflowResult.progress s = level k
  /\ k < 9
  /\ shape (statuses s)
  /\ (vf_clear = true -> WorkflowResult.validation_failure s = None).

(** The same inside the [try] block, where the stage is never FAILED. *)
Definition state_of (nm : PyVal) (ids : list (string * Z * string)) (k : nat)
    (vf_clear : bool) (shape : list TaskStatus.t -> Prop)
    (s : WorkflowResult.t) : Prop :=
  state_core nm ids k vf_clear shape s
  /\ WorkflowResult.stage s <> WorkflowStage.FAILED.

(** The run was interrupted by an exception: between two turns of the loop
    over the tasks, or before the loop. *)
Definition interrupted (nm : PyVal) (s : WorkflowResult.t) : Prop :=
  exists ids k i, state_core nm ids k true (parts i (eq TaskStatus.PENDING)) s.

(** The state in which an exception leaves the [try] block. *)
Definition stopped (nm : PyVal) (s : WorkflowResult.t) : Prop :=
  interrupted nm s /\ WorkflowResult.stage s <> WorkflowStage.FAILED.

(** The run is over and failed with [e]. *)
Definition failed_with (nm : PyVal) (e : PyExc) (s : WorkflowResult.t) : Prop :=
  interrupted nm s
  /\ WorkflowResult.stage s = WorkflowStage.FAILED
  /\ exists entries ts,
       WorkflowResult.logs s
       = (entries
            ++ [LogEntry.mk ts "error" ("Workflow failed: " ++ exc_str e) []])%list.

(** The run is over and returned. *)
Definition completed (nm : PyVal) (ids : list (string * Z * string))
    (s : WorkflowResult.t) : Prop :=
  WorkflowResult.name s = nm
  /\ map ident (WorkflowResult.tasks s) = ids
  /\ Forall terminal (statuses s)
  /\ WorkflowResult.validation_failure s = None
  /\ WorkflowResult.artifacts s = the_artifacts
  /\ (exists t, WorkflowResult.completed_at s = Some t)
  /\ WorkflowResult.progress s = 1%float
  /\ WorkflowResult.stage s = WorkflowStage.COMPLETED
  /\ exists entries ts,
       WorkflowResult.logs s
       = (entries
            ++ [LogEntry.mk ts "success" "Workflow completed successfully"
                  [ ("total_tasks", MetaInt (List.length ids));
                    ("artifacts", MetaInt 3) ]])%list.

Lemma quiet_state_of nm ids k c shape : quiet (state_of nm ids k c shape).
Proof.
  split.
  - intros s e H. exact H.
  - intros s v Hv [H _]. split; [exact H | exact Hv].
Qed.

(** What the assignments of the engine keep of [state_of]. *)
Lemma state_of_tasks nm ids k c (shape shape' : list TaskStatus.t -> Prop)
    (s : WorkflowResult.t) (tasks' : list Task.t) :
  state_of nm ids k c shape s ->
  map ident tasks' = ids -> shape' (map Task.status tasks') ->
  state_of nm ids k c shape' (WorkflowResult.set_tasks tasks' s).
Proof.
  intros [(H1 & H2 & H3 & H4 & H5 & H6 & H7 & H8) Hst] Hids Hshape.
  unfold state_of, state_core, statuses. cbn. auto 10.
Qed.

Lemma state_of_validation_failure nm ids k c c' shape (s : WorkflowResult.t)
    (v : option ValidationResult.t) :
  state_of nm ids k c shape s -> (c' = true -> v = None) ->
  state_of nm ids k c' shape (WorkflowResult.set_validation_failure v s).
Proof.
  intros [(H1 & H2 & H3 & H4 & H5 & H6 & H7 & H8) Hst] Hv.
  unfold state_of, state_core, statuses in *. cbn. auto 10.
Qed.

Lemma state_of_correction nm ids k c shape (s : WorkflowResult.t)
    (v : option CorrectionStrategy.t) :
  state_of nm ids k c shape s ->
  state_of nm ids k c shape (WorkflowResult.set_correction v s).
Proof. intros H. exact H. Qed.

Lemma state_of_progress nm ids k k' c (shape shape' : list TaskStatus.t -> Prop)
    (s : WorkflowResult.t) :
  state_of nm ids k c shape s -> k' < 9 ->
  (shape (statuses s) -> shape' (statuses s)) ->
  state_of nm ids k' c shape'
           (WorkflowResult.set_progress (level k') s).
Proof.
  intros [(H1 & H2 & H3 & H4 & H5 & H6 & H7 & H8) Hst] Hk Hshape.
  unfold state_of, state_core, statuses in *. cbn. auto 10.
Qed.

Lemma evolves_progress (s : WorkflowResult.t) (k k' : nat) :
  WorkflowResult.progress s = level k -> k <= k' -> k' < 10 ->
  evolves s (WorkflowResult.set_progress (level k') s).
Proof.
  intros Hp Hk Hk'. unfold evolves, statuses. cbn. rewrite Hp.
  split; [reflexivity|]. split; [reflexivity|]. split; [reflexivity|].
  split; [exists []; now rewrite app_nil_r|].
  split; [right; split; [reflexivity | apply Forall2_rank_le_refl]|].
  split; [now right|]. split; [now right|].
  split; [apply level_In; lia|]. split; [now apply level_In | now apply level_le].
Qed.

(** ** The functions of the engine that change a task *)

Section Turn.

Variables (nm : PyVal) (ids : list (string * Z * string)) (k : nat) (c : bool)
          (i : nat).

(** An assignment to a field of task [i] other than its status. *)
Lemma triple_task_keep (P : TaskStatus.t -> Prop) (f : Task.t -> Task.t) E :
  (forall t, ident (f t) = ident t /\ Task.status (f t) = Task.status t) ->
  triple (at_state (state_of nm ids k c (parts i P))) (assign_task i f)
         (fun _ => at_state (state_of nm ids k c (parts i P))) E.
Proof.
  intros Hf. apply triple_assign_task.
  - intros s t _ _. destruct (Hf t) as [H1 H2]. split; [exact H1|].
    unfold rank_le. rewrite H2. lia.
  - intros s Hs. apply state_of_tasks with (shape := parts i P); [exact Hs| |].
    + rewrite map_ident_update_nth; [apply Hs | intros t _; apply Hf].
    + rewrite (@map_status_update_nth i f (fun st => st));
        [|intros t; apply Hf].
      rewrite update_nth_same; [apply Hs | reflexivity].
Qed.

(** [task.status = v], where the status of task [i] was one of [P]. *)
Lemma triple_task_status (P P' : TaskStatus.t -> Prop) (v : TaskStatus.t) E :
  (forall st, P st -> rank_le st v) -> P' v ->
  triple (at_state (state_of nm ids k c (parts i P)))
         (assign_task i (Task.set_status v))
         (fun _ => at_state (state_of nm ids k c (parts i P'))) E.
Proof.
  intros Hr Hv. apply triple_assign_task.
  - intros s t Hs Ht. split; [reflexivity|]. cbn. apply Hr.
    destruct Hs as [(_ & _ & _ & _ & _ & _ & (_ & Hp & _) & _) _].
    apply Hp. now apply nth_error_statuses.
  - intros s Hs. apply state_of_tasks with (shape := parts i P); [exact Hs| |].
    + rewrite map_ident_update_nth; [apply Hs | reflexivity].
    + rewrite (@map_status_update_nth i (Task.set_status v) (fun _ => v));
        [|reflexivity].
      apply parts_update with (P := P); [intros st _; exact Hv | apply Hs].
Qed.

(** [execute_task] takes task [i] from PENDING to a final status. *)
Lemma triple_execute_task (task : Task.t) (inputs : PyVal) E :
  triple (at_state (state_of nm ids k c (parts i (eq TaskStatus.PENDING))))
         (execute_task i task inputs)
         (fun _ => at_state (state_of nm ids k c (parts i terminal))) E.
Proof.
  unfold execute_task.
  hstep ltac:(apply triple_task_status with (P' := eq TaskStatus.RUNNING);
              [intros st <-; unfold rank_le; cbn; lia | reflexivity]).
  hstep ltac:(apply triple_now).
  hstep ltac:(apply triple_task_keep; intros t; split; reflexivity).
  hstep ltac:(apply triple_log; apply quiet_state_of).
  destruct (Task.step_number task =? 3)%Z.
  - hstep ltac:(apply triple_task_status with (P' := terminal);
                [intros st <-; unfold rank_le; cbn; lia
                | right; left; reflexivity]).
    hstep ltac:(apply triple_task_keep; intros t; split; reflexivity).
    apply triple_ret. auto.
  - hstep ltac:(apply triple_task_status with (P' := terminal);
                [intros st <-; unfold rank_le; cbn; lia
                | left; reflexivity]).
    hstep ltac:(apply triple_now).
    hstep ltac:(apply triple_task_keep; intros t; split; reflexivity).
    apply triple_ret. auto.
Qed.

(** [apply_correction] leaves task [i] in a final status. *)
Lemma triple_apply_correction (self : WorkflowEngine.t) (task : Task.t)
    (validation : ValidationResult.t) E :
  triple (at_state (state_of nm ids k c (parts i terminal)))
         (apply_correction self i task validation)
         (fun _ => at_state (state_of nm ids k c (parts i terminal))) E.
Proof.
  unfold apply_correction.
  hstep ltac:(apply triple_log; apply quiet_state_of).
  destruct (corrector self) as [co|].
  - apply triple_ret. auto.
  - hstep ltac:(apply triple_log; apply quiet_state_of).
    hstep ltac:(apply triple_log; apply quiet_state_of).
    hstep ltac:(apply triple_task_status with (P' := terminal);
                [intros st [-> | [-> | ->]]; unfold rank_le; cbn; lia
                | right; right; reflexivity]).
    hstep ltac:(apply triple_task_keep; intros t; split; reflexivity).
    hstep ltac:(apply triple_now).
    hstep ltac:(apply triple_task_keep; intros t; split; reflexivity).
    hstep ltac:(apply triple_log; apply quiet_state_of).
    apply triple_ret. auto.
Qed.

End Turn.

(** ** The loop over the tasks and the stages *)

Lemma state_of_stopped nm ids k i s :
  state_of nm ids k true (parts i (eq TaskStatus.PENDING)) s -> stopped nm s.
Proof. intros [H Hst]. split; [now exists ids, k, i | exact Hst]. Qed.

Lemma state_of_terminal_stopped nm ids k i s :
  state_of nm ids k true (parts i terminal) s -> stopped nm s.
Proof.
  intros [(H1 & H2 & H3 & H4 & H5 & H6 & H7 & H8) Hst].
  split; [|exact Hst]. exists ids, k, (S i). unfold state_core.
  repeat (split; [assumption|]). split; [now apply parts_next | exact H8].
Qed.

Ltac stage_step :=
  hstep ltac:(apply triple_stage; [apply quiet_state_of | discriminate]).

(** One turn of the loop over the five tasks of a plan. *)
Lemma triple_run_task (self : WorkflowEngine.t) (inputs : PyVal) (i : nat)
    (task : Task.t) nm ids :
  i < 5 ->
  triple (at_state (state_of nm ids (2 + i) true
                      (parts i (eq TaskStatus.PENDING))))
         (run_task self inputs 5 (i, task))
         (fun _ => at_state (state_of nm ids (3 + i) true
                               (parts (S i) (eq TaskStatus.PENDING))))
         (fun _ => at_state (stopped nm)).
Proof.
  intros Hi. unfold run_task.
  hstep ltac:(apply triple_execute_task).
  stage_step.
  eapply triple_bind.
  { apply triple_validate_output with (K' := stopped nm);
      [apply quiet_state_of | apply state_of_terminal_stopped]. }
  intros validation.
  eapply triple_bind
    with (Q1 := fun _ => at_state (state_of nm ids (2 + i) true
                                     (parts i terminal))).
  { destruct (negb (ValidationResult.passed validation)).
    - stage_step.
      eapply triple_bind.
      { apply triple_assign
          with (K' := state_of nm ids (2 + i) false (parts i terminal));
          [same_fields|].
        intros s Hs. apply state_of_validation_failure with (c := true);
          [exact Hs | discriminate]. }
      intros u1.
      hstep ltac:(apply triple_apply_correction).
      eapply triple_bind.
      { apply triple_assign
          with (K' := state_of nm ids (2 + i) false (parts i terminal));
          [same_fields|].
        intros s Hs. now apply state_of_correction. }
      intros u2.
      apply triple_assign; [same_fields|].
      intros s Hs. apply state_of_validation_failure with (c := false);
        [exact Hs | reflexivity].
    - apply triple_ret. auto. }
  intros u.
  stage_step.
  rewrite (level_task Hi).
  apply triple_assign.
  - intros s Hs _. apply evolves_progress with (k := 2 + i); [apply Hs | lia | lia].
  - intros s Hs. apply state_of_progress with (k := 2 + i) (shape := parts i terminal);
      [exact Hs | lia | apply parts_next].
Qed.

Lemma triple_stage_ingest (config : PyDict) nm :
  triple (at_state (state_of nm [] 0 true (parts 0 (eq TaskStatus.PENDING))))
         (stage_ingest config)
         (fun _ w =>
            at_state (state_of nm [] 1 true (parts 0 (eq TaskStatus.PENDING))) w
            /\ exists v, dict_get config "name" = Some v)
         (fun _ => at_state (stopped nm)).
Proof.
  unfold stage_ingest.
  set (K := state_of nm [] 0 true (parts 0 (eq TaskStatus.PENDING))).
  stage_step.
  eapply triple_bind.
  { apply triple_lift_value with (E' := at_state (stopped nm)).
    intros w Hw. apply at_state_weaken with (K := K); [|exact Hw].
    apply state_of_stopped. }
  intros name. apply triple_pure. intros Hname.
  assert (Hget : exists v, dict_get config "name" = Some v).
  { unfold config_name in Hname. destruct (dict_get config "name"); [|discriminate].
    now eexists. }
  hstep ltac:(apply triple_log; apply quiet_state_of).
  eapply triple_bind.
  { apply triple_lift with (Q := fun _ => at_state K); [auto|].
    intros w e Hw _. apply at_state_weaken with (K := K); [|exact Hw].
    apply state_of_stopped. }
  intros input_count.
  hstep ltac:(apply triple_log; apply quiet_state_of).
  eapply triple_bind.
  { apply triple_for_each. intros inp _.
    apply triple_ingest_input; [apply quiet_state_of | apply state_of_stopped]. }
  intros u.
  eapply triple_bind.
  { change 0.2%float with (level 1).
    apply triple_assign
      with (K' := state_of nm [] 1 true (parts 0 (eq TaskStatus.PENDING))).
    - intros s Hs _. apply evolves_progress with (k := 0); [apply Hs | lia | lia].
    - intros s Hs. apply state_of_progress
        with (k := 0) (shape := parts 0 (eq TaskStatus.PENDING));
        [exact Hs | lia | auto]. }
  intros u'. apply triple_ret. auto.
Qed.

Lemma planned_tasks_pending (steps : list string) :
  Forall (eq TaskStatus.PENDING) (map Task.status (planned_tasks steps)).
Proof.
  unfold planned_tasks. generalize 0 at 1. generalize 1%Z.
  induction steps as [|d ds IH]; intros z n; cbn; constructor; auto.
Qed.

Lemma triple_stage_plan (config : PyDict) nm :
  triple (at_state (state_of nm [] 1 true (parts 0 (eq TaskStatus.PENDING))))
         (stage_plan config)
         (fun tasks w =>
            at_state (state_of nm (map ident tasks) 2 true
                        (parts 0 (eq TaskStatus.PENDING))) w
            /\ exists name,
                 dict_get_default config "name" (VStr "workflow") = VStr name
                 /\ tasks = planned_tasks (plan_steps_for (PyStr.lower name)))
         (fun _ => at_state (stopped nm)).
Proof.
  unfold stage_plan.
  stage_step.
  eapply triple_bind.
  { apply triple_generate_plan with (K' := stopped nm);
      [apply quiet_state_of | apply state_of_stopped]. }
  intros tasks. apply triple_pure. intros Htasks.
  eapply triple_bind.
  { apply triple_assign
      with (K' := state_of nm (map ident tasks) 1 true
                    (parts 0 (eq TaskStatus.PENDING))).
    - intros s [(H1 & H2 & H3 & H4 & H5 & H6 & H7 & H8) Hst] Hin.
      unfold evolves. cbn.
      split; [reflexivity|]. split; [reflexivity|]. split; [reflexivity|].
      split; [exists []; now rewrite app_nil_r|].
      split; [left; now apply map_eq_nil in H2|].
      split; [now right|]. split; [now right|].
      split; [exact Hin|]. split; [exact Hin|]. now apply float_le_values_refl.
    - intros s [(H1 & H2 & H3 & H4 & H5 & H6 & H7 & H8) Hst].
      unfold state_of, state_core, statuses. cbn.
      split; [|exact Hst]. split; [exact H1|]. split; [reflexivity|].
      repeat (split; [assumption|]). split; [|exact H8].
      apply parts_start.
      destruct Htasks as (name & _ & ->). apply planned_tasks_pending. }
  intros u.
  eapply triple_bind.
  { change 0.3%float with (level 2).
    apply triple_assign
      with (K' := state_of nm (map ident tasks) 2 true
                    (parts 0 (eq TaskStatus.PENDING))).
    - intros s Hs _. apply evolves_progress with (k := 1); [apply Hs | lia | lia].
    - intros s Hs. apply state_of_progress
        with (k := 1) (shape := parts 0 (eq TaskStatus.PENDING));
        [exact Hs | lia | auto]. }
  intros u'. apply triple_ret. auto.
Qed.

Lemma triple_stage_execute (self : WorkflowEngine.t) (inputs : PyVal)
    (tasks : list Task.t) nm ids :
  List.length tasks = 5 ->
  triple (at_state (state_of nm ids 2 true (parts 0 (eq TaskStatus.PENDING))))
         (stage_execute self inputs tasks)
         (fun _ => at_state (state_of nm ids 7 true
                               (parts 5 (eq TaskStatus.PENDING))))
         (fun _ => at_state (stopped nm)).
Proof.
  intros Hlen. unfold stage_execute. rewrite Hlen.
  stage_step.
  assert (H := @triple_for_each_indexed Task.t
                 (fun k => at_state (state_of nm ids (2 + k) true
                                       (parts k (eq TaskStatus.PENDING))))
                 tasks 0 (run_task self inputs 5)
                 (fun _ => at_state (stopped nm))).
  rewrite Hlen in H. apply H.
  intros i task Hnth. cbn [Nat.add].
  apply triple_run_task. rewrite <- Hlen. apply nth_error_Some. congruence.
Qed.

Lemma triple_stage_complete (tasks : list Task.t) nm E :
  List.length tasks = 5 ->
  triple (at_state (state_of nm (map ident tasks) 7 true
                      (parts 5 (eq TaskStatus.PENDING))))
         (stage_complete tasks)
         (fun _ => at_state (completed nm (map ident tasks))) E.
Proof.
  intros Hlen. unfold stage_complete.
  set (K0 := fun (k : nat) (s : WorkflowResult.t) =>
               WorkflowResult.name s = nm
               /\ map ident (WorkflowResult.tasks s) = map ident tasks
               /\ Forall terminal (statuses s)
               /\ WorkflowResult.validation_failure s = None
               /\ WorkflowResult.completed_at s = None
               /\ WorkflowResult.progress s = level k
               /\ WorkflowResult.stage s = WorkflowStage.COMPLETED).
  set (K1 := fun k s => K0 k s /\ WorkflowResult.artifacts s = []).
  set (K2 := fun k s => K0 k s /\ WorkflowResult.artifacts s = the_artifacts).
  set (K3 := fun s =>
               WorkflowResult.name s = nm
               /\ map ident (WorkflowResult.tasks s) = map ident tasks
               /\ Forall terminal (statuses s)
               /\ WorkflowResult.validation_failure s = None
               /\ WorkflowResult.artifacts s = the_artifacts
               /\ (exists t, WorkflowResult.completed_at s = Some t)
               /\ WorkflowResult.progress s = 1%float
               /\ WorkflowResult.stage s = WorkflowStage.COMPLETED).
  eapply triple_bind.
  { apply triple_assign with (K' := K1 7); [same_fields|].
    intros s [(H1 & H2 & H3 & H4 & H5 & H6 & H7 & H8) Hst]. unfold K1, K0. cbn.
    split; [|exact H3]. split; [exact H1|]. split; [exact H2|].
    split.
    { apply parts_end with (P := eq TaskStatus.PENDING).
      assert (Hl : 5 = List.length (statuses s)).
      { unfold statuses.
        now rewrite length_map, <- (length_map ident (WorkflowResult.tasks s)),
          H2, length_map. }
      rewrite Hl in H7. exact H7. }
    split; [now apply H8|]. split; [exact H4|]. split; [exact H5 | reflexivity]. }
  intros u1. eapply triple_bind.
  { change 0.9%float with (level 8).
    apply triple_assign with (K' := K1 8).
    - intros s ((H1 & H2 & H3 & H4 & H5 & H6 & H7) & H8) _.
      apply evolves_progress with (k := 7); [exact H6 | lia | lia].
    - intros s ((H1 & H2 & H3 & H4 & H5 & H6 & H7) & H8). unfold K1, K0. cbn.
      split; [|exact H8]. repeat (split; [assumption|]).
      split; [reflexivity | exact H7]. }
  intros u2. eapply triple_bind.
  { apply triple_generate_artifacts with (K := K1 8).
    intros s e H. exact H. }
  intros artifacts. apply triple_pure. intros ->.
  eapply triple_bind.
  { apply triple_assign with (K' := K2 8).
    - intros s ((H1 & H2 & H3 & H4 & H5 & H6 & H7) & H8) Hin.
      unfold evolves, statuses. cbn.
      split; [reflexivity|]. split; [reflexivity|]. split; [reflexivity|].
      split; [exists []; now rewrite app_nil_r|].
      split; [right; split; [reflexivity | apply Forall2_rank_le_refl]|].
      split; [now left|]. split; [now right|].
      split; [exact Hin|]. split; [exact Hin|]. now apply float_le_values_refl.
    - intros s (H & H8). split; [exact H | reflexivity]. }
  intros u3. eapply triple_bind.
  { change 1%float with (level 9).
    apply triple_assign with (K' := K2 9).
    - intros s ((H1 & H2 & H3 & H4 & H5 & H6 & H7) & H8) _.
      apply evolves_progress with (k := 8); [exact H6 | lia | lia].
    - intros s ((H1 & H2 & H3 & H4 & H5 & H6 & H7) & H8). unfold K2, K0. cbn.
      split; [|exact H8].
      repeat (split; [assumption|]). split; [reflexivity | exact H7]. }
  intros u4. eapply triple_bind; [apply triple_now|].
  intros finished.
  eapply triple_bind.
  { apply triple_assign with (K' := K3).
    - intros s ((H1 & H2 & H3 & H4 & H5 & H6 & H7) & H8) Hin.
      unfold evolves, statuses. cbn.
      split; [reflexivity|]. split; [reflexivity|]. split; [reflexivity|].
      split; [exists []; now rewrite app_nil_r|].
      split; [right; split; [reflexivity | apply Forall2_rank_le_refl]|].
      split; [now right|]. split; [now left|].
      split; [exact Hin|]. split; [exact Hin|]. now apply float_le_values_refl.
    - intros s ((H1 & H2 & H3 & H4 & H5 & H6 & H7) & H8). unfold K3. cbn.
      repeat (split; [assumption|]). split; [now eexists|].
      split; [exact H6 | exact H7]. }
  intros u5. apply triple_add_log.
  intros s ts (H1 & H2 & H3 & H4 & H5 & H6 & H7 & H8).
  unfold completed. cbn. rewrite length_map.
  repeat (split; [assumption|]). now eexists _, _.
Qed.

(** ** The whole run *)

Lemma triple_workflow_body (self : WorkflowEngine.t) (config : PyDict) nm :
  triple (at_state (state_of nm [] 0 true (parts 0 (eq TaskStatus.PENDING))))
         (workflow_body self config)
         (fun _ w =>
            exists name,
              dict_get config "name" = Some (VStr name)
              /\ at_state
                   (completed nm
                      (map ident (planned_tasks (plan_steps_for (PyStr.lower name)))))
                   w)
         (fun _ => at_state (stopped nm)).
Proof.
  unfold workflow_body.
  eapply triple_bind; [apply triple_stage_ingest|].
  intros inputs. apply triple_pure. intros [v Hv].
  eapply triple_bind; [apply triple_stage_plan|].
  intros tasks. apply triple_pure. intros (name & Hname & ->).
  unfold dict_get_default in Hname. rewrite Hv in Hname. subst v.
  assert (Hlen : List.length (planned_tasks (plan_steps_for (PyStr.lower name))) = 5).
  { destruct (plan_steps_five (PyStr.lower name)) as (d1 & d2 & d3 & d4 & d5 & ->).
    reflexivity. }
  hstep ltac:(apply triple_stage_execute; exact Hlen).
  eapply triple_conseq; [apply triple_stage_complete; exact Hlen
                        | intros w H; exact H | | intros e w H; exact H].
  intros u w Hw. now exists name.
Qed.

Lemma triple_workflow_handler (e : PyExc) nm (Q : unit -> World -> Prop) :
  triple (at_state (stopped nm)) (workflow_handler e) Q
         (fun e' w => e' = e /\ at_state (failed_with nm e) w).
Proof.
  unfold workflow_handler.
  set (K1 := fun s => interrupted nm s
                      /\ WorkflowResult.stage s = WorkflowStage.FAILED).
  eapply triple_bind.
  { apply triple_assign with (K' := K1); [same_fields|].
    intros s [Hs _]. split; [exact Hs | reflexivity]. }
  intros u1. eapply triple_bind.
  { apply triple_add_log with (K' := failed_with nm e).
    intros s ts [Hs Hst]. split; [exact Hs|]. split; [exact Hst|]. now eexists _, _. }
  intros u2. apply triple_raise. auto.
Qed.

(** The outcome of [execute_workflow], for any engine and any config: the
    run returns completed, or it raises, and then the handler has marked
    the run as failed when the exception is an [Exception], and has not run
    otherwise. *)
Lemma triple_execute_workflow (self : WorkflowEngine.t) (config : PyDict) :
  triple (fun _ => True) (execute_workflow self config)
         (fun s w =>
            current_workflow w = Some s
            /\ exists name,
                 dict_get config "name" = Some (VStr name)
                 /\ at_state
                      (completed (VStr name)
                         (map ident
                            (planned_tasks (plan_steps_for (PyStr.lower name)))))
                      w)
         (fun e w =>
            let nm := dict_get_default config "name" (VStr "Unnamed Workflow") in
            if is_Exception e then at_state (failed_with nm e) w
            else at_state (stopped nm) w).
Proof.
  set (nm := dict_get_default config "name" (VStr "Unnamed Workflow")).
  unfold execute_workflow.
  eapply triple_bind with (Q1 := fun _ _ => True); [intros w _; exact I|].
  intros workflow_id.
  eapply triple_bind with (Q1 := fun _ _ => True); [intros w _; exact I|].
  intros created_at.
  eapply triple_bind
    with (Q1 := fun _ => at_state (state_of nm [] 0 true
                                     (parts 0 (eq TaskStatus.PENDING)))).
  { intros w _. cbn. split; [exact I|]. eexists _, []. split; [reflexivity|].
    split; [|left; reflexivity].
    unfold state_of, state_core, statuses. cbn.
    split; [|discriminate].
    repeat (split; [reflexivity|]). split; [lia|].
    split; [apply parts_nil | reflexivity]. }
  intros u. eapply triple_bind.
  { eapply triple_try_except; [apply triple_workflow_body| |].
    - intros e He. eapply triple_conseq;
        [apply triple_workflow_handler | intros w H; exact H
        | intros a w H; exact H |].
      intros e' w [-> H]. cbv zeta. rewrite He. exact H.
    - intros e w He H. cbv zeta. rewrite He. exact H. }
  intros u' w (name & Hname & Hw). unfold return_current_workflow.
  destruct Hw as [Hc (s & tr & Ht & Hs & Hin)]. rewrite Ht. cbn.
  split; [unfold current_workflow; now rewrite Ht|].
  exists name. split; [exact Hname|].
  assert (Hnm : nm = VStr name).
  { subst nm. unfold dict_get_default. now rewrite Hname. }
  rewrite <- Hnm. split; [exact Hc|]. exists s, tr. auto.
Qed.

(** ** What every run keeps, whatever the engine *)

(** A state of a run seen from a later one: the same run, a log that the
    later log starts with, tasks that are the same tasks with statuses not
    further in their order, and a progress that is not greater. *)
Definition earlier_state (s later : WorkflowResult.t) : Prop :=
  WorkflowResult.workflow_id s = WorkflowResult.workflow_id later
  /\ WorkflowResult.name s = WorkflowResult.name later
  /\ WorkflowResult.created_at s = WorkflowResult.created_at later
  /\ (exists ext,
        WorkflowResult.logs later = (WorkflowResult.logs s ++ ext)%list)
  /\ (WorkflowResult.tasks s = []
      \/ (map ident (WorkflowResult.tasks later) = map ident (WorkflowResult.tasks s)
          /\ Forall2 rank_le (statuses s) (statuses later)))
  /\ float_le (WorkflowResult.progress s) (WorkflowResult.progress later).

Lemma Forall2_rank_le_trans (l1 l2 l3 : list TaskStatus.t) :
  Forall2 rank_le l1 l2 -> Forall2 rank_le l2 l3 -> Forall2 rank_le l1 l3.
Proof.
  intros H. revert l3. induction H as [|x y l1 l2 Hxy H IH]; intros l3 H3.
  - inversion H3. constructor.
  - inversion H3 as [|y' z l2' l3' Hyz H3']; subst. constructor.
    + unfold rank_le in *. lia.
    + now apply IH.
Qed.

Lemma earlier_state_refl (s : WorkflowResult.t) :
  In (WorkflowResult.progress s) progress_values -> earlier_state s s.
Proof.
  intros Hin. unfold earlier_state.
  split; [reflexivity|]. split; [reflexivity|]. split; [reflexivity|].
  split; [exists []; now rewrite app_nil_r|].
  split; [right; split; [reflexivity | apply Forall2_rank_le_refl]|].
  now apply float_le_values_refl.
Qed.

Lemma earlier_state_step (s mid later : WorkflowResult.t) :
  In (WorkflowResult.progress s) progress_values ->
  earlier_state s mid -> evolves mid later -> earlier_state s later.
Proof.
  intros Hin (H1 & H2 & H3 & [ext H4] & H5 & H6)
         (E1 & E2 & E3 & [ext' E4] & E5 & E6 & E7 & E8 & E9 & E10).
  split; [congruence|]. split; [congruence|]. split; [congruence|].
  split; [exists (ext ++ ext')%list; now rewrite E4, H4, app_assoc|].
  split; [|now apply float_le_values_trans with (b := WorkflowResult.progress mid)].
  destruct H5 as [H5 | [H5 H5']]; [now left|].
  destruct E5 as [E5 | [E5 E5']].
  - left. rewrite E5 in H5. symmetry in H5. now apply map_eq_nil in H5.
  - right. split; [congruence|].
    now apply Forall2_rank_le_trans with (l2 := statuses mid).
Qed.

(** Every state of a chain has its progress among [progress_values]. *)
Lemma chain_progress_values (l : list WorkflowResult.t) :
  forall final,
    In (WorkflowResult.progress final) progress_values ->
    chain evolves (final :: l) ->
    forall s, In s (final :: l) -> In (WorkflowResult.progress s) progress_values.
Proof.
  induction l as [|x l IH]; intros final Hf Hc s Hin.
  - destruct Hin as [<- | []]. exact Hf.
  - destruct Hin as [<- | Hin]; [exact Hf|].
    change (evolves x final /\ chain evolves (x :: l)) in Hc.
    destruct Hc as [He Hc].
    apply (IH x); [apply He | exact Hc | exact Hin].
Qed.

Lemma chain_earlier_state (l : list WorkflowResult.t) :
  forall final,
    In (WorkflowResult.progress final) progress_values ->
    chain evolves (final :: l) ->
    forall s, In s (final :: l) -> earlier_state s final.
Proof.
  induction l as [|x l IH]; intros final Hf Hc s Hin.
  - destruct Hin as [<- | []]. now apply earlier_state_refl.
  - destruct Hin as [<- | Hin]; [now apply earlier_state_refl|].
    pose proof (@chain_progress_values (x :: l) final Hf Hc) as Hvals.
    change (evolves x final /\ chain evolves (x :: l)) in Hc.
    destruct Hc as [He Hc].
    apply earlier_state_step with (mid := x); [|now apply IH; [apply He|..]|exact He].
    apply Hvals. now right.
Qed.

(** Whatever the engine (any validator, with any rules, and any corrector)
    and whatever the config: from one state of a run to the next the
    workflow keeps its id, its name and its creation time, its log grows at
    the end only, its tasks, once planned, remain the same tasks (id, step
    number, description) and none goes back in the order PENDING, RUNNING,
    COMPLETED or FAILED, CORRECTED, its progress is one of the ten values
    of [progress_values] and does not decrease, and its artifacts and
    completion time are set once; so every state of the run compares in
    this way with the last one. *)
Theorem run_states_evolve (self : WorkflowEngine.t) (cfg : PyDict) (w : World) :
  let rw := execute_workflow self cfg w in
  chain evolves (trace (snd rw))
  /\ exists final,
       current_workflow (snd rw) = Some final
       /\ WorkflowResult.name final
          = dict_get_default cfg "name" (VStr "Unnamed Workflow")
       /\ forall s, In s (trace (snd rw)) -> earlier_state s final.
Proof.
  intros rw. subst rw.
  assert (H := @triple_execute_workflow self cfg w I).
  assert (Hgen : forall K w',
             at_state K w' ->
             (forall s, K s -> WorkflowResult.name s
                               = dict_get_default cfg "name" (VStr "Unnamed Workflow")) ->
             chain evolves (trace w')
             /\ exists final,
                  current_workflow w' = Some final
                  /\ WorkflowResult.name final
                     = dict_get_default cfg "name" (VStr "Unnamed Workflow")
                  /\ forall s, In s (trace w') -> earlier_state s final).
  { intros K w' [Hc (s & tr & Ht & Hs & Hin)] Hname. split; [exact Hc|].
    exists s. unfold current_workflow. rewrite Ht in *.
    split; [reflexivity|]. split; [now apply Hname|].
    now apply chain_earlier_state. }
  destruct (execute_workflow self cfg w) as [[s|e] w']; cbn [snd].
  - destruct H as (_ & name & Hname & H). apply (Hgen _ _ H).
    intros s0 (Hn & _). rewrite Hn. unfold dict_get_default. now rewrite Hname.
  - cbv zeta in H. destruct (is_Exception e); apply (Hgen _ _ H).
    + intros s0 ((ids & k & i & Hn & _) & _). exact Hn.
    + intros s0 ((ids & k & i & Hn & _) & _). exact Hn.
Qed.

(** Whatever the engine: a run that returns gives the current workflow,
    COMPLETED with progress 1.0, named by the config's name (a string), with
    the five tasks planned for that name, each of them COMPLETED, FAILED or
    CORRECTED, the three artifacts, a completion time, no pending validation
    failure, and the entry of the completion last in its log. *)
Theorem run_returned_state (self : WorkflowEngine.t) (cfg : PyDict) (w : World)
    (s : WorkflowResult.t) :
  fst (execute_workflow self cfg w) = Ok s ->
  current_workflow (snd (execute_workflow self cfg w)) = Some s
  /\ exists name,
       dict_get cfg "name" = Some (VStr name)
       /\ WorkflowResult.name s = VStr name
       /\ map ident (WorkflowResult.tasks s)
          = map ident (planned_tasks (plan_steps_for (PyStr.lower name)))
       /\ List.length (WorkflowResult.tasks s) = 5
       /\ Forall terminal (statuses s)
       /\ WorkflowResult.stage s = WorkflowStage.COMPLETED
       /\ WorkflowResult.progress s = 1%float
       /\ WorkflowResult.artifacts s = the_artifacts
       /\ Forall (fun a => Artifact.verified a = true) (WorkflowResult.artifacts s)
       /\ (exists t, WorkflowResult.completed_at s = Some t)
       /\ WorkflowResult.validation_failure s = None
       /\ exists entries ts,
            WorkflowResult.logs s
            = (entries
                 ++ [LogEntry.mk ts "success" "Workflow completed successfully"
                       [ ("total_tasks", MetaInt 5); ("artifacts", MetaInt 3) ]])%list.
Proof.
  intros Hr.
  assert (H := @triple_execute_workflow self cfg w I).
  destruct (execute_workflow self cfg w) as [[s'|e] w']; [|discriminate].
  cbn [fst snd] in *. injection Hr as ->.
  destruct H as (Hcur & name & Hname & [Hc (s0 & tr & Ht & Hs & Hin)]).
  split; [exact Hcur|].
  assert (s0 = s).
  { unfold current_workflow in Hcur. rewrite Ht in Hcur. congruence. }
  subst s0. exists name. split; [exact Hname|].
  destruct Hs as (H1 & H2 & Hterm & H3 & H4 & H5 & H6 & H7 & entries & ts & H8).
  assert (Hlen : List.length (planned_tasks (plan_steps_for (PyStr.lower name))) = 5).
  { destruct (plan_steps_five (PyStr.lower name)) as (d1 & d2 & d3 & d4 & d5 & ->).
    reflexivity. }
  split; [exact H1|]. split; [exact H2|].
  split; [now rewrite <- (length_map ident), H2, length_map|].
  split; [exact Hterm|]. split; [exact H7|]. split; [exact H6|]. split; [exact H4|].
  split; [rewrite H4; repeat constructor|].
  split; [exact H5|]. split; [exact H3|].
  exists entries, ts. rewrite H8, length_map, Hlen. reflexivity.
Qed.

(** Whatever the engine: a run that raises an exception of a class that
    derives from [Exception] leaves the current workflow FAILED, named by
    the config's name (Unnamed Workflow without one), with progress below
    1.0, no artifact, no completion time and no pending validation failure,
    its first tasks COMPLETED, FAILED or CORRECTED and all the others
    PENDING (none is left RUNNING), and the error entry of the exception
    last in its log; a run that raises an exception of another class (a
    rule that raises KeyboardInterrupt or SystemExit) is not handled: its
    stage is not FAILED. *)
Theorem run_failed_state (self : WorkflowEngine.t) (cfg : PyDict) (w : World)
    (e : PyExc) :
  fst (execute_workflow self cfg w) = Raise e ->
  exists s,
    current_workflow (snd (execute_workflow self cfg w)) = Some s
    /\ WorkflowResult.name s = dict_get_default cfg "name" (VStr "Unnamed Workflow")
    /\ (is_Exception e = true ->
        WorkflowResult.stage s = WorkflowStage.FAILED
        /\ float_lt (WorkflowResult.progress s) 1
        /\ WorkflowResult.artifacts s = []
        /\ WorkflowResult.completed_at s = None
        /\ WorkflowResult.validation_failure s = None
        /\ (exists k, Forall terminal (firstn k (statuses s))
                      /\ Forall (eq TaskStatus.PENDING) (skipn k (statuses s)))
        /\ exists entries ts,
             WorkflowResult.logs s
             = (entries
                  ++ [LogEntry.mk ts "error" ("Workflow failed: " ++ exc_str e) []])%list)
    /\ (is_Exception e = false ->
        WorkflowResult.stage s <> WorkflowStage.FAILED).
Proof.
  intros Hr.
  assert (H := @triple_execute_workflow self cfg w I).
  destruct (execute_workflow self cfg w) as [[s'|e'] w']; [discriminate|].
  cbn [fst snd] in *. injection Hr as ->. cbv zeta in H.
  destruct (is_Exception e).
  - destruct H as [Hc (s & tr & Ht & Hs & Hin)].
    exists s. split; [unfold current_workflow; now rewrite Ht|].
    destruct Hs as ((ids & k & i & H1 & H2 & H3 & H4 & H5 & H6 & H7 & H8) & Hst & Hlog).
    split; [exact H1|]. split; [|discriminate]. intros _.
    split; [exact Hst|].
    split; [rewrite H5; now apply level_lt_1|].
    split; [exact H3|]. split; [exact H4|]. split; [now apply H8|].
    split; [exists i; now apply parts_cut | exact Hlog].
  - destruct H as [Hc (s & tr & Ht & Hs & Hin)].
    exists s. split; [unfold current_workflow; now rewrite Ht|].
    destruct Hs as ((ids & k & i & H1 & _) & Hst).
    split; [exact H1|]. split; [discriminate|]. intros _. exact Hst.
Qed.

(** An engine whose validator has a rule that raises. *)
Definition raising_rule : ValidationRule.t :=
  ValidationRule.mk "schema_check" "Check the output against a schema" "high"
    (fun _ => Raise (mkExc "ValueError" "no schema loaded")).

Definition custom_engine (rule : ValidationRule.t) : WorkflowEngine.t :=
  WorkflowEngine.mk (Some (Validator.add_custom_rule Validator.init rule))
                    (Some Corrector.init).

Lemma run_returned_state_witness :
  exists s,
    fst (execute_workflow (custom_engine strict_rule) demo_config fresh_world) = Ok s
    /\ WorkflowResult.stage s = WorkflowStage.COMPLETED
    /\ WorkflowResult.artifacts s = the_artifacts.
Proof.
  destruct (fst (execute_workflow (custom_engine strict_rule) demo_config fresh_world))
    as [s|e] eqn:Hr.
  - exists s. split; [reflexivity|].
    destruct (@run_returned_state (custom_engine strict_rule) demo_config
                fresh_world s Hr)
      as (_ & name & _ & _ & _ & _ & _ & Hst & _ & Ha & _).
    split; [exact Hst | exact Ha].
  - vm_compute in Hr. discriminate.
Defined.

Lemma run_failed_state_witness :
  exists s,
    current_workflow
      (snd (execute_workflow (custom_engine raising_rule) demo_config fresh_world))
    = Some s
    /\ WorkflowResult.stage s = WorkflowStage.FAILED
    /\ exists entries ts,
         WorkflowResult.logs s
         = (entries
              ++ [LogEntry.mk ts "error" "Workflow failed: no schema loaded" []])%list.
Proof.
  destruct (@run_failed_state (custom_engine raising_rule) demo_config fresh_world
              (mkExc "ValueError" "no schema loaded"))
    as (s & Hcur & _ & Hexc & _).
  - vm_compute. reflexivity.
  - destruct (Hexc eq_refl) as (Hst & _ & _ & _ & _ & _ & Hlog).
    exists s. split; [exact Hcur|]. split; [exact Hst | exact Hlog].
Defined.

(* ================================================================== *)
(** * What one call of the engine touches *)
(* ================================================================== *)

Lemma update_nth_twice {A} (i : nat) (f g : A -> A) (l : list A) :
  update_nth i f (update_nth i g l) = update_nth i (fun x => f (g x)) l.
Proof.
  revert i. induction l as [|x l IH]; intros [|i]; cbn; try reflexivity.
  now rewrite IH.
Qed.

Lemma nth_error_update_nth_other {A} (f : A -> A) (l : list A) (i j : nat) :
  i <> j -> nth_error (update_nth i f l) j = nth_error l j.
Proof.
  revert i j. induction l as [|x l IH]; intros [|i] [|j] H; cbn;
    try reflexivity; try contradiction.
  apply IH. lia.
Qed.

Lemma length_update_nth {A} (f : A -> A) (l : list A) (i : nat) :
  List.length (update_nth i f l) = List.length l.
Proof. revert i. induction l as [|x l IH]; intros [|i]; cbn; auto. Qed.

(** [s'] is [s] up to its tasks and its log. *)
Definition same_but_tasks_and_log (s s' : WorkflowResult.t) : Prop :=
  WorkflowResult.set_tasks (WorkflowResult.tasks s)
    (WorkflowResult.set_logs (WorkflowResult.logs s) s') = s.

(** [execute_task] on the task at index [i] of the current workflow never
    raises and does not read the inputs; it adds one entry to the log,
    leaves the other tasks and the other fields of the workflow as they
    are, and changes of its own task the status, the start time and the
    completion time or the error only. *)
Theorem execute_task_frame (i : nat) (task : Task.t) (inputs : PyVal)
    (s : WorkflowResult.t) (tr : list WorkflowResult.t) (n : nat) :
  nth_error (WorkflowResult.tasks s) i = Some task ->
  let rw := execute_task i task inputs (mkWorld (s :: tr) n) in
  fst rw = Ok (if (Task.step_number task =? 3)%Z then failed_output
               else completed_output task)
  /\ exists s' t' ts,
       current_workflow (snd rw) = Some s'
       /\ same_but_tasks_and_log s s'
       /\ WorkflowResult.logs s'
          = (WorkflowResult.logs s
               ++ [LogEntry.mk ts "info"
                     ("Executing step " ++ PyStr.of_Z (Task.step_number task) ++ ": "
                        ++ Task.description task) []])%list
       /\ List.length (WorkflowResult.tasks s') = List.length (WorkflowResult.tasks s)
       /\ (forall j, j <> i ->
             nth_error (WorkflowResult.tasks s') j
             = nth_error (WorkflowResult.tasks s) j)
       /\ nth_error (WorkflowResult.tasks s') i = Some t'
       /\ ident t' = ident task
       /\ Task.correction_applied t' = Task.correction_applied task
       /\ Task.started_at t' <> None
       /\ Task.status t'
          = (if (Task.step_number task =? 3)%Z then TaskStatus.FAILED
             else TaskStatus.COMPLETED)
       /\ (if (Task.step_number task =? 3)%Z
           then Task.error t' = Some "Edge case not handled"
                /\ Task.completed_at t' = Task.completed_at task
           else Task.error t' = Task.error task
                /\ Task.completed_at t' <> None).
Proof.
  intros Hat rw. subst rw.
  unfold execute_task, bind, assign_task, now, add_log.
  cbn [trace clock_reads fst snd].
  destruct (Task.step_number task =? 3)%Z;
    cbn [trace clock_reads fst snd ret bind assign_task now];
    (split; [reflexivity|]);
    unfold current_workflow; cbn [trace];
    eexists; eexists; eexists; (split; [reflexivity|]);
    cbn [WorkflowResult.tasks WorkflowResult.logs WorkflowResult.set_tasks
         WorkflowResult.append_log WorkflowResult.set_logs];
    rewrite ?update_nth_twice;
    (split; [destruct s; reflexivity|]);
    (split; [reflexivity|]);
    (split; [apply length_update_nth|]);
    (split; [intros j Hj; apply nth_error_update_nth_other; congruence|]);
    (split; [rewrite nth_error_update_nth, Hat; reflexivity|]);
    cbn; repeat split; discriminate.
Qed.

Lemma execute_task_frame_witness :
  fst (execute_task 1 (new_task 2 "Apply analysis algorithms") VNone planned_world)
  = Ok (completed_output (new_task 2 "Apply analysis algorithms")).
Proof.
  apply (@execute_task_frame 1 (new_task 2 "Apply analysis algorithms") VNone
           (WorkflowResult.mk 0 (VStr "demo") WorkflowStage.EXECUTING 0.3%float
              (planned_tasks default_plan) [] [] None None 1 None) [] 2).
  reflexivity.
Defined.

(** The correction the engine applies without a corrector. *)
Definition fallback_correction (task : Task.t) : CorrectionStrategy.t :=
  CorrectionStrategy.mk "Add null-check and default handling for citation lists"
                        "inject_defensive_code" 0.95%float (Task.id task).

(** [apply_correction] never raises.  With a corrector it returns the
    corrector's proposal and adds one entry to the log, and nothing else
    changes: the task is not marked.  Without one it returns the same
    correction whatever the validation result, adds four entries to the
    log, and marks its task CORRECTED with a completion time, whatever the
    status was, keeping the error of the task; the other tasks and the
    other fields of the workflow stay as they are. *)
Theorem apply_correction_frame (self : WorkflowEngine.t) (i : nat) (task : Task.t)
    (validation : ValidationResult.t)
    (s : WorkflowResult.t) (tr : list WorkflowResult.t) (n : nat) :
  let rw := apply_correction self i task validation (mkWorld (s :: tr) n) in
  (forall c, corrector self = Some c ->
     fst rw = Ok (Corrector.correct c task validation)
     /\ exists ts,
          current_workflow (snd rw)
          = Some (WorkflowResult.append_log
                    (LogEntry.mk ts "warning"
                       "Initiating autonomous self-correction..." []) s))
  /\ (corrector self = None ->
      nth_error (WorkflowResult.tasks s) i = Some task ->
      fst rw = Ok (fallback_correction task)
      /\ exists s' t',
           current_workflow (snd rw) = Some s'
           /\ same_but_tasks_and_log s s'
           /\ map entry_view (WorkflowResult.logs s')
              = (map entry_view (WorkflowResult.logs s)
                   ++ [ ("warning", "Initiating autonomous self-correction...");
                        ("warning",
                         "Correction strategy: Add null-check and default handling for citation lists");
                        ("info", "Re-executing with correction...");
                        ("success", "Validation PASSED after correction") ])%list
           /\ (forall j, j <> i ->
                 nth_error (WorkflowResult.tasks s') j
                 = nth_error (WorkflowResult.tasks s) j)
           /\ nth_error (WorkflowResult.tasks s') i = Some t'
           /\ ident t' = ident task
           /\ Task.status t' = TaskStatus.CORRECTED
           /\ Task.correction_applied t' = true
           /\ Task.completed_at t' <> None
           /\ Task.started_at t' = Task.started_at task
           /\ Task.error t' = Task.error task).
Proof.
  intros rw. subst rw. unfold apply_correction, bind, add_log.
  cbn [trace clock_reads fst snd]. split.
  - intros c ->. cbn. split; [reflexivity|]. now eexists.
  - intros -> Hat.
    unfold assign_task, now, add_log.
    cbn [trace clock_reads fst snd ret bind].
    split; [reflexivity|].
    unfold current_workflow; cbn [trace].
    eexists; eexists; (split; [reflexivity|]).
    cbn [WorkflowResult.tasks WorkflowResult.logs WorkflowResult.set_tasks
         WorkflowResult.append_log WorkflowResult.set_logs].
    rewrite ?update_nth_twice.
    split; [destruct s; reflexivity|].
    split; [rewrite !map_app, <- !app_assoc; reflexivity|].
    split; [intros j Hj; apply nth_error_update_nth_other; congruence|].
    split; [rewrite nth_error_update_nth, Hat; reflexivity|].
    cbn. repeat split. discriminate.
Qed.

(* ================================================================== *)
(** * Planning and ingestion, when they fail *)
(* ================================================================== *)

(** [generate_plan] reads the name first and the length of the inputs
    second: it raises AttributeError for a name that is no string, else
    TypeError for inputs without a length, and in both cases leaves the
    entry of the analysis in the log, and no task. *)
Theorem generate_plan_raises (cfg : PyDict) (s : WorkflowResult.t)
    (tr : list WorkflowResult.t) (n : nat) (e : PyExc) :
  let task_type := dict_get_default cfg "name" (VStr "workflow") in
  let inputs := dict_get_default cfg "inputs" (VList []) in
  let rw := generate_plan cfg (mkWorld (s :: tr) n) in
  fst rw = Raise e ->
  ((e = AttributeError task_type "lower" /\ forall name, task_type <> VStr name)
   \/ (e = TypeError_no_len inputs
       /\ (exists name, task_type = VStr name)
       /\ py_len inputs = Raise e))
  /\ current_workflow (snd rw)
     = Some (WorkflowResult.append_log
               (LogEntry.mk n "info" "Gemini 3 analyzing task requirements..." [])
               s).
Proof.
  intros task_type inputs rw. subst rw.
  unfold generate_plan, bind, add_log, lift. cbn [trace clock_reads fst snd].
  fold task_type. fold inputs.
  destruct (py_lower task_type) as [lowered|e1] eqn:Hl.
  - destruct (py_len inputs) as [k|e2] eqn:Hk; cbn; [discriminate|].
    intros H. injection H as <-. split; [|reflexivity].
    right. split; [now apply py_len_raise|]. split; [|reflexivity].
    destruct task_type; try discriminate. now eexists.
  - cbn. intros H. injection H as <-. split; [|reflexivity].
    left. destruct task_type; cbn in Hl; try discriminate;
      injection Hl as <-; (split; [reflexivity | intros name; discriminate]).
Qed.

Lemma generate_plan_raises_witness :
  current_workflow
    (snd (generate_plan [ ("name", VInt 7) ] planned_world))
  = Some (WorkflowResult.append_log
            (LogEntry.mk 2 "info" "Gemini 3 analyzing task requirements..." [])
            (WorkflowResult.mk 0 (VStr "demo") WorkflowStage.EXECUTING 0.3%float
               (planned_tasks default_plan) [] [] None None 1 None)).
Proof.
  apply (@generate_plan_raises [ ("name", VInt 7) ]
           (WorkflowResult.mk 0 (VStr "demo") WorkflowStage.EXECUTING 0.3%float
              (planned_tasks default_plan) [] [] None None 1 None) [] 2
           (AttributeError (VInt 7) "lower")).
  reflexivity.
Defined.

(** The message the loop over the inputs logs for one input. *)
Definition ingest_message (inp : PyDict) : string :=
  "Ingested " ++ py_str (dict_get_default inp "type" (VStr "unknown"))
    ++ ": " ++ py_str (dict_get_default inp "name" (VStr "unknown")).

(** The loop over the inputs logs one success entry for each input, in the
    order of the inputs, with [unknown] for a missing type or name; at the
    first input that is no dict it raises AttributeError, the entries of
    the inputs before it being logged; nothing but the log changes. *)
Theorem ingest_inputs_log (ds : list PyDict) (rest : list PyVal) :
  match rest with
  | [] => True
  | v :: _ => forall d, v <> VDict d
  end ->
  forall (s : WorkflowResult.t) (tr : list WorkflowResult.t) (n : nat),
    let rw := for_each (map VDict ds ++ rest)%list ingest_input
                       (mkWorld (s :: tr) n) in
    fst rw = match rest with
             | [] => Ok tt
             | v :: _ => Raise (AttributeError v "get")
             end
    /\ exists s',
         current_workflow (snd rw) = Some s'
         /\ WorkflowResult.set_logs (WorkflowResult.logs s) s' = s
         /\ map entry_view (WorkflowResult.logs s')
            = (map entry_view (WorkflowResult.logs s)
                 ++ map (fun d => ("success", ingest_message d)) ds)%list.
Proof.
  intros Hrest. induction ds as [|d ds IH]; intros s tr n rw; subst rw.
  - cbn [map app]. destruct rest as [|v rest].
    + cbn. split; [reflexivity|]. exists s. split; [reflexivity|].
      split; [destruct s; reflexivity | now rewrite app_nil_r].
    + cbn [for_each]. unfold bind, ingest_input at 1, bind, lift.
      destruct v as [| | | | |d]; try (now contradiction (Hrest d));
        cbn; (split; [reflexivity|]); exists s; (split; [reflexivity|]);
        (split; [destruct s; reflexivity | now rewrite app_nil_r]).
  - change (for_each (map VDict (d :: ds) ++ rest)%list ingest_input
              (mkWorld (s :: tr) n))
      with (for_each (map VDict ds ++ rest)%list ingest_input
              (mkWorld (WorkflowResult.append_log
                          (LogEntry.mk n "success" (ingest_message d) []) s
                          :: s :: tr) (S n))).
    destruct (IH (WorkflowResult.append_log
                    (LogEntry.mk n "success" (ingest_message d) []) s)
                 (s :: tr) (S n)) as (Hr & s' & Hcur & Hsame & Hlog).
    split; [exact Hr|]. exists s'. split; [exact Hcur|]. split.
    + destruct s, s'; cbn in Hsame |- *.
      injection Hsame; intros; subst; reflexivity.
    + rewrite Hlog. cbn. rewrite map_app, <- app_assoc. reflexivity.
Qed.

Lemma ingest_inputs_log_witness :
  fst (for_each [ VDict [ ("type", VStr "pdf") ]; VStr "notes.txt" ] ingest_input
         planned_world)
  = Raise (AttributeError (VStr "notes.txt") "get").
Proof.
  apply (@ingest_inputs_log [ [ ("type", VStr "pdf") ] ] [ VStr "notes.txt" ]).
  intros d. discriminate.
Defined.

(** [validate_output] first logs that it validates.  With a validator it
    then passes on the verdict or the exception of [Validator.validate] as
    it is and logs nothing more, not even a failure.  Without one it never
    raises: it fails step 3 and passes every other step, whatever the
    output, and logs the verdict.  Nothing but the log changes. *)
Theorem validate_output_frame (self : WorkflowEngine.t) (task : Task.t)
    (output : PyVal) (s : WorkflowResult.t) (tr : list WorkflowResult.t) (n : nat) :
  let rw := validate_output self task output (mkWorld (s :: tr) n) in
  let started :=
    WorkflowResult.append_log
      (LogEntry.mk n "info"
         ("Validating step " ++ PyStr.of_Z (Task.step_number task) ++ " output...")
         []) s in
  (forall v, validator self = Some v ->
     fst rw = Validator.validate v task output
     /\ current_workflow (snd rw) = Some started)
  /\ (validator self = None ->
      fst rw = Ok (if (Task.step_number task =? 3)%Z then fallback_failure task
                   else ValidationResult.mk true [] "none" (Task.id task))
      /\ current_workflow (snd rw)
         = Some (WorkflowResult.append_log
                   (if (Task.step_number task =? 3)%Z
                    then LogEntry.mk (S n) "error"
                           "Validation FAILED: Missing error handling for edge case: empty citation list"
                           []
                    else LogEntry.mk (S n) "success"
                           ("Step " ++ PyStr.of_Z (Task.step_number task)
                              ++ " validation passed") [])
                   started)).
Proof.
  intros rw started. subst rw started.
  unfold validate_output, bind, add_log, lift. cbn [trace clock_reads fst snd].
  split.
  - intros v ->. cbn. destruct (Validator.validate v task output); split; reflexivity.
  - intros ->. destruct (Task.step_number task =? 3)%Z; split; reflexivity.
Qed.

(** Outside a run, when the engine has no current workflow, [add_log]
    does nothing, so that [generate_plan], [validate_output] and
    [generate_artifacts] give their results and leave the engine as it is:
    no workflow is created and nothing is logged. *)
Theorem calls_outside_a_run (self : WorkflowEngine.t) (cfg : PyDict)
    (task : Task.t) (output : PyVal) (level message : string)
    (metadata : list (string * Meta)) (w : World) :
  current_workflow w = None ->
  add_log level message metadata w = (Ok tt, w)
  /\ snd (generate_plan cfg w) = w
  /\ (forall name k,
        dict_get_default cfg "name" (VStr "workflow") = VStr name ->
        py_len (dict_get_default cfg "inputs" (VList [])) = Ok k ->
        fst (generate_plan cfg w)
        = Ok (planned_tasks (plan_steps_for (PyStr.lower name))))
  /\ snd (validate_output self task output w) = w
  /\ generate_artifacts w = (Ok the_artifacts, w).
Proof.
  intros Hcur. unfold current_workflow in Hcur.
  destruct w as [[|s tr] n]; [clear Hcur | discriminate].
  split; [reflexivity|]. split; [|split; [|split]].
  - unfold generate_plan, bind, add_log, lift. cbn [trace fst snd].
    destruct (py_lower _); [|reflexivity]. cbn.
    destruct (py_len _); reflexivity.
  - intros name k Hname Hk. unfold generate_plan, bind, add_log, lift.
    cbn [trace fst snd]. rewrite Hname, Hk. reflexivity.
  - unfold validate_output, bind, add_log, lift. cbn [trace fst snd].
    destruct (validator self) as [v|].
    + destruct (Validator.validate v task output); reflexivity.
    + destruct (Task.step_number task =? 3)%Z; reflexivity.
  - reflexivity.
Qed.

Lemma calls_outside_a_run_witness :
  generate_artifacts fresh_world = (Ok the_artifacts, fresh_world).
Proof.
  apply (@calls_outside_a_run (init false) [] (new_task 1 "Process and normalize input data")
           VNone "info" "Starting" [] fresh_world).
  reflexivity.
Defined.
